(** * vmware-mcp-server: the operation-execution pipeline

    A shallow embedding of the permission table ([src/auth.py]), of the
    cross-cutting decorators and of the task poller ([src/utils.py]) and of
    the operations built from them ([src/vm_operations.py],
    [src/snapshot_operations.py], [src/resource_operations.py]).

    Conventions of the embedding:
    - A Python [str] is the [string] of its UTF-8 bytes; [len] counts the
      code points, that is, the bytes that are not continuation bytes.
    - [time.time()] is a clock of type [Z] counted in seconds.  Only
      [asyncio.sleep] advances it; computation takes no time.  Delays that
      the source types as [float] are exact integers here.
    - A coroutine is a function of a read-only environment (settings, the
      vSphere session, the audit logger, the deadline of the enclosing
      [asyncio.wait_for]) and of a world (clock and event trace), returning
      an outcome and the new world.
    - Calls on the module loggers ([logger.info], [logger.error]) never
      change control flow and are left out, except the warning of the retry
      decorator, which is kept as an event. *)

From Stdlib Require Import ZArith NArith String Ascii List Lia Bool.
From stdpp Require Import base gmap strings list pretty.

Open Scope string_scope.
Open Scope list_scope.
Open Scope Z_scope.

Set Warnings "-register-all".

(** ** src/exceptions.py *)

(** The exception classes that the modelled code raises or meets.
    [CancelledError] derives from [BaseException] only (Python 3.8 and
    later); every other class derives from [Exception]. *)
Inductive exn_class : Type :=
| VMwareMCPException
| AuthorizationError
| VMOperationError
| SnapshotOperationError
| ResourceOperationError
| ValidationError
| TimeoutError
| TypeError
| CancelledError
| OtherException (name : string).

Record exn : Type := mkExn { exn_cls : exn_class; exn_msg : string }.

(** [isinstance(e, Exception)], the test of every [except Exception]. *)
Definition is_Exception (e : exn) : bool :=
  match exn_cls e with
  | CancelledError => false
  | _ => true
  end.

(** [VMwareMCPException.error_code] as set by each constructor. *)
Definition error_code (c : exn_class) : string :=
  match c with
  | VMwareMCPException => "VMWARE_MCP_ERROR"
  | AuthorizationError => "AUTHZ_ERROR"
  | VMOperationError => "VM_OPERATION_ERROR"
  | SnapshotOperationError => "SNAPSHOT_OPERATION_ERROR"
  | ResourceOperationError => "RESOURCE_OPERATION_ERROR"
  | ValidationError => "VALIDATION_ERROR"
  | TimeoutError => "TIMEOUT_ERROR"
  | TypeError => EmptyString
  | CancelledError => EmptyString
  | OtherException _ => EmptyString
  end.

(** [str(e)]: every class passes its message to [Exception.__init__]. *)
Definition str_exn (e : exn) : string := exn_msg e.

(** ** src/config.py *)

Record Settings : Type := mkSettings {
  enable_rbac : bool;
  operation_timeout : Z
}.

(** The field defaults of [Settings]. *)
Definition default_settings : Settings :=
  {| enable_rbac := true; operation_timeout := 300 |}.

(** ** src/auth.py: RBACManager *)

Module RBACManager.

Definition ROLES : gmap string (list string) :=
  <["admin" := [
      "vm:create"; "vm:delete"; "vm:start"; "vm:stop"; "vm:clone"; "vm:migrate";
      "host:add"; "host:remove"; "host:maintenance"; "host:monitor";
      "snapshot:create"; "snapshot:delete"; "snapshot:revert";
      "resource:allocate"; "resource:monitor";
      "network:configure"; "storage:configure";
      "system:configure"; "system:monitor" ]]>
  (<["operator" := [
      "vm:start"; "vm:stop"; "vm:clone";
      "snapshot:create"; "snapshot:revert";
      "host:monitor"; "resource:monitor";
      "system:monitor" ]]>
  (<["viewer" := [
      "vm:list"; "host:monitor"; "resource:monitor"; "system:monitor" ]]>
   ∅)).

(** [x in xs] on a list of strings. *)
Definition str_in (x : string) (xs : list string) : bool :=
  existsb (String.eqb x) xs.

(** [cls.ROLES.get(user_role, [])] *)
Definition get_user_permissions (user_role : string) : list string :=
  default [] (ROLES !! user_role).

Definition check_permission (settings : Settings)
    (user_role required_permission : string) : bool :=
  if negb (enable_rbac settings) then true
  else
    let user_permissions := default [] (ROLES !! user_role) in
    str_in required_permission user_permissions.

End RBACManager.

(** ** The vSphere objects the operations read (pyVmomi) *)

(** A payload reported by the remote plane, known to the code only through
    [str(result)]. *)
Record Payload : Type := mkPayload { payload_str : string }.

(** [vim.TaskInfo.State]; [unexpected] stands for any value outside the
    four documented ones. *)
Inductive TaskState : Type :=
| queued
| running
| success
| error
| unexpected (label : string).

Definition str_state (s : TaskState) : string :=
  match s with
  | queued => "queued"
  | running => "running"
  | success => "success"
  | error => "error"
  | unexpected label => label
  end.

Record TaskInfo : Type := mkTaskInfo {
  info_key : string;
  info_state : TaskState;
  info_result : Payload;
  info_error_msg : string
}.

(** A task handle: [task.info] as the remote plane reports it when read at
    a given clock time. *)
Record Task : Type := mkTask { info : Z -> TaskInfo }.

Record Snapshot : Type := mkSnapshot {
  snap_id : string;
  RemoveSnapshot_Task : bool -> Task;
  RevertToSnapshot_Task : Task
}.

(** [vim.vm.SnapshotTree] *)
Inductive SnapshotTree : Type :=
  mkSnapshotTree {
    tree_name : string;
    tree_snapshot : Snapshot;
    childSnapshotList : list SnapshotTree
  }.

Record SnapshotInfo : Type := mkSnapshotInfo {
  rootSnapshotList : list SnapshotTree
}.

Inductive PowerState : Type := poweredOn | poweredOff | suspended.

Definition is_poweredOn (p : PowerState) : bool :=
  match p with poweredOn => true | _ => false end.

Record ConfigSpec : Type := mkConfigSpec {
  numCPUs : option Z;
  memoryMB : option Z
}.

Record VirtualMachine : Type := mkVM {
  vm_name_of : string;
  powerState : PowerState;
  vm_snapshot : option SnapshotInfo;
  PowerOnVM_Task : Task;
  PowerOffVM_Task : Task;
  Destroy_Task : Task;
  ReconfigVM_Task : ConfigSpec -> Task
}.

Record ServiceContent : Type := mkContent {
  vm_view : list VirtualMachine
}.

Record ServiceInstance : Type := mkSI {
  RetrieveContent : ServiceContent
}.

(** ** Results, events, environment and world *)

(** The JSON-like values the operations return. *)
Inductive value : Type :=
| VNone
| VBool (b : bool)
| VInt (z : Z)
| VStr (s : string)
| VList (l : list value)
| VDict (d : list (string * value)).

(** The calls the code makes on the management-plane client. *)
Inductive ClientCall : Type :=
| CallRetrieveContent
| CallCreateContainerView (view_type : string)
| CallDestroyView
| CallPowerOnVM (vm : string)
| CallPowerOffVM (vm : string)
| CallDestroyVM (vm : string)
| CallReconfigVM (vm : string) (spec : ConfigSpec)
| CallRemoveSnapshot (snap : string) (removeChildren : bool).

(** A submitted action is a call that returns a task handle. *)
Definition is_action (c : ClientCall) : bool :=
  match c with
  | CallPowerOnVM _ | CallPowerOffVM _ | CallDestroyVM _
  | CallReconfigVM _ _ | CallRemoveSnapshot _ _ => true
  | _ => false
  end.

Inductive AuditLevel : Type := INFO | ERROR.

(** The dictionary handed to the audit logger. *)
Record AuditRecord : Type := mkAudit {
  audit_operation : string;
  audit_resource_type : option string;
  audit_status : string;
  audit_error : option string;
  audit_duration : Z;
  audit_timestamp : Z
}.

Inductive Event : Type :=
| EvSleep (d : Z)
| EvClient (c : ClientCall)
| EvAudit (lvl : AuditLevel) (r : AuditRecord)
| EvRetryWarning (attempt : Z) (func_name : string) (err : string) (delay : Z).

Record World : Type := mkWorld {
  clock : Z;
  trace : list Event
}.

Record Env : Type := mkEnv {
  settings : Settings;
  (** [auth_manager.si] *)
  service_instance : option ServiceInstance;
  (** What a call on the logger [vmware_mcp.audit] does: [None] when it
      returns, [Some e] when it raises [e]. *)
  audit_logger : AuditLevel -> AuditRecord -> option exn;
  (** The absolute time at which the enclosing [asyncio.wait_for] cancels. *)
  deadline : option Z
}.

Definition with_deadline (env : Env) (d : option Z) : Env :=
  {| settings := settings env;
     service_instance := service_instance env;
     audit_logger := audit_logger env;
     deadline := d |}.

Inductive outcome (A : Type) : Type :=
| Ok (a : A)
| Raise (e : exn).
Arguments Ok {A} a.
Arguments Raise {A} e.

(** A coroutine. *)
Definition M (A : Type) : Type := Env -> World -> outcome A * World.

Definition ret {A} (a : A) : M A := fun _ w => (Ok a, w).

Definition bind {A B} (m : M A) (k : A -> M B) : M B :=
  fun env w =>
    match m env w with
    | (Ok a, w') => k a env w'
    | (Raise e, w') => (Raise e, w')
    end.

Notation "x <- m ;; k" := (bind m (fun x => k))
  (at level 100, m at next level, right associativity).
Notation "m ;;; k" := (bind m (fun _ => k))
  (at level 100, right associativity).

Definition raise {A} (c : exn_class) (msg : string) : M A :=
  fun _ w => (Raise (mkExn c msg), w).

Definition reraise {A} (e : exn) : M A := fun _ w => (Raise e, w).

(** [try: m  except Exception as e: h e] *)
Definition try_except {A} (m : M A) (h : exn -> M A) : M A :=
  fun env w =>
    match m env w with
    | (Ok a, w') => (Ok a, w')
    | (Raise e, w') => if is_Exception e then h e env w' else (Raise e, w')
    end.

(** [try: m  except: h], the bare [except], which also catches what does
    not derive from [Exception]. *)
Definition try_except_any {A} (m : M A) (h : M A) : M A :=
  fun env w =>
    match m env w with
    | (Ok a, w') => (Ok a, w')
    | (Raise _, w') => h env w'
    end.

Definition ask : M Env := fun env w => (Ok env, w).

(** [time.time()] *)
Definition time_time : M Z := fun _ w => (Ok (clock w), w).

Definition emit (ev : Event) : M unit :=
  fun _ w => (Ok tt, {| clock := clock w; trace := trace w ++ [ev] |}).

(** [await asyncio.sleep(d)].  The sleep is cancelled when the deadline of
    the enclosing [wait_for] lies ahead and falls before or at its wake-up
    time.  A deadline that the clock has reached has delivered its
    cancellation, and [asyncio] delivers it once: a coroutine that
    swallows it sleeps on undisturbed. *)
Definition sleep (d : Z) : M unit :=
  fun env w =>
    let tr := trace w ++ [EvSleep d] in
    let wake := clock w + Z.max 0 d in
    match deadline env with
    | Some dl =>
        if (clock w <? dl) && (dl <=? wake)
        then (Raise (mkExn CancelledError EmptyString),
              {| clock := Z.max (clock w) dl; trace := tr |})
        else (Ok tt, {| clock := wake; trace := tr |})
    | None => (Ok tt, {| clock := wake; trace := tr |})
    end.

(** A call on the management-plane client. *)
Definition client {A} (c : ClientCall) (a : A) : M A :=
  emit (EvClient c) ;;; ret a.

(** ** src/utils.py *)

(** [range(n)] *)
Definition range (n : Z) : list nat := seq 0 (Z.to_nat n).

(** [a or b] on an optional integer: [None] and [0] are falsy. *)
Definition int_or (a : option Z) (b : Z) : Z :=
  match a with
  | Some t => if t =? 0 then b else t
  | None => b
  end.

Section AsyncRetry.

Context {A : Type}.
Variables (max_retries delay backoff : Z).
Variable func_name : string.
(** A Python callable may keep state between calls: [func n] is what the
    call of [func] made by loop iteration [n] does. *)
Variable func : nat -> M A.

(** [raise last_exception]; raising [None] is a [TypeError]. *)
Definition raise_last (last_exception : option exn) : M A :=
  match last_exception with
  | Some e => reraise e
  | None => raise TypeError "exceptions must derive from BaseException"
  end.

(** The [for attempt in range(max_retries + 1)] loop over the attempts
    still to make, followed by [raise last_exception]. *)
Fixpoint retry_loop (attempts : list nat) (current_delay : Z)
    (last_exception : option exn) : M A :=
  match attempts with
  | [] => raise_last last_exception
  | attempt :: rest =>
      try_except (func attempt)
        (fun e =>
           if Z.of_nat attempt =? max_retries
           then raise_last (Some e)
           else
             emit (EvRetryWarning (Z.of_nat attempt + 1) func_name
                     (str_exn e) current_delay) ;;;
             sleep current_delay ;;;
             retry_loop rest (current_delay * backoff) (Some e))
  end.

Definition async_retry : M A :=
  retry_loop (range (max_retries + 1)) delay None.

End AsyncRetry.

Definition asyncio_TimeoutError : exn :=
  mkExn (OtherException "asyncio.TimeoutError") EmptyString.

Definition is_asyncio_TimeoutError (e : exn) : bool :=
  match exn_cls e with
  | OtherException n => String.eqb n "asyncio.TimeoutError"
  | _ => false
  end.

Definition is_CancelledError (e : exn) : bool :=
  match exn_cls e with
  | CancelledError => true
  | _ => false
  end.

(** [await asyncio.wait_for(m, timeout=timeout)]: with a timeout that is
    not positive the coroutine is cancelled before it starts; otherwise it
    runs under the deadline [now + timeout], and its cancellation at that
    deadline becomes [asyncio.TimeoutError]; a coroutine that swallows the
    cancellation and returns has its value returned.  Of nested deadlines
    the environment keeps the earliest. *)
Definition wait_for {A} (m : M A) (timeout : Z) : M A :=
  fun env w =>
    if timeout <=? 0 then (Raise asyncio_TimeoutError, w)
    else
      let own := clock w + timeout in
      let dl := match deadline env with
                | Some d => Z.min d own
                | None => own
                end in
      match m (with_deadline env (Some dl)) w with
      | (Ok a, w') => (Ok a, w')
      | (Raise e, w') =>
          if is_CancelledError e && (own <=? clock w')
          then (Raise asyncio_TimeoutError, w')
          else (Raise e, w')
      end.

Definition timeout_handler {A} (timeout_seconds : option Z)
    (func_name : string) (func : M A) : M A :=
  env <- ask ;;
  let timeout := int_or timeout_seconds (operation_timeout (settings env)) in
  fun env w =>
    match wait_for func timeout env w with
    | (Ok a, w') => (Ok a, w')
    | (Raise e, w') =>
        if is_asyncio_TimeoutError e
        then raise TimeoutError
               ("Operation " +:+ func_name +:+ " timed out after "
                +:+ pretty timeout +:+ "s") env w'
        else (Raise e, w')
    end.

(** [audit_logger.info(record)] or [audit_logger.error(record)] *)
Definition audit_call (lvl : AuditLevel) (r : AuditRecord) : M unit :=
  env <- ask ;;
  match audit_logger env lvl r with
  | None => emit (EvAudit lvl r)
  | Some e => reraise e
  end.

Definition audit_log {A} (operation : string) (resource_type : option string)
    (func : M A) : M A :=
  start_time <- time_time ;;
  try_except
    (result <- func ;;
     now <- time_time ;;
     let duration := now - start_time in
     timestamp <- time_time ;;
     audit_call INFO
       {| audit_operation := operation;
          audit_resource_type := resource_type;
          audit_status := "success";
          audit_error := None;
          audit_duration := duration;
          audit_timestamp := timestamp |} ;;;
     ret result)
    (fun e =>
       now <- time_time ;;
       let duration := now - start_time in
       timestamp <- time_time ;;
       audit_call ERROR
         {| audit_operation := operation;
            audit_resource_type := resource_type;
            audit_status := "failed";
            audit_error := Some (str_exn e);
            audit_duration := duration;
            audit_timestamp := timestamp |} ;;;
       reraise e).

(** [state in [running, queued]] *)
Definition is_pending (s : TaskState) : bool :=
  match s with
  | running | queued => true
  | _ => false
  end.

(** The [while] loop of [wait_for_task_async]; [None] when the fuel runs
    out before the loop ends. *)
Fixpoint poll_loop (fuel : nat) (task : Task) (timeout start_time : Z)
    (env : Env) (w : World) : option (outcome unit * World) :=
  match fuel with
  | O => None
  | S fuel' =>
      if is_pending (info_state (info task (clock w))) then
        if timeout <? clock w - start_time then
          Some (raise TimeoutError
                  ("Task " +:+ info_key (info task (clock w))
                   +:+ " timed out after " +:+ pretty timeout +:+ "s") env w)
        else
          match sleep 1 env w with
          | (Ok _, w') => poll_loop fuel' task timeout start_time env w'
          | (Raise e, w') => Some (Raise e, w')
          end
      else Some (Ok tt, w)
  end.

(** Iterations after which the loop has ended: the elapsed time grows by
    one per iteration and the loop stops once it exceeds [timeout]. *)
Definition poll_fuel (timeout : Z) : nat := S (Z.to_nat (timeout + 1)).

Definition wait_for_task_async (task : Task) (timeout : option Z) : M Payload :=
  fun env w =>
    let timeout := int_or timeout (operation_timeout (settings env)) in
    let start_time := clock w in
    match poll_loop (poll_fuel timeout) task timeout start_time env w with
    | None =>
        (* never taken: see [poll_loop_total] *)
        (Raise (mkExn (OtherException "RecursionError") "poll_loop"), w)
    | Some (Raise e, w') => (Raise e, w')
    | Some (Ok _, w') =>
        let i := info task (clock w') in
        match info_state i with
        | success => (Ok (info_result i), w')
        | error =>
            raise VMwareMCPException
              ("Task failed: " +:+ info_error_msg i) env w'
        | s =>
            raise VMwareMCPException
              ("Task ended with unexpected state: " +:+ str_state s) env w'
        end
    end.

Definition get_vm_by_name (content : ServiceContent) (vm_name : string)
    : M (option VirtualMachine) :=
  view <- client (CallCreateContainerView "VirtualMachine") (vm_view content) ;;
  let found := find (fun vm => String.eqb (vm_name_of vm) vm_name) view in
  client CallDestroyView tt ;;;
  ret found.

Definition get_all_vms (content : ServiceContent) : M (list VirtualMachine) :=
  view <- client (CallCreateContainerView "VirtualMachine") (vm_view content) ;;
  client CallDestroyView tt ;;;
  ret view.

(** A continuation byte of UTF-8, [10xxxxxx]. *)
Definition is_continuation (c : ascii) : bool :=
  (128 <=? N_of_ascii c)%N && (N_of_ascii c <? 192)%N.

(** [len(s)], the number of code points of [s]: every byte of the text
    starts one, the continuation bytes apart. *)
Fixpoint py_len (s : string) : nat :=
  match s with
  | EmptyString => 0
  | String c s' => ((if is_continuation c then 0 else 1) + py_len s')%nat
  end.

(** [char in s] for a one-character string [char] of the ASCII range,
    whose byte occurs in a UTF-8 text only as that character. *)
Fixpoint char_in (c : ascii) (s : string) : bool :=
  match s with
  | EmptyString => false
  | String c' s' => Ascii.eqb c c' || char_in c s'
  end.

(** The nine characters of [invalid_chars] (slash, backslash, colon, star,
    question mark, double quote, less-than, greater-than, bar), by code. *)
Definition invalid_chars : list ascii :=
  map ascii_of_nat [47; 92; 58; 42; 63; 34; 60; 62; 124]%nat.

Definition validate_vm_name (vm_name : string) : bool :=
  if String.eqb vm_name EmptyString || (py_len vm_name <? 1)%nat
     || (80 <? py_len vm_name)%nat
  then false
  else negb (existsb (fun c => char_in c vm_name) invalid_chars).

(** [auth_manager.get_service_instance()] *)
Definition get_service_instance : M (option ServiceInstance) :=
  env <- ask ;;
  ret (service_instance env).

(** [RBACManager.check_permission] as the operations call it, reading the
    global [settings]. *)
Definition has_permission (user_role required_permission : string) : M bool :=
  env <- ask ;;
  ret (RBACManager.check_permission (settings env) user_role required_permission).

(** ** src/vm_operations.py *)

Module VMOperations.

Section ListVMs.

(** [format_vm_info] of [src/utils.py] reads VM properties that this
    model does not carry; the operations below are defined for any
    formatter. *)
Variable format_vm_info : VirtualMachine -> value.

Definition list_vms_try : M value :=
  si <- get_service_instance ;;
  match si with
  | None => raise VMOperationError "No active VMware connection"
  | Some si =>
      content <- client CallRetrieveContent (RetrieveContent si) ;;
      vms <- get_all_vms content ;;
      ret (VList (map format_vm_info vms))
  end.

Definition list_vms_func (user_role : string) : M value :=
  allowed <- has_permission user_role "vm:list" ;;
  if negb allowed
  then raise AuthorizationError "Insufficient permissions to list VMs"
  else
    try_except list_vms_try
      (fun e => raise VMOperationError
                  ("Failed to list VMs: " +:+ str_exn e)).

Definition list_vms (user_role : string) : M value :=
  audit_log "list_vms" (Some "vm")
    (timeout_handler None "list_vms" (list_vms_func user_role)).

End ListVMs.

Section GetVMDetails.

(** The [try] block of [get_vm_details], which formats properties and
    snapshot trees into the response; any coroutine. *)
Variable get_vm_details_try : string -> M value.

Definition get_vm_details_func (vm_name user_role : string) : M value :=
  allowed <- has_permission user_role "vm:list" ;;
  if negb allowed
  then raise AuthorizationError "Insufficient permissions to view VM details"
  else if negb (validate_vm_name vm_name)
  then raise ValidationError ("Invalid VM name: " +:+ vm_name)
  else
    try_except (get_vm_details_try vm_name)
      (fun e => raise VMOperationError
                  ("Failed to get VM details: " +:+ str_exn e)).

Definition get_vm_details (vm_name user_role : string) : M value :=
  audit_log "get_vm_details" (Some "vm")
    (timeout_handler None "get_vm_details"
       (get_vm_details_func vm_name user_role)).

End GetVMDetails.

Definition start_vm_try (vm_name : string) : M value :=
  si <- get_service_instance ;;
  match si with
  | None => raise VMOperationError "No active VMware connection"
  | Some si =>
      content <- client CallRetrieveContent (RetrieveContent si) ;;
      vm <- get_vm_by_name content vm_name ;;
      match vm with
      | None => raise VMOperationError ("VM '" +:+ vm_name +:+ "' not found")
      | Some vm =>
          if is_poweredOn (powerState vm)
          then ret (VDict [("status", VStr "already_running");
                           ("vm_name", VStr vm_name)])
          else
            task <- client (CallPowerOnVM (vm_name_of vm)) (PowerOnVM_Task vm) ;;
            result <- wait_for_task_async task None ;;
            ret (VDict [("status", VStr "started");
                        ("vm_name", VStr vm_name);
                        ("task_result", VStr (payload_str result))])
      end
  end.

(** The undecorated coroutine. *)
Definition start_vm_func (vm_name user_role : string) : M value :=
  allowed <- has_permission user_role "vm:start" ;;
  if negb allowed
  then raise AuthorizationError "Insufficient permissions to start VM"
  else if negb (validate_vm_name vm_name)
  then raise ValidationError ("Invalid VM name: " +:+ vm_name)
  else
    try_except (start_vm_try vm_name)
      (fun e => raise VMOperationError
                  ("Failed to start VM: " +:+ str_exn e)).

(** [@audit_log("start_vm", "vm") @async_retry(max_retries=2)
    @timeout_handler()], with the defaults [delay=1.0], [backoff=2.0]. *)
Definition start_vm (vm_name user_role : string) : M value :=
  audit_log "start_vm" (Some "vm")
    (async_retry 2 1 2 "start_vm"
       (fun _ => timeout_handler None "start_vm"
                   (start_vm_func vm_name user_role))).

Definition delete_vm_try (vm_name : string) : M value :=
  si <- get_service_instance ;;
  match si with
  | None => raise VMOperationError "No active VMware connection"
  | Some si =>
      content <- client CallRetrieveContent (RetrieveContent si) ;;
      vm <- get_vm_by_name content vm_name ;;
      match vm with
      | None => raise VMOperationError ("VM '" +:+ vm_name +:+ "' not found")
      | Some vm =>
          (if is_poweredOn (powerState vm)
           then
             power_off_task <-
               client (CallPowerOffVM (vm_name_of vm)) (PowerOffVM_Task vm) ;;
             wait_for_task_async power_off_task None ;;;
             ret tt
           else ret tt) ;;;
          task <- client (CallDestroyVM (vm_name_of vm)) (Destroy_Task vm) ;;
          result <- wait_for_task_async task None ;;
          ret (VDict [("status", VStr "deleted");
                      ("vm_name", VStr vm_name);
                      ("task_result", VStr (payload_str result))])
      end
  end.

Definition delete_vm_func (vm_name user_role : string) : M value :=
  allowed <- has_permission user_role "vm:delete" ;;
  if negb allowed
  then raise AuthorizationError "Insufficient permissions to delete VM"
  else if negb (validate_vm_name vm_name)
  then raise ValidationError ("Invalid VM name: " +:+ vm_name)
  else
    try_except (delete_vm_try vm_name)
      (fun e => raise VMOperationError
                  ("Failed to delete VM: " +:+ str_exn e)).

Definition delete_vm (vm_name user_role : string) : M value :=
  audit_log "delete_vm" (Some "vm")
    (timeout_handler None "delete_vm" (delete_vm_func vm_name user_role)).

Definition is_poweredOff (p : PowerState) : bool :=
  match p with poweredOff => true | _ => false end.

Section StopVM.

(** Two remote operations of [stop_vm] that the VM record does not carry:
    the call [vm.ShutdownGuest()], and the read of [vm.runtime.powerState]
    after the grace period ([powerState vm] is the state read when the VM
    has just been looked up).  Any coroutines. *)
Variable ShutdownGuest : VirtualMachine -> M unit.
Variable powerState_after_grace : VirtualMachine -> M PowerState.

(** What the [if force ... else ...] statement leaves: a value returned
    from inside it, or the local variables [task] and [method]. *)
Definition stop_decision (vm_name : string) (force : bool) (vm : VirtualMachine)
    : M (value + Task * string) :=
  if force
  then
    task <- client (CallPowerOffVM (vm_name_of vm)) (PowerOffVM_Task vm) ;;
    ret (inr (task, "force_stop"))
  else
    try_except_any
      (ShutdownGuest vm ;;;
       sleep 5 ;;;
       state <- powerState_after_grace vm ;;
       if is_poweredOn state
       then
         task <- client (CallPowerOffVM (vm_name_of vm)) (PowerOffVM_Task vm) ;;
         ret (inr (task, "force_stop_fallback"))
       else
         ret (inl (VDict [("status", VStr "stopped");
                          ("vm_name", VStr vm_name);
                          ("method", VStr "graceful_shutdown")])))
      (task <- client (CallPowerOffVM (vm_name_of vm)) (PowerOffVM_Task vm) ;;
       ret (inr (task, "force_stop_fallback"))).

Definition stop_vm_try (vm_name : string) (force : bool) : M value :=
  si <- get_service_instance ;;
  match si with
  | None => raise VMOperationError "No active VMware connection"
  | Some si =>
      content <- client CallRetrieveContent (RetrieveContent si) ;;
      vm <- get_vm_by_name content vm_name ;;
      match vm with
      | None => raise VMOperationError ("VM '" +:+ vm_name +:+ "' not found")
      | Some vm =>
          if is_poweredOff (powerState vm)
          then ret (VDict [("status", VStr "already_stopped");
                           ("vm_name", VStr vm_name)])
          else
            decision <- stop_decision vm_name force vm ;;
            match decision with
            | inl returned => ret returned
            | inr (task, method) =>
                result <- wait_for_task_async task None ;;
                ret (VDict [("status", VStr "stopped");
                            ("vm_name", VStr vm_name);
                            ("method", VStr method);
                            ("task_result", VStr (payload_str result))])
            end
      end
  end.

Definition stop_vm_func (vm_name : string) (force : bool) (user_role : string)
    : M value :=
  allowed <- has_permission user_role "vm:stop" ;;
  if negb allowed
  then raise AuthorizationError "Insufficient permissions to stop VM"
  else if negb (validate_vm_name vm_name)
  then raise ValidationError ("Invalid VM name: " +:+ vm_name)
  else
    try_except (stop_vm_try vm_name force)
      (fun e => raise VMOperationError
                  ("Failed to stop VM: " +:+ str_exn e)).

Definition stop_vm (vm_name : string) (force : bool) (user_role : string)
    : M value :=
  audit_log "stop_vm" (Some "vm")
    (async_retry 2 1 2 "stop_vm"
       (fun _ => timeout_handler None "stop_vm"
                   (stop_vm_func vm_name force user_role))).

Definition restart_vm_try (vm_name : string) (force : bool) (user_role : string)
    : M value :=
  stop_result <- stop_vm vm_name force user_role ;;
  sleep 2 ;;;
  start_result <- start_vm vm_name user_role ;;
  ret (VDict [("status", VStr "restarted");
              ("vm_name", VStr vm_name);
              ("stop_result", stop_result);
              ("start_result", start_result)]).

Definition restart_vm_func (vm_name : string) (force : bool) (user_role : string)
    : M value :=
  allowed <- has_permission user_role "vm:start" ;;
  if negb allowed
  then raise AuthorizationError "Insufficient permissions to restart VM"
  else
    try_except (restart_vm_try vm_name force user_role)
      (fun e => raise VMOperationError
                  ("Failed to restart VM: " +:+ str_exn e)).

Definition restart_vm (vm_name : string) (force : bool) (user_role : string)
    : M value :=
  audit_log "restart_vm" (Some "vm")
    (async_retry 2 1 2 "restart_vm"
       (fun _ => timeout_handler None "restart_vm"
                   (restart_vm_func vm_name force user_role))).

End StopVM.

End VMOperations.

(** ** src/snapshot_operations.py *)

Module SnapshotOperations.

(** One iteration of the [for] loop of [_find_snapshot_by_name] at the
    node [t]: the name test, then the search in the children.  [None]
    lets the loop go on to the next sibling. *)
Fixpoint find_at (snapshot_name : string) (t : SnapshotTree)
    : option Snapshot :=
  match t with
  | mkSnapshotTree name snapshot children =>
      if String.eqb name snapshot_name then Some snapshot
      else
        (fix loop (snapshots : list SnapshotTree) : option Snapshot :=
           match snapshots with
           | [] => None
           | c :: rest =>
               match find_at snapshot_name c with
               | Some child_result => Some child_result
               | None => loop rest
               end
           end) children
  end.

Fixpoint _find_snapshot_by_name (snapshots : list SnapshotTree)
    (snapshot_name : string) : option Snapshot :=
  match snapshots with
  | [] => None
  | t :: rest =>
      match find_at snapshot_name t with
      | Some r => Some r
      | None => _find_snapshot_by_name rest snapshot_name
      end
  end.

(** The same search, also returning the nodes whose name it compared, in
    the order of the comparisons. *)
Fixpoint visit_at (snapshot_name : string) (t : SnapshotTree)
    : option Snapshot * list SnapshotTree :=
  match t with
  | mkSnapshotTree name snapshot children =>
      if String.eqb name snapshot_name then (Some snapshot, [t])
      else
        let '(r, seen) :=
          (fix loop (snapshots : list SnapshotTree)
             : option Snapshot * list SnapshotTree :=
             match snapshots with
             | [] => (None, [])
             | c :: rest =>
                 match visit_at snapshot_name c with
                 | (Some child_result, seen) => (Some child_result, seen)
                 | (None, seen) =>
                     let '(r, seen') := loop rest in (r, seen ++ seen')
                 end
             end) children in
        (r, t :: seen)
  end.

Fixpoint find_snapshot_visits (snapshots : list SnapshotTree)
    (snapshot_name : string) : option Snapshot * list SnapshotTree :=
  match snapshots with
  | [] => (None, [])
  | t :: rest =>
      match visit_at snapshot_name t with
      | (Some r, seen) => (Some r, seen)
      | (None, seen) =>
          let '(r, seen') := find_snapshot_visits rest snapshot_name in
          (r, seen ++ seen')
      end
  end.

Definition delete_snapshot_try (vm_name snapshot_name : string)
    (remove_children : bool) : M value :=
  si <- get_service_instance ;;
  match si with
  | None => raise SnapshotOperationError "No active VMware connection"
  | Some si =>
      content <- client CallRetrieveContent (RetrieveContent si) ;;
      vm <- get_vm_by_name content vm_name ;;
      match vm with
      | None =>
          raise SnapshotOperationError ("VM '" +:+ vm_name +:+ "' not found")
      | Some vm =>
          match vm_snapshot vm with
          | None =>
              raise SnapshotOperationError
                ("VM '" +:+ vm_name +:+ "' has no snapshots")
          | Some snapshot_info =>
              match _find_snapshot_by_name (rootSnapshotList snapshot_info)
                      snapshot_name with
              | None =>
                  raise SnapshotOperationError
                    ("Snapshot '" +:+ snapshot_name +:+ "' not found")
              | Some snapshot =>
                  task <- client
                            (CallRemoveSnapshot (snap_id snapshot) remove_children)
                            (RemoveSnapshot_Task snapshot remove_children) ;;
                  result <- wait_for_task_async task (Some 600) ;;
                  ret (VDict [("status", VStr "deleted");
                              ("vm_name", VStr vm_name);
                              ("snapshot_name", VStr snapshot_name);
                              ("remove_children", VBool remove_children);
                              ("task_result", VStr (payload_str result))])
              end
          end
      end
  end.

Definition delete_snapshot_func (vm_name snapshot_name : string)
    (remove_children : bool) (user_role : string) : M value :=
  allowed <- has_permission user_role "snapshot:delete" ;;
  if negb allowed
  then raise AuthorizationError "Insufficient permissions to delete snapshot"
  else if negb (validate_vm_name vm_name)
  then raise ValidationError ("Invalid VM name: " +:+ vm_name)
  else
    try_except (delete_snapshot_try vm_name snapshot_name remove_children)
      (fun e => raise SnapshotOperationError
                  ("Failed to delete snapshot: " +:+ str_exn e)).

Definition delete_snapshot (vm_name snapshot_name : string)
    (remove_children : bool) (user_role : string) : M value :=
  audit_log "delete_snapshot" (Some "snapshot")
    (timeout_handler (Some 600) "delete_snapshot"
       (delete_snapshot_func vm_name snapshot_name remove_children user_role)).

Section ListSnapshots.

(** The [try] block of [list_snapshots], which formats the snapshot
    tree into the response; any coroutine. *)
Variable list_snapshots_try : string -> M value.

Definition list_snapshots_func (vm_name user_role : string) : M value :=
  allowed <- has_permission user_role "vm:list" ;;
  if negb allowed
  then raise AuthorizationError "Insufficient permissions to list snapshots"
  else if negb (validate_vm_name vm_name)
  then raise ValidationError ("Invalid VM name: " +:+ vm_name)
  else
    try_except (list_snapshots_try vm_name)
      (fun e => raise SnapshotOperationError
                  ("Failed to list snapshots: " +:+ str_exn e)).

Definition list_snapshots (vm_name user_role : string) : M value :=
  audit_log "list_snapshots" (Some "snapshot")
    (timeout_handler None "list_snapshots"
       (list_snapshots_func vm_name user_role)).

End ListSnapshots.

(** One iteration of the loop of [_get_all_snapshot_names] at the node
    [t]: its name, then the names gathered from its children. *)
Fixpoint names_at (t : SnapshotTree) : list string :=
  match t with
  | mkSnapshotTree name _ children =>
      name ::
      (fix loop (snapshots : list SnapshotTree) : list string :=
         match snapshots with
         | [] => []
         | c :: rest => names_at c ++ loop rest
         end) children
  end.

Fixpoint _get_all_snapshot_names (snapshots : list SnapshotTree) : list string :=
  match snapshots with
  | [] => []
  | t :: rest => names_at t ++ _get_all_snapshot_names rest
  end.

End SnapshotOperations.

(** ** src/resource_operations.py *)

Module ResourceOperations.

(** [changes_made], in the order of the two [append] calls. *)
Definition changes_made (cpu_count memory_mb : option Z) : list string :=
  match cpu_count with
  | Some c => ["CPU count: " +:+ pretty c]
  | None => []
  end ++
  match memory_mb with
  | Some m => ["Memory: " +:+ pretty m +:+ " MB"]
  | None => []
  end.

Definition modify_vm_resources_try (vm_name : string)
    (cpu_count memory_mb : option Z) : M value :=
  si <- get_service_instance ;;
  match si with
  | None => raise ResourceOperationError "No active VMware connection"
  | Some si =>
      content <- client CallRetrieveContent (RetrieveContent si) ;;
      vm <- get_vm_by_name content vm_name ;;
      match vm with
      | None =>
          raise ResourceOperationError ("VM '" +:+ vm_name +:+ "' not found")
      | Some vm =>
          let config_spec :=
            {| numCPUs := cpu_count; memoryMB := memory_mb |} in
          let changes := changes_made cpu_count memory_mb in
          match changes with
          | [] =>
              ret (VDict [("status", VStr "no_changes");
                          ("vm_name", VStr vm_name);
                          ("message", VStr "No resource changes specified")])
          | _ =>
              task <- client (CallReconfigVM (vm_name_of vm) config_spec)
                        (ReconfigVM_Task vm config_spec) ;;
              result <- wait_for_task_async task None ;;
              ret (VDict [("status", VStr "modified");
                          ("vm_name", VStr vm_name);
                          ("changes", VList (map VStr changes));
                          ("task_result", VStr (payload_str result))])
          end
      end
  end.

(** [x is not None and (x < lo or x > hi)] *)
Definition out_of_range (x : option Z) (lo hi : Z) : bool :=
  match x with
  | Some v => (v <? lo) || (hi <? v)
  | None => false
  end.

Definition modify_vm_resources_func (vm_name : string)
    (cpu_count memory_mb : option Z) (user_role : string) : M value :=
  allowed <- has_permission user_role "resource:allocate" ;;
  if negb allowed
  then raise AuthorizationError
         "Insufficient permissions to modify VM resources"
  else if negb (validate_vm_name vm_name)
  then raise ValidationError ("Invalid VM name: " +:+ vm_name)
  else if out_of_range cpu_count 1 128
  then raise ValidationError "CPU count must be between 1 and 128"
  else if out_of_range memory_mb 4 1048576
  then raise ValidationError "Memory must be between 4 MB and 1 TB"
  else
    try_except (modify_vm_resources_try vm_name cpu_count memory_mb)
      (fun e => raise ResourceOperationError
                  ("Failed to modify VM resources: " +:+ str_exn e)).

Definition modify_vm_resources (vm_name : string)
    (cpu_count memory_mb : option Z) (user_role : string) : M value :=
  audit_log "modify_vm_resources" (Some "resource")
    (timeout_handler None "modify_vm_resources"
       (modify_vm_resources_func vm_name cpu_count memory_mb user_role)).

End ResourceOperations.

(** ** src/mcp_server.py *)

Record TextContent : Type := mkTextContent {
  content_type : string;
  content_text : string
}.

(** [arguments[key]]; the text of a [KeyError] is the quoted key. *)
Definition subscript (arguments : gmap string value) (key : string) : M value :=
  match arguments !! key with
  | Some v => ret v
  | None => raise (OtherException "KeyError") ("'" +:+ key +:+ "'")
  end.

(** [arguments.get(key, default)] *)
Definition get_or (arguments : gmap string value) (key : string)
    (default : value) : value :=
  match arguments !! key with
  | Some v => v
  | None => default
  end.

Section CallTool.

(** The branches of [_execute_tool] for the other tool names, unknown
    names included; a call of an operation on argument values of a type
    other than the one its signature declares; and Python's [str] on the
    value an operation returns.  Any functions. *)
Variable other_tool : string -> gmap string value -> M value.
Variable ill_typed : string -> gmap string value -> M value.
Variable py_str : value -> string.

Definition _execute_tool (name : string) (arguments : gmap string value)
    : M value :=
  if String.eqb name "start_vm" then
    vm_name <- subscript arguments "vm_name" ;;
    match vm_name, get_or arguments "user_role" (VStr "operator") with
    | VStr vm_name, VStr user_role => VMOperations.start_vm vm_name user_role
    | _, _ => ill_typed name arguments
    end
  else if String.eqb name "delete_vm" then
    vm_name <- subscript arguments "vm_name" ;;
    match vm_name, get_or arguments "user_role" (VStr "admin") with
    | VStr vm_name, VStr user_role => VMOperations.delete_vm vm_name user_role
    | _, _ => ill_typed name arguments
    end
  else if String.eqb name "delete_snapshot" then
    vm_name <- subscript arguments "vm_name" ;;
    snapshot_name <- subscript arguments "snapshot_name" ;;
    match vm_name, snapshot_name,
          get_or arguments "remove_children" (VBool false),
          get_or arguments "user_role" (VStr "operator") with
    | VStr vm_name, VStr snapshot_name, VBool remove_children, VStr user_role =>
        SnapshotOperations.delete_snapshot vm_name snapshot_name remove_children
          user_role
    | _, _, _, _ => ill_typed name arguments
    end
  else if String.eqb name "modify_vm_resources" then
    vm_name <- subscript arguments "vm_name" ;;
    match vm_name,
          get_or arguments "cpu_count" VNone,
          get_or arguments "memory_mb" VNone,
          get_or arguments "user_role" (VStr "admin") with
    | VStr vm_name, VNone, VNone, VStr user_role =>
        ResourceOperations.modify_vm_resources vm_name None None user_role
    | VStr vm_name, VInt c, VNone, VStr user_role =>
        ResourceOperations.modify_vm_resources vm_name (Some c) None user_role
    | VStr vm_name, VNone, VInt m, VStr user_role =>
        ResourceOperations.modify_vm_resources vm_name None (Some m) user_role
    | VStr vm_name, VInt c, VInt m, VStr user_role =>
        ResourceOperations.modify_vm_resources vm_name (Some c) (Some m) user_role
    | _, _, _, _ => ill_typed name arguments
    end
  else other_tool name arguments.

Definition call_tool (name : string) (arguments : gmap string value)
    : M (list TextContent) :=
  try_except
    (result <- _execute_tool name arguments ;;
     ret [mkTextContent "text" (py_str result)])
    (fun e => ret [mkTextContent "text" ("Error: " +:+ str_exn e)]).

End CallTool.

(** ** Observations on traces and trees *)

(** The seconds asked of [asyncio.sleep], summed over a trace. *)
Fixpoint total_delay (tr : list Event) : Z :=
  match tr with
  | [] => 0
  | EvSleep d :: tr' => d + total_delay tr'
  | _ :: tr' => total_delay tr'
  end.

(** [initialDelay * backoffFactor^0 + ... + initialDelay * backoffFactor^(k-1)] *)
Fixpoint geometric_sum (delay backoff : Z) (k : nat) : Z :=
  match k with
  | O => 0
  | S k' => geometric_sum delay backoff k' + delay * backoff ^ Z.of_nat k'
  end.

(** The client calls of a trace, in order. *)
Fixpoint client_calls (tr : list Event) : list ClientCall :=
  match tr with
  | [] => []
  | EvClient c :: tr' => c :: client_calls tr'
  | _ :: tr' => client_calls tr'
  end.

(** The actions submitted in a trace. *)
Definition actions (tr : list Event) : list ClientCall :=
  filter (fun c => is_action c = true) (client_calls tr).

(** The audit records of a trace, in order. *)
Fixpoint audit_records (tr : list Event) : list (AuditLevel * AuditRecord) :=
  match tr with
  | [] => []
  | EvAudit lvl r :: tr' => (lvl, r) :: audit_records tr'
  | _ :: tr' => audit_records tr'
  end.

(** The attempt numbers of the retry warnings of a trace. *)
Fixpoint retry_warnings (tr : list Event) : list Z :=
  match tr with
  | [] => []
  | EvRetryWarning attempt _ _ _ :: tr' => attempt :: retry_warnings tr'
  | _ :: tr' => retry_warnings tr'
  end.

(** The nodes of a snapshot forest in pre-order: a node, then the subtrees
    of its children from first to last, then its later siblings. *)
Fixpoint preorder_tree (t : SnapshotTree) : list SnapshotTree :=
  match t with
  | mkSnapshotTree _ _ children => t :: flat_map preorder_tree children
  end.

Definition preorder (snapshots : list SnapshotTree) : list SnapshotTree :=
  flat_map preorder_tree snapshots.

(** An audit logger whose calls always return. *)
Definition logger_returns (env : Env) : Prop :=
  forall lvl r, audit_logger env lvl r = None.

(** ** The vocabulary of the statements *)

(** No enclosing [wait_for] cancels a sleep that wakes at time [t]. *)
Definition wakes_before_deadline (env : Env) (t : Z) : Prop :=
  match deadline env with
  | Some dl => t < dl
  | None => True
  end.

(** The world after [n] completed polls. *)
Definition after_polls (w : World) (n : nat) : World :=
  {| clock := clock w + Z.of_nat n;
     trace := trace w ++ repeat (EvSleep 1) n |}.


(** What the poller does once the loop has ended at a terminal state. *)
Definition poller_outcome (i : TaskInfo) : outcome Payload :=
  match info_state i with
  | success => Ok (info_result i)
  | error =>
      Raise (mkExn VMwareMCPException ("Task failed: " +:+ info_error_msg i))
  | s =>
      Raise (mkExn VMwareMCPException
               ("Task ended with unexpected state: " +:+ str_state s))
  end.

(** The environment in which [timeout_handler] runs the coroutine. *)
Definition under_deadline (env : Env) (w : World) (timeout : Z) : Env :=
  with_deadline env
    (Some match deadline env with
          | Some d => Z.min d (clock w + timeout)
          | None => clock w + timeout
          end).

(** The record of a finished invocation. *)
Definition audit_record (operation : string) (resource_type : option string)
    (started : Z) (res : option exn) (w' : World) : AuditRecord :=
  {| audit_operation := operation;
     audit_resource_type := resource_type;
     audit_status := match res with None => "success" | Some _ => "failed" end;
     audit_error := option_map str_exn res;
     audit_duration := clock w' - started;
     audit_timestamp := clock w' |}.

Definition logged (w : World) (ev : Event) : World :=
  {| clock := clock w; trace := trace w ++ [ev] |}.

Definition named (snapshot_name : string) (t : SnapshotTree) : bool :=
  String.eqb (tree_name t) snapshot_name.

(** The three client calls by which every body looks a VM up. *)
Definition lookup_events : list Event :=
  [EvClient CallRetrieveContent;
   EvClient (CallCreateContainerView "VirtualMachine");
   EvClient CallDestroyView].

Definition after_lookup (w : World) : World :=
  {| clock := clock w; trace := trace w ++ lookup_events |}.

(** [get_vm_by_name] on the inventory of the session. *)
Definition lookup_vm (si : ServiceInstance) (vm_name : string)
    : option VirtualMachine :=
  find (fun vm => String.eqb (vm_name_of vm) vm_name) (vm_view (RetrieveContent si)).

Definition already_running (vm_name : string) : value :=
  VDict [("status", VStr "already_running"); ("vm_name", VStr vm_name)].

Definition started (vm_name : string) (result : Payload) : value :=
  VDict [("status", VStr "started"); ("vm_name", VStr vm_name);
         ("task_result", VStr (payload_str result))].

(** The failure with which [start_vm] rejects a call before its [try]
    block, if it rejects it. *)
Definition start_vm_rejection (st : Settings) (vm_name user_role : string)
    : option exn :=
  if negb (RBACManager.check_permission st user_role "vm:start")
  then Some (mkExn AuthorizationError "Insufficient permissions to start VM")
  else if negb (validate_vm_name vm_name)
  then Some (mkExn ValidationError ("Invalid VM name: " +:+ vm_name))
  else None.

Definition no_changes (vm_name : string) : value :=
  VDict [("status", VStr "no_changes"); ("vm_name", VStr vm_name);
         ("message", VStr "No resource changes specified")].

(** The call [i] of the body fails with [e], whatever the world. *)
Definition fails_with {A} (func : nat -> M A) (env : Env) (i : nat) (e : exn)
    : Prop :=
  (forall w, fst (func i env w) = Raise e) /\ is_Exception e = true.

(** The body asks for no sleep and takes no time. *)
Definition body_does_not_sleep {A} (func : nat -> M A) (env : Env) : Prop :=
  forall i w,
    total_delay (trace (snd (func i env w))) = total_delay (trace w) /\
    clock (snd (func i env w)) = clock w.

(** The world in which the next attempt starts: the warning is logged
    and the sleep of [cd] seconds is over. *)
Definition after_pause (func_name : string) (w : World) (attempt : nat)
    (e : exn) (cd : Z) : World :=
  {| clock := clock w + Z.max 0 cd;
     trace := (trace w ++ [EvRetryWarning (Z.of_nat attempt + 1) func_name
                             (str_exn e) cd]) ++ [EvSleep cd] |}.

Definition no_connection (c : exn_class) (prefix : string) : exn :=
  mkExn c (prefix +:+ "No active VMware connection").

(** One attempt of [start_vm]: the coroutine under its timeout. *)
Definition start_attempt (vm_name user_role : string) : M value :=
  timeout_handler None "start_vm" (VMOperations.start_vm_func vm_name user_role).

(** The world when the deadline [T] seconds ahead cancels the poller. *)
Definition cancelled_polling (w : World) (T : Z) : World :=
  {| clock := clock w + T; trace := trace w ++ repeat (EvSleep 1) (Z.to_nat T) |}.

Definition operation_timed_out (name : string) (T : Z) : exn :=
  mkExn TimeoutError
    ("Operation " +:+ name +:+ " timed out after " +:+ pretty T +:+ "s").

Definition deleted (vm_name : string) (result : Payload) : value :=
  VDict [("status", VStr "deleted"); ("vm_name", VStr vm_name);
         ("task_result", VStr (payload_str result))].

(** A task that leaves queued/running after exactly [n] polls that start
    at time [t]. *)
Definition ends_after (task : Task) (t : Z) (n : nat) : Prop :=
  (forall i : nat, (i < n)%nat ->
     is_pending (info_state (info task (t + Z.of_nat i))) = true) /\
  is_pending (info_state (info task (t + Z.of_nat n))) = false.

Definition snapshot_deleted (vm_name snapshot_name : string)
    (remove_children : bool) (result : Payload) : value :=
  VDict [("status", VStr "deleted"); ("vm_name", VStr vm_name);
         ("snapshot_name", VStr snapshot_name);
         ("remove_children", VBool remove_children);
         ("task_result", VStr (payload_str result))].

Definition modified (vm_name : string) (changes : list string)
    (result : Payload) : value :=
  VDict [("status", VStr "modified"); ("vm_name", VStr vm_name);
         ("changes", VList (map VStr changes));
         ("task_result", VStr (payload_str result))].

(** An optional argument that is absent or within [lo, hi]. *)
Definition within (x : option Z) (lo hi : Z) : Prop :=
  forall v, x = Some v -> lo <= v <= hi.

Definition already_stopped (vm_name : string) : value :=
  VDict [("status", VStr "already_stopped"); ("vm_name", VStr vm_name)].

Definition stopped (vm_name method : string) (result : Payload) : value :=
  VDict [("status", VStr "stopped"); ("vm_name", VStr vm_name);
         ("method", VStr method); ("task_result", VStr (payload_str result))].

Definition stopped_gracefully (vm_name : string) : value :=
  VDict [("status", VStr "stopped"); ("vm_name", VStr vm_name);
         ("method", VStr "graceful_shutdown")].

(** The world after the grace period of [stop_vm]. *)
Definition after_grace (w : World) : World :=
  {| clock := clock w + 5; trace := trace w ++ [EvSleep 5] |}.

(** A remote call that returns [a] and leaves no event. *)
Definition returns {A} (m : M A) (a : A) : Prop :=
  forall env w, m env w = (Ok a, w).

Definition restarted (vm_name : string) (stop_result start_result : value)
    : value :=
  VDict [("status", VStr "restarted"); ("vm_name", VStr vm_name);
         ("stop_result", stop_result); ("start_result", start_result)].

Definition invalid_vm_name (vm_name : string) : exn :=
  mkExn ValidationError ("Invalid VM name: " +:+ vm_name).

(** The world after the three failing attempts of a retried operation. *)
Definition after_three_attempts (name : string) (w : World) (e : exn) : World :=
  after_pause name (after_pause name w 0 e 1) 1 e 2.

(** The world once the failure [e] of an invocation started at [t0] is
    audited. *)
Definition failed_audit (operation : string) (rt : option string) (t0 : Z)
    (e : exn) (w' : World) : World :=
  logged w' (EvAudit ERROR (audit_record operation rt t0 (Some e) w')).

(** The operation names of the audit records of a trace, in order. *)
Definition audited_operations (tr : list Event) : list string :=
  map (fun x => audit_operation (snd x)) (audit_records tr).

Definition restart_rejected (vm_name : string) : exn :=
  mkExn VMOperationError ("Failed to restart VM: Invalid VM name: " +:+ vm_name).

(** What [call_tool] makes of the outcome of a tool: the text of the
    value, or the text of the failure. *)
Definition as_text (py_str : value -> string) (r : outcome value * World)
    : outcome (list TextContent) * World :=
  match r with
  | (Ok v, w') => (Ok [mkTextContent "text" (py_str v)], w')
  | (Raise e, w') =>
      if is_Exception e
      then (Ok [mkTextContent "text" ("Error: " +:+ str_exn e)], w')
      else (Raise e, w')
  end.

(** The role under which a tool call runs: the argument [user_role], or
    the default of the tool when the argument is absent. *)
Definition role_of (arguments : gmap string value) (default role : string)
    : Prop :=
  arguments !! "user_role" = Some (VStr role) \/
  (arguments !! "user_role" = None /\ role = default).

(** The UTF-8 bytes of a code point below 0x110000. *)
Definition utf8_char (cp : N) : list ascii :=
  (if cp <? 128 then [ascii_of_N cp]
   else if cp <? 2048 then
     [ascii_of_N (192 + cp / 64); ascii_of_N (128 + cp mod 64)]
   else if cp <? 65536 then
     [ascii_of_N (224 + cp / 4096); ascii_of_N (128 + (cp / 64) mod 64);
      ascii_of_N (128 + cp mod 64)]
   else
     [ascii_of_N (240 + cp / 262144); ascii_of_N (128 + (cp / 4096) mod 64);
      ascii_of_N (128 + (cp / 64) mod 64); ascii_of_N (128 + cp mod 64)])%N.

(** The Python [str] with the code points [cps]. *)
Definition text (cps : list N) : string :=
  string_of_list_ascii (flat_map utf8_char cps).

(** The code points of the nine characters of [invalid_chars]. *)
Definition invalid_code_points : list N :=
  [47; 92; 58; 42; 63; 34; 60; 62; 124]%N.

(** ** Sample environments *)

Module Sample.

Definition quiet_logger : AuditLevel -> AuditRecord -> option exn :=
  fun _ _ => None.

(** A task that is running before time [n] and in state [final] from
    then on. *)
Definition task_ending (n : Z) (final : TaskState) (msg : string) : Task :=
  {| info := fun t =>
       {| info_key := "task-1";
          info_state := if t <? n then running else final;
          info_result := mkPayload "done";
          info_error_msg := msg |} |}.

Definition snap (id : string) : Snapshot :=
  {| snap_id := id;
     RemoveSnapshot_Task := fun _ => task_ending 0 success EmptyString;
     RevertToSnapshot_Task := task_ending 0 success EmptyString |}.

(** base -> (a -> (leaf), b), then a second root named "a". *)
Definition forest : list SnapshotTree :=
  [ mkSnapshotTree "base" (snap "s1")
      [ mkSnapshotTree "a" (snap "s2") [ mkSnapshotTree "leaf" (snap "s3") [] ];
        mkSnapshotTree "b" (snap "s4") [] ];
    mkSnapshotTree "a" (snap "s5") [] ].

Definition vm1 (p : PowerState) (t : Task) : VirtualMachine :=
  {| vm_name_of := "vm1";
     powerState := p;
     vm_snapshot := Some (mkSnapshotInfo forest);
     PowerOnVM_Task := t;
     PowerOffVM_Task := t;
     Destroy_Task := t;
     ReconfigVM_Task := fun _ => t |}.

Definition env_with (logger : AuditLevel -> AuditRecord -> option exn)
    (vms : list VirtualMachine) : Env :=
  {| settings := default_settings;
     service_instance := Some (mkSI (mkContent vms));
     audit_logger := logger;
     deadline := None |}.

Definition env_of (vms : list VirtualMachine) : Env :=
  env_with quiet_logger vms.

Definition w0 : World := {| clock := 1000; trace := [] |}.

(** A callable that fails on its first two calls and then returns 7. *)
Definition flaky (n : nat) : M Z :=
  match n with
  | O => raise VMOperationError "first"
  | S O => raise VMOperationError "second"
  | _ => ret 7
  end.

Definition nth_failure (n : nat) : exn :=
  mkExn VMOperationError
    match n with
    | O => "first"
    | S O => "second"
    | _ => "third"
    end.

(** A callable that always fails, each call with a message of its own. *)
Definition always_failing (n : nat) : M Z := reraise (nth_failure n).

End Sample.

(** * Properties *)

(** ** The permission table *)

Lemma str_in_elem_of (x : string) (xs : list string) :
  RBACManager.str_in x xs = true <-> x ∈ xs.
Proof.
  unfold RBACManager.str_in. rewrite existsb_exists, list_elem_of_In.
  split.
  - intros (y & Hy & Heq). apply String.eqb_eq in Heq. now subst.
  - intros H. exists x. split; [assumption | apply String.eqb_refl].
Qed.

(** C1. With authorization enabled, [check_permission] answers [true]
    exactly when the capability is in the role's entry of [ROLES], and
    [false] for a role that has no entry; with authorization disabled it
    answers [true] for every role and capability. *)
Theorem check_permission_spec (st : Settings) (role cap : string) :
  (enable_rbac st = true ->
     (RBACManager.check_permission st role cap = true <->
      exists caps, RBACManager.ROLES !! role = Some caps /\ cap ∈ caps)) /\
  (enable_rbac st = true -> RBACManager.ROLES !! role = None ->
     RBACManager.check_permission st role cap = false) /\
  (enable_rbac st = false ->
     RBACManager.check_permission st role cap = true).
Proof.
  unfold RBACManager.check_permission.
  repeat split.
  - intros Hin. rewrite H in Hin. cbn in Hin.
    destruct (RBACManager.ROLES !! role) as [caps|] eqn:Hrole; cbn in Hin.
    + exists caps. split; [reflexivity | now apply str_in_elem_of].
    + discriminate.
  - intros (caps & Hrole & Hin). rewrite H, Hrole. cbn.
    now apply str_in_elem_of.
  - intros Hon Hnone. rewrite Hon, Hnone. reflexivity.
  - intros Hoff. rewrite Hoff. reflexivity.
Qed.

Lemma check_permission_spec_witness :
  RBACManager.check_permission default_settings "viewer" "vm:list" = true /\
  RBACManager.check_permission default_settings "auditor" "vm:list" = false /\
  RBACManager.check_permission (mkSettings false 300) "auditor" "vm:delete" = true.
Proof.
  split; [| split].
  - apply (proj1 (check_permission_spec default_settings "viewer" "vm:list"));
      [reflexivity |].
    exists ["vm:list"; "host:monitor"; "resource:monitor"; "system:monitor"].
    split; [reflexivity | apply list_elem_of_here].
  - apply (proj1 (proj2 (check_permission_spec default_settings "auditor" "vm:list")));
      reflexivity.
  - apply (proj2 (proj2 (check_permission_spec (mkSettings false 300) "auditor" "vm:delete")));
      reflexivity.
Defined.

(** ** The task poller *)

Lemma sleep_no_deadline (d : Z) (env : Env) (w : World) :
  deadline env = None ->
  sleep d env w =
    (Ok tt, {| clock := clock w + Z.max 0 d; trace := trace w ++ [EvSleep d] |}).
Proof. intros H. unfold sleep. now rewrite H. Qed.

Lemma sleep_before_deadline (d : Z) (env : Env) (w : World) :
  wakes_before_deadline env (clock w + Z.max 0 d) ->
  sleep d env w =
    (Ok tt, {| clock := clock w + Z.max 0 d; trace := trace w ++ [EvSleep d] |}).
Proof.
  unfold wakes_before_deadline, sleep. destruct (deadline env) as [dl|]; [| reflexivity].
  intros H. destruct (dl <=? clock w + Z.max 0 d) eqn:Hle;
    [apply Z.leb_le in Hle; lia |].
  now rewrite andb_false_r.
Qed.

Lemma sleep_cancelled (d : Z) (env : Env) (w : World) (dl : Z) :
  deadline env = Some dl ->
  clock w < dl <= clock w + Z.max 0 d ->
  sleep d env w =
    (Raise (mkExn CancelledError EmptyString),
     {| clock := dl; trace := trace w ++ [EvSleep d] |}).
Proof.
  intros Hdl [Hlt Hle]. unfold sleep. rewrite Hdl.
  apply Z.ltb_lt in Hlt. apply Z.leb_le in Hle. rewrite Hlt, Hle.
  cbn [andb]. apply Z.ltb_lt in Hlt.
  now replace (Z.max (clock w) dl) with dl by lia.
Qed.

Lemma wakes_before_deadline_mono (env : Env) (t t' : Z) :
  t' <= t -> wakes_before_deadline env t -> wakes_before_deadline env t'.
Proof.
  unfold wakes_before_deadline. destruct (deadline env); [lia | trivial].
Qed.

Lemma no_deadline_wakes (env : Env) (t : Z) :
  deadline env = None -> wakes_before_deadline env t.
Proof. intros H. unfold wakes_before_deadline. now rewrite H. Qed.

Lemma sleep_clock (d : Z) (env : Env) (w w' : World) (u : unit) :
  sleep d env w = (Ok u, w') -> clock w' = clock w + Z.max 0 d.
Proof.
  unfold sleep. destruct (deadline env) as [dl|].
  - destruct ((clock w <? dl) && (dl <=? clock w + Z.max 0 d));
      intros H; inversion H; reflexivity.
  - intros H; inversion H; reflexivity.
Qed.

(** The fuel [poll_fuel] is enough: the loop of the poller always ends. *)
Lemma poll_loop_fuel_enough (fuel : nat) (task : Task) (timeout start : Z)
    (env : Env) (w : World) :
  (Z.to_nat (timeout + 1 - (clock w - start)) < fuel)%nat ->
  poll_loop fuel task timeout start env w <> None.
Proof.
  revert w. induction fuel as [|fuel IH]; intros w Hfuel; [lia |].
  cbn [poll_loop].
  destruct (is_pending _); [| discriminate].
  destruct (timeout <? clock w - start) eqn:Hlate; [discriminate |].
  apply Z.ltb_ge in Hlate.
  destruct (sleep 1 env w) as [[u | e] w'] eqn:Hsleep; [| discriminate].
  apply IH. apply sleep_clock in Hsleep. lia.
Qed.

Lemma poll_loop_total (task : Task) (timeout : Z) (env : Env) (w : World) :
  exists r, poll_loop (poll_fuel timeout) task timeout (clock w) env w = Some r.
Proof.
  destruct (poll_loop (poll_fuel timeout) task timeout (clock w) env w)
    as [r|] eqn:H.
  - now exists r.
  - exfalso. eapply poll_loop_fuel_enough; [| exact H].
    unfold poll_fuel. lia.
Qed.

Lemma after_polls_0 (w : World) : after_polls w 0 = w.
Proof.
  destruct w as [c tr]. unfold after_polls. cbn.
  now rewrite Z.add_0_r, app_nil_r.
Qed.

Lemma after_polls_S (w : World) (n : nat) :
  after_polls {| clock := clock w + 1; trace := trace w ++ [EvSleep 1] |} n
  = after_polls w (S n).
Proof.
  unfold after_polls. cbn [clock trace repeat].
  rewrite <- app_assoc. cbn [app]. f_equal. lia.
Qed.

Lemma poll_loop_reaches (n : nat) : forall (fuel : nat) (task : Task)
    (timeout start : Z) (env : Env) (w : World),
  ((0 < n)%nat -> wakes_before_deadline env (clock w + Z.of_nat n)) ->
  (n < fuel)%nat ->
  (forall i : nat, (i < n)%nat ->
     is_pending (info_state (info task (clock w + Z.of_nat i))) = true) ->
  is_pending (info_state (info task (clock w + Z.of_nat n))) = false ->
  clock w - start + Z.of_nat n <= timeout + 1 ->
  poll_loop fuel task timeout start env w = Some (Ok tt, after_polls w n).
Proof.
  induction n as [|n IH]; intros fuel task timeout start env w Hdl Hfuel Hpend Hend Hin.
  - destruct fuel as [|fuel]; [lia |]. cbn [poll_loop].
    rewrite Z.add_0_r in Hend. rewrite Hend. now rewrite after_polls_0.
  - destruct fuel as [|fuel]; [lia |]. cbn [poll_loop].
    pose proof (Hpend 0%nat ltac:(lia)) as H0. rewrite Z.add_0_r in H0.
    rewrite H0.
    destruct (timeout <? clock w - start) eqn:Hlate;
      [apply Z.ltb_lt in Hlate; lia |].
    rewrite (sleep_before_deadline 1 env w)
      by (apply (wakes_before_deadline_mono env (clock w + Z.of_nat (S n)));
          [lia | apply Hdl; lia]).
    replace (clock w + Z.max 0 1) with (clock w + 1) by lia.
    rewrite <- after_polls_S. apply IH; cbn [clock]; try assumption; try lia.
    + intros _.
      apply (wakes_before_deadline_mono env (clock w + Z.of_nat (S n)));
        [lia | apply Hdl; lia].
    + intros i Hi. specialize (Hpend (S i) ltac:(lia)).
      now replace (clock w + 1 + Z.of_nat i) with (clock w + Z.of_nat (S i)) by lia.
    + now replace (clock w + 1 + Z.of_nat n) with (clock w + Z.of_nat (S n)) by lia.
Qed.


Lemma wait_for_task_async_terminal (task : Task) (timeout : option Z)
    (env : Env) (w : World) (n : nat) :
  ((0 < n)%nat -> wakes_before_deadline env (clock w + Z.of_nat n)) ->
  Z.of_nat n <= int_or timeout (operation_timeout (settings env)) + 1 ->
  (forall i : nat, (i < n)%nat ->
     is_pending (info_state (info task (clock w + Z.of_nat i))) = true) ->
  is_pending (info_state (info task (clock w + Z.of_nat n))) = false ->
  wait_for_task_async task timeout env w =
    (poller_outcome (info task (clock w + Z.of_nat n)), after_polls w n).
Proof.
  intros Hdl Hn Hpend Hend. unfold wait_for_task_async.
  rewrite (poll_loop_reaches n) by
    (try assumption; unfold poll_fuel; lia).
  cbn [after_polls clock]. unfold poller_outcome, raise.
  destruct (info_state (info task (clock w + Z.of_nat n)));
    try reflexivity; discriminate.
Qed.





(** ** The retry decorator *)

Lemma total_delay_app (tr1 tr2 : list Event) :
  total_delay (tr1 ++ tr2) = total_delay tr1 + total_delay tr2.
Proof.
  induction tr1 as [|ev tr1 IH]; cbn [app total_delay]; [lia |].
  destruct ev; lia.
Qed.

Lemma geometric_sum_shift (delay backoff : Z) (k : nat) :
  geometric_sum delay backoff (S k)
  = delay + geometric_sum (delay * backoff) backoff k.
Proof.
  induction k as [|k IH].
  - cbn. lia.
  - cbn [geometric_sum] in *. rewrite IH.
    rewrite Nat2Z.inj_succ, Z.pow_succ_r by lia. lia.
Qed.

Lemma geometric_sum_nonneg (delay backoff : Z) (k : nat) :
  0 <= delay -> 0 <= backoff -> 0 <= geometric_sum delay backoff k.
Proof.
  intros Hd Hb. induction k as [|k IH]; cbn [geometric_sum]; [lia |].
  assert (0 <= backoff ^ Z.of_nat k) by (apply Z.pow_nonneg; lia). nia.
Qed.

Section RetryLoop.

Context {A : Type}.
Variables (max_retries backoff : Z) (func_name : string).
Variable func : nat -> M A.
Variable env : Env.
Hypothesis no_deadline : deadline env = None.

Lemma retry_loop_ok (a : nat) (rest : list nat) (cd : Z) (last : option exn)
    (w w1 : World) (v : A) :
  func a env w = (Ok v, w1) ->
  retry_loop max_retries backoff func_name func (a :: rest) cd last env w
  = (Ok v, w1).
Proof. intros H. cbn [retry_loop]. unfold try_except. now rewrite H. Qed.

Lemma retry_loop_break (a : nat) (rest : list nat) (cd : Z)
    (last : option exn) (w w1 : World) (e : exn) :
  func a env w = (Raise e, w1) ->
  is_Exception e = true ->
  Z.of_nat a = max_retries ->
  retry_loop max_retries backoff func_name func (a :: rest) cd last env w
  = (Raise e, w1).
Proof.
  intros H He Ha. cbn [retry_loop]. unfold try_except. rewrite H, He.
  apply Z.eqb_eq in Ha. now rewrite Ha.
Qed.

Lemma retry_loop_again (a : nat) (rest : list nat) (cd : Z)
    (last : option exn) (w w1 : World) (e : exn) :
  func a env w = (Raise e, w1) ->
  is_Exception e = true ->
  Z.of_nat a <> max_retries ->
  retry_loop max_retries backoff func_name func (a :: rest) cd last env w
  = retry_loop max_retries backoff func_name func rest (cd * backoff) (Some e)
      env (after_pause func_name w1 a e cd).
Proof.
  intros H He Ha. cbn [retry_loop]. unfold try_except. rewrite H, He.
  apply Z.eqb_neq in Ha. rewrite Ha.
  unfold bind, emit. now rewrite sleep_no_deadline by assumption.
Qed.

Lemma retry_loop_succeeds (k : nat) : forall (a len : nat) (cd : Z)
    (last : option exn) (w : World) (errs : nat -> exn) (v : A),
  (k < len)%nat ->
  Z.of_nat (a + k) <= max_retries ->
  (forall i, (a <= i < a + k)%nat -> fails_with func env i (errs i)) ->
  (forall w, fst (func (a + k)%nat env w) = Ok v) ->
  body_does_not_sleep func env ->
  exists w',
    retry_loop max_retries backoff func_name func (seq a len) cd last env w
    = (Ok v, w') /\
    total_delay (trace w') = total_delay (trace w) + geometric_sum cd backoff k /\
    (0 <= cd -> 0 <= backoff ->
     clock w' = clock w + geometric_sum cd backoff k).
Proof.
  induction k as [|k IH]; intros a len cd last w errs v Hlen Ha Hfail Hok Hquiet.
  - destruct len as [|len]; [lia |]. cbn [seq].
    pose proof (Hok w) as Hw. pose proof (Hquiet (a + 0)%nat w) as [Hq1 Hq2].
    rewrite Nat.add_0_r in Hw, Hq1, Hq2.
    destruct (func a env w) as [o w1] eqn:Hf. cbn in Hw, Hq1, Hq2. subst o.
    exists w1. rewrite (retry_loop_ok _ _ _ _ _ _ _ Hf).
    cbn [geometric_sum]. repeat split; lia.
  - destruct len as [|len]; [lia |]. cbn [seq].
    destruct (Hfail a ltac:(lia)) as [Hraise Hexn].
    pose proof (Hraise w) as Hw. pose proof (Hquiet a w) as [Hq1 Hq2].
    destruct (func a env w) as [o w1] eqn:Hf. cbn in Hw, Hq1, Hq2. subst o.
    rewrite (retry_loop_again _ _ _ _ _ _ _ Hf Hexn) by lia.
    destruct (IH (S a) len (cd * backoff) (Some (errs a))
                (after_pause func_name w1 a (errs a) cd) errs v)
      as (w' & IH1 & IH2 & IH3); try assumption; try lia.
    + intros i Hi. apply Hfail. lia.
    + intros w2. replace (S a + k)%nat with (a + S k)%nat by lia. apply Hok.
    + exists w'. rewrite geometric_sum_shift.
      cbn [after_pause clock trace] in IH2, IH3.
      rewrite !total_delay_app in IH2. cbn [total_delay] in IH2.
      repeat split.
      * exact IH1.
      * lia.
      * intros Hcd Hb. rewrite IH3 by nia. lia.
Qed.

Lemma retry_loop_exhausts (len : nat) : forall (a : nat) (cd : Z)
    (last : option exn) (w : World) (errs : nat -> exn),
  Z.of_nat (a + len) = max_retries ->
  (forall i, (a <= i <= a + len)%nat -> fails_with func env i (errs i)) ->
  fst (retry_loop max_retries backoff func_name func (seq a (S len)) cd last env w)
  = Raise (errs (a + len)%nat).
Proof.
  induction len as [|len IH]; intros a cd last w errs Ha Hfail.
  - cbn [seq].
    destruct (Hfail a ltac:(lia)) as [Hraise Hexn].
    pose proof (Hraise w) as Hw.
    destruct (func a env w) as [o w1] eqn:Hf. cbn in Hw. subst o.
    rewrite (retry_loop_break _ _ _ _ _ _ _ Hf Hexn) by lia.
    now rewrite Nat.add_0_r.
  - cbn [seq].
    destruct (Hfail a ltac:(lia)) as [Hraise Hexn].
    pose proof (Hraise w) as Hw.
    destruct (func a env w) as [o w1] eqn:Hf. cbn in Hw. subst o.
    rewrite (retry_loop_again _ _ _ _ _ _ _ Hf Hexn) by lia.
    replace (a + S len)%nat with (S a + len)%nat by lia.
    apply (IH (S a)); [lia |]. intros i Hi. apply Hfail. lia.
Qed.

End RetryLoop.

(** C3. With no enclosing [wait_for]: when the first [k] calls of the body
    fail and call [k+1] succeeds, and [max_retries + 1 >= k + 1], the
    wrapper returns the success value and the delay it slept is
    [delay * backoff^0 + ... + delay * backoff^(k-1)] (counted on the sleep
    requests, and on the clock when delay and backoff are not negative);
    when every call fails, the wrapper raises the failure of the final
    attempt [max_retries], not an earlier one. *)
Theorem async_retry_spec {A : Type} (max_retries delay backoff : Z)
    (func_name : string) (func : nat -> M A) (env : Env) (w : World) :
  deadline env = None ->
  (forall (k : nat) (errs : nat -> exn) (v : A),
     Z.of_nat k + 1 <= max_retries + 1 ->
     (forall i, (i < k)%nat -> fails_with func env i (errs i)) ->
     (forall w', fst (func k env w') = Ok v) ->
     body_does_not_sleep func env ->
     exists w',
       async_retry max_retries delay backoff func_name func env w = (Ok v, w') /\
       total_delay (trace w') - total_delay (trace w)
         = geometric_sum delay backoff k /\
       (0 <= delay -> 0 <= backoff ->
        clock w' - clock w = geometric_sum delay backoff k)) /\
  (forall errs : nat -> exn,
     0 <= max_retries ->
     (forall i, Z.of_nat i <= max_retries -> fails_with func env i (errs i)) ->
     fst (async_retry max_retries delay backoff func_name func env w)
     = Raise (errs (Z.to_nat max_retries))).
Proof.
  intros Hdl. split.
  - intros k errs v Hk Hfail Hok Hquiet. unfold async_retry, range.
    destruct (retry_loop_succeeds max_retries backoff func_name func env Hdl
                k 0%nat (Z.to_nat (max_retries + 1)) delay None w errs v)
      as (w' & H1 & H2 & H3); try assumption; try lia.
    + intros i Hi. apply Hfail. lia.
    + exists w'. repeat split.
      * exact H1.
      * lia.
      * intros Hd Hb. specialize (H3 Hd Hb). lia.
  - intros errs Hmax Hfail. unfold async_retry, range.
    replace (Z.to_nat (max_retries + 1)) with (S (Z.to_nat max_retries)) by lia.
    apply (retry_loop_exhausts max_retries backoff func_name func env Hdl
             (Z.to_nat max_retries) 0%nat); [lia |].
    intros i Hi. apply Hfail. lia.
Qed.

Lemma async_retry_spec_witness :
  (exists w',
     async_retry 2 1 2 "flaky" Sample.flaky (Sample.env_of []) Sample.w0
     = (Ok 7, w') /\
     total_delay (trace w') - total_delay (trace Sample.w0) = 1 + 2 /\
     clock w' - clock Sample.w0 = 1 + 2) /\
  fst (async_retry 2 1 2 "always_failing" Sample.always_failing
         (Sample.env_of []) Sample.w0)
  = Raise (mkExn VMOperationError "third").
Proof.
  split.
  - destruct (proj1 (async_retry_spec 2 1 2 "flaky" Sample.flaky
                       (Sample.env_of []) Sample.w0 eq_refl)
                2%nat
                (fun i => match i with
                          | O => mkExn VMOperationError "first"
                          | _ => mkExn VMOperationError "second"
                          end)
                7)
      as (w' & H1 & H2 & H3).
    + simpl. lia.
    + intros i Hi. destruct i as [|[|i]]; [split; reflexivity .. | lia].
    + reflexivity.
    + intros i w'. destruct i as [|[|i]]; split; reflexivity.
    + exists w'. split; [exact H1 |]. split; [exact H2 |]. apply H3; lia.
  - apply (proj2 (async_retry_spec 2 1 2 "always_failing" Sample.always_failing
                    (Sample.env_of []) Sample.w0 eq_refl)
             Sample.nth_failure).
    + lia.
    + intros i Hi. split; reflexivity.
Defined.

(** ** The timeout and audit decorators *)

(** Unfolds the plumbing of the coroutine monad. *)
Ltac mrun :=
  cbv beta iota zeta
      delta [bind ret ask time_time try_except reraise raise has_permission
             get_service_instance].

Lemma timeout_handler_ok {A} (ts : option Z) (name : string) (func : M A)
    (env : Env) (w w' : World) (a : A) :
  let timeout := int_or ts (operation_timeout (settings env)) in
  0 < timeout ->
  func (under_deadline env w timeout) w = (Ok a, w') ->
  timeout_handler ts name func env w = (Ok a, w').
Proof.
  intros timeout Hpos Hf. unfold timeout_handler, bind, ask, wait_for.
  fold timeout. destruct (timeout <=? 0) eqn:Hle; [apply Z.leb_le in Hle; lia |].
  unfold under_deadline in Hf. now rewrite Hf.
Qed.

Lemma timeout_handler_raise {A} (ts : option Z) (name : string) (func : M A)
    (env : Env) (w w' : World) (e : exn) :
  let timeout := int_or ts (operation_timeout (settings env)) in
  0 < timeout ->
  func (under_deadline env w timeout) w = (Raise e, w') ->
  is_Exception e = true ->
  is_asyncio_TimeoutError e = false ->
  timeout_handler (A := A) ts name func env w = (Raise e, w').
Proof.
  intros timeout Hpos Hf He Hnt. unfold timeout_handler, bind, ask, wait_for.
  fold timeout. destruct (timeout <=? 0) eqn:Hle; [apply Z.leb_le in Hle; lia |].
  unfold under_deadline in Hf. rewrite Hf.
  assert (Hc : is_CancelledError e = false).
  { unfold is_Exception in He. unfold is_CancelledError.
    destruct (exn_cls e); try reflexivity; discriminate. }
  rewrite Hc. cbn [andb]. now rewrite Hnt.
Qed.

Lemma audit_log_ok {A} (operation : string) (rt : option string) (func : M A)
    (env : Env) (w w' : World) (a : A) :
  func env w = (Ok a, w') ->
  audit_logger env INFO (audit_record operation rt (clock w) None w') = None ->
  audit_log operation rt func env w
  = (Ok a, logged w' (EvAudit INFO (audit_record operation rt (clock w) None w'))).
Proof.
  intros Hf Hlog.
  unfold audit_log, audit_call; mrun.
  rewrite Hf. mrun.
  unfold audit_record in Hlog. cbn [option_map] in Hlog.
  rewrite Hlog. reflexivity.
Qed.

Lemma audit_log_raise {A} (operation : string) (rt : option string)
    (func : M A) (env : Env) (w w' : World) (e : exn) :
  func env w = (Raise e, w') ->
  is_Exception e = true ->
  audit_logger env ERROR (audit_record operation rt (clock w) (Some e) w') = None ->
  audit_log operation rt func env w
  = (Raise e,
     logged w' (EvAudit ERROR (audit_record operation rt (clock w) (Some e) w'))).
Proof.
  intros Hf He Hlog.
  unfold audit_log, audit_call; mrun.
  rewrite Hf. mrun. rewrite He.
  unfold audit_record in Hlog. cbn [option_map] in Hlog.
  rewrite Hlog. reflexivity.
Qed.

Lemma audit_records_app (tr1 tr2 : list Event) :
  audit_records (tr1 ++ tr2) = audit_records tr1 ++ audit_records tr2.
Proof.
  induction tr1 as [|ev tr1 IH]; cbn [app audit_records]; [reflexivity |].
  destruct ev; cbn [app]; now rewrite ?IH.
Qed.

(** C9 as the code has it.  When the calls on the audit logger return, as
    they do with the handlers that the program installs, an invocation
    whose body returns or raises an [Exception] emits exactly one audit
    record, with the operation name, the elapsed duration and the outcome
    (success, or failed with [str(e)]), and the body's value or failure is
    returned unchanged.  An invocation whose body ends by a failure that
    is not an [Exception], as the cancellation of the coroutine is, emits
    no audit record: [except Exception] does not catch it, the failure is
    passed on and the world is the one the body left. *)
Theorem audit_log_spec {A : Type} (operation : string) (rt : option string)
    (func : M A) (env : Env) (w : World) :
  (logger_returns env ->
   (forall a w', func env w = (Ok a, w') ->
      let r := audit_record operation rt (clock w) None w' in
      audit_log operation rt func env w = (Ok a, logged w' (EvAudit INFO r)) /\
      audit_records (trace (logged w' (EvAudit INFO r)))
        = audit_records (trace w') ++ [(INFO, r)] /\
      audit_operation r = operation /\
      audit_duration r = clock w' - clock w /\
      audit_status r = "success") /\
   (forall e w', func env w = (Raise e, w') -> is_Exception e = true ->
      let r := audit_record operation rt (clock w) (Some e) w' in
      audit_log operation rt func env w = (Raise e, logged w' (EvAudit ERROR r)) /\
      audit_records (trace (logged w' (EvAudit ERROR r)))
        = audit_records (trace w') ++ [(ERROR, r)] /\
      audit_operation r = operation /\
      audit_duration r = clock w' - clock w /\
      audit_status r = "failed" /\
      audit_error r = Some (str_exn e))) /\
  (forall e w',
     func env w = (Raise e, w') -> is_Exception e = false ->
     audit_log operation rt func env w = (Raise e, w') /\
     audit_records (trace (snd (audit_log operation rt func env w)))
       = audit_records (trace w')).
Proof.
  split; [intros Hlog; split |].
  - intros a w' Hf r. repeat split.
    + apply audit_log_ok; [assumption | apply Hlog].
    + cbn [logged trace]. now rewrite audit_records_app.
  - intros e w' Hf He r. repeat split.
    + apply audit_log_raise; [assumption .. | apply Hlog].
    + cbn [logged trace]. now rewrite audit_records_app.
  - intros e w' Hf He.
    assert (Hrun : audit_log operation rt func env w = (Raise e, w')).
    { unfold audit_log. mrun. now rewrite Hf, He. }
    now rewrite Hrun.
Qed.

Lemma audit_log_spec_witness :
  audit_records
    (trace (snd (audit_log "probe" (Some "vm") (ret (VInt 5))
                   (Sample.env_of []) Sample.w0)))
  = [(INFO, audit_record "probe" (Some "vm") 1000 None Sample.w0)] /\
  fst (audit_log "probe" (Some "vm") (raise (A := value) VMOperationError "boom")
         (Sample.env_of []) Sample.w0)
  = Raise (mkExn VMOperationError "boom") /\
  audit_records
    (trace (snd (audit_log "probe" (Some "vm") (sleep 30 ;;; ret (VInt 5))
                   (with_deadline (Sample.env_of []) (Some 1010)) Sample.w0)))
  = [].
Proof.
  split; [| split].
  - destruct (proj1 (proj1 (audit_log_spec "probe" (Some "vm") (ret (VInt 5))
                              (Sample.env_of []) Sample.w0)
                       (fun _ _ => eq_refl))
                (VInt 5) Sample.w0 eq_refl) as (Hrun & Hrec & _).
    rewrite Hrun. exact Hrec.
  - destruct (proj2 (proj1 (audit_log_spec "probe" (Some "vm")
                              (raise (A := value) VMOperationError "boom")
                              (Sample.env_of []) Sample.w0)
                       (fun _ _ => eq_refl))
                (mkExn VMOperationError "boom") Sample.w0 eq_refl eq_refl)
      as (Hrun & _).
    now rewrite Hrun.
  - exact (proj2 (proj2 (audit_log_spec "probe" (Some "vm")
                           (sleep 30 ;;; ret (VInt 5))
                           (with_deadline (Sample.env_of []) (Some 1010))
                           Sample.w0)
                    (mkExn CancelledError EmptyString)
                    {| clock := 1010; trace := [EvSleep 30] |}
                    eq_refl eq_refl)).
Defined.

(** C9, the claim as stated fails: an invocation of [delete_vm] that is
    cancelled while it polls its task - the deadline of the caller falls
    two seconds after the call - has submitted the destroy action and
    ends without an audit record. *)
Lemma audit_cancelled_invocation_unrecorded :
  let stuck := mkTask (fun _ => mkTaskInfo "task-7" running (mkPayload "none")
                                  EmptyString) in
  let vm := Sample.vm1 poweredOff stuck in
  let r := VMOperations.delete_vm "vm1" "admin"
             (with_deadline (Sample.env_of [vm]) (Some 1002)) Sample.w0 in
  fst r = Raise (mkExn CancelledError EmptyString) /\
  actions (trace (snd r)) = [CallDestroyVM "vm1"] /\
  audit_records (trace (snd r)) = [] /\
  clock (snd r) = 1002.
Proof. vm_compute. repeat split. Qed.

(** An operation decorated with [audit_log] over [timeout_handler]: what
    its coroutine produces under the deadline is what the caller gets. *)
Lemma audited_ok {A} (operation : string) (rt : option string)
    (ts : option Z) (func : M A) (env : Env) (w w' : World) (a : A) :
  let timeout := int_or ts (operation_timeout (settings env)) in
  0 < timeout ->
  logger_returns env ->
  func (under_deadline env w timeout) w = (Ok a, w') ->
  audit_log operation rt (timeout_handler ts operation func) env w
  = (Ok a, logged w' (EvAudit INFO (audit_record operation rt (clock w) None w'))).
Proof.
  intros timeout Hpos Hlog Hf. apply audit_log_ok; [| apply Hlog].
  now apply timeout_handler_ok.
Qed.

Lemma audited_raise {A} (operation : string) (rt : option string)
    (ts : option Z) (func : M A) (env : Env) (w w' : World) (e : exn) :
  let timeout := int_or ts (operation_timeout (settings env)) in
  0 < timeout ->
  logger_returns env ->
  func (under_deadline env w timeout) w = (Raise e, w') ->
  is_Exception e = true ->
  is_asyncio_TimeoutError e = false ->
  audit_log operation rt (timeout_handler ts operation func) env w
  = (Raise e,
     logged w' (EvAudit ERROR (audit_record operation rt (clock w) (Some e) w'))).
Proof.
  intros timeout Hpos Hlog Hf He Hnt.
  apply audit_log_raise; [| assumption | apply Hlog].
  now apply timeout_handler_raise.
Qed.

(** ** The default roles *)

Lemma operator_lacks_vm_list (st : Settings) :
  enable_rbac st = true ->
  RBACManager.check_permission st "operator" "vm:list" = false.
Proof.
  intros H. unfold RBACManager.check_permission. rewrite H.
  vm_compute. reflexivity.
Qed.

Lemma viewer_has_vm_list (st : Settings) :
  RBACManager.check_permission st "viewer" "vm:list" = true.
Proof.
  unfold RBACManager.check_permission.
  destruct (enable_rbac st); vm_compute; reflexivity.
Qed.

(** C10. ["vm:list"] is a capability of the viewer and not of the
    operator.  With authorization enabled, [list_vms], [get_vm_details] and
    [list_snapshots] called with role operator raise their authorization
    failure, as undecorated coroutines and (when the operation timeout is
    positive and the audit logger returns) as decorated operations; called
    with role viewer they go past the authorization check. *)
Theorem vm_list_not_monotone :
  RBACManager.str_in "vm:list" (RBACManager.get_user_permissions "viewer") = true /\
  RBACManager.str_in "vm:list" (RBACManager.get_user_permissions "operator") = false /\
  forall (env : Env) (w : World) (format_vm_info : VirtualMachine -> value)
         (details_try snapshots_try : string -> M value) (vm_name : string),
    let denied_list :=
      mkExn AuthorizationError "Insufficient permissions to list VMs" in
    let denied_details :=
      mkExn AuthorizationError "Insufficient permissions to view VM details" in
    let denied_snapshots :=
      mkExn AuthorizationError "Insufficient permissions to list snapshots" in
    (enable_rbac (settings env) = true ->
       VMOperations.list_vms_func format_vm_info "operator" env w
         = (Raise denied_list, w) /\
       VMOperations.get_vm_details_func details_try vm_name "operator" env w
         = (Raise denied_details, w) /\
       SnapshotOperations.list_snapshots_func snapshots_try vm_name "operator" env w
         = (Raise denied_snapshots, w)) /\
    (enable_rbac (settings env) = true ->
     0 < operation_timeout (settings env) ->
     logger_returns env ->
       fst (VMOperations.list_vms format_vm_info "operator" env w)
         = Raise denied_list /\
       fst (VMOperations.get_vm_details details_try vm_name "operator" env w)
         = Raise denied_details /\
       fst (SnapshotOperations.list_snapshots snapshots_try vm_name "operator" env w)
         = Raise denied_snapshots) /\
    (VMOperations.list_vms_func format_vm_info "viewer" env w
       = try_except (VMOperations.list_vms_try format_vm_info)
           (fun e => raise VMOperationError
                       ("Failed to list VMs: " +:+ str_exn e)) env w /\
     VMOperations.get_vm_details_func details_try vm_name "viewer" env w
       = (if negb (validate_vm_name vm_name)
          then raise ValidationError ("Invalid VM name: " +:+ vm_name)
          else try_except (details_try vm_name)
                 (fun e => raise VMOperationError
                             ("Failed to get VM details: " +:+ str_exn e))) env w /\
     SnapshotOperations.list_snapshots_func snapshots_try vm_name "viewer" env w
       = (if negb (validate_vm_name vm_name)
          then raise ValidationError ("Invalid VM name: " +:+ vm_name)
          else try_except (snapshots_try vm_name)
                 (fun e => raise SnapshotOperationError
                             ("Failed to list snapshots: " +:+ str_exn e))) env w).
Proof.
  split; [vm_compute; reflexivity |].
  split; [vm_compute; reflexivity |].
  intros env w fmt details_try snapshots_try vm_name d1 d2 d3.
  assert (Hfunc : enable_rbac (settings env) = true -> forall env' w',
            settings env' = settings env ->
            VMOperations.list_vms_func fmt "operator" env' w' = (Raise d1, w') /\
            VMOperations.get_vm_details_func details_try vm_name "operator" env' w'
              = (Raise d2, w') /\
            SnapshotOperations.list_snapshots_func snapshots_try vm_name "operator" env' w'
              = (Raise d3, w')).
  { intros Hrbac env' w' Hst.
    unfold VMOperations.list_vms_func, VMOperations.get_vm_details_func,
      SnapshotOperations.list_snapshots_func. mrun.
    rewrite Hst, (operator_lacks_vm_list _ Hrbac). repeat split. }
  split; [| split].
  - intros Hrbac. now apply Hfunc.
  - intros Hrbac Hpos Hlog.
    unfold VMOperations.list_vms, VMOperations.get_vm_details,
      SnapshotOperations.list_snapshots.
    repeat split.
    + erewrite audited_raise; try reflexivity; try assumption.
      now apply Hfunc.
    + erewrite audited_raise; try reflexivity; try assumption.
      now apply Hfunc.
    + erewrite audited_raise; try reflexivity; try assumption.
      now apply Hfunc.
  - unfold VMOperations.list_vms_func, VMOperations.get_vm_details_func,
      SnapshotOperations.list_snapshots_func. mrun.
    rewrite viewer_has_vm_list. repeat split.
Qed.

Lemma vm_list_not_monotone_witness :
  fst (VMOperations.list_vms (fun _ => VNone) "operator"
         (Sample.env_of []) Sample.w0)
  = Raise (mkExn AuthorizationError "Insufficient permissions to list VMs") /\
  fst (VMOperations.list_vms (fun _ => VNone) "viewer"
         (Sample.env_of []) Sample.w0)
  = Ok (VList []).
Proof.
  split.
  - destruct vm_list_not_monotone as (_ & _ & H).
    destruct (H (Sample.env_of []) Sample.w0 (fun _ => VNone)
                (fun _ => ret VNone) (fun _ => ret VNone) "vm1")
      as (_ & Hdecorated & _).
    destruct Hdecorated as (Hlist & _ & _).
    + reflexivity.
    + simpl. lia.
    + intros lvl r. reflexivity.
    + exact Hlist.
  - vm_compute. reflexivity.
Defined.

(** ** The snapshot tree *)

(** Induction on snapshot trees, with the hypothesis on every child. *)
Fixpoint SnapshotTree_forall_ind (P : SnapshotTree -> Prop)
    (step : forall name snapshot children,
        Forall P children -> P (mkSnapshotTree name snapshot children))
    (t : SnapshotTree) : P t :=
  match t with
  | mkSnapshotTree name snapshot children =>
      step name snapshot children
        ((fix all (l : list SnapshotTree) : Forall P l :=
            match l with
            | [] => @List.Forall_nil _ P
            | c :: rest =>
                @List.Forall_cons _ P c rest
                  (SnapshotTree_forall_ind P step c) (all rest)
            end) children)
  end.

Lemma find_at_unfold (snapshot_name name : string) (snapshot : Snapshot)
    (children : list SnapshotTree) :
  SnapshotOperations.find_at snapshot_name (mkSnapshotTree name snapshot children)
  = if String.eqb name snapshot_name then Some snapshot
    else SnapshotOperations._find_snapshot_by_name children snapshot_name.
Proof.
  cbn [SnapshotOperations.find_at].
  destruct (String.eqb name snapshot_name); [reflexivity |].
  induction children as [|c rest IH]; cbn; [reflexivity |].
  destruct (SnapshotOperations.find_at snapshot_name c); [reflexivity | exact IH].
Qed.

(** The recursion of the source, read off the definition. *)
Lemma find_snapshot_by_name_unfold (t : SnapshotTree)
    (rest : list SnapshotTree) (snapshot_name : string) :
  SnapshotOperations._find_snapshot_by_name (t :: rest) snapshot_name
  = if String.eqb (tree_name t) snapshot_name then Some (tree_snapshot t)
    else match SnapshotOperations._find_snapshot_by_name
                 (childSnapshotList t) snapshot_name with
         | Some child_result => Some child_result
         | None => SnapshotOperations._find_snapshot_by_name rest snapshot_name
         end.
Proof.
  destruct t as [name snapshot children].
  cbn [SnapshotOperations._find_snapshot_by_name tree_name tree_snapshot
       childSnapshotList].
  rewrite find_at_unfold. now destruct (String.eqb name snapshot_name).
Qed.

Lemma find_app_first {X} (p : X -> bool) (l1 l2 : list X) :
  find p (l1 ++ l2)
  = match find p l1 with
    | Some x => Some x
    | None => find p l2
    end.
Proof.
  induction l1 as [|x l1 IH]; cbn; [reflexivity |].
  now destruct (p x).
Qed.

Lemma find_snapshot_preorder (snapshot_name : string)
    (snapshots : list SnapshotTree) :
  SnapshotOperations._find_snapshot_by_name snapshots snapshot_name
  = option_map tree_snapshot (find (named snapshot_name) (preorder snapshots)).
Proof.
  assert (Htree : forall t,
            SnapshotOperations.find_at snapshot_name t
            = option_map tree_snapshot
                (find (named snapshot_name) (preorder_tree t))).
  { induction t as [name snapshot children IH] using SnapshotTree_forall_ind.
    rewrite find_at_unfold. cbn [preorder_tree find]. unfold named at 1.
    cbn [tree_name].
    destruct (String.eqb name snapshot_name); [reflexivity |].
    induction IH as [|c rest Hc _ IHrest]; [reflexivity |].
    cbn [SnapshotOperations._find_snapshot_by_name flat_map].
    rewrite find_app_first, Hc, IHrest.
    now destruct (find (named snapshot_name) (preorder_tree c)). }
  unfold preorder.
  induction snapshots as [|t rest IH]; [reflexivity |].
  cbn [SnapshotOperations._find_snapshot_by_name flat_map].
  rewrite find_app_first, Htree, IH.
  now destruct (find (named snapshot_name) (preorder_tree t)).
Qed.

Lemma find_named_none (snapshot_name : string) (l : list SnapshotTree) :
  find (named snapshot_name) l = None <-> snapshot_name ∉ map tree_name l.
Proof.
  induction l as [|t l IH]; cbn [find map].
  - split; [intros _ H; inversion H | reflexivity].
  - unfold named at 1. rewrite not_elem_of_cons.
    destruct (String.eqb_spec (tree_name t) snapshot_name) as [Heq|Hne].
    + split; [discriminate |]. intros [H _]. now symmetry in Heq.
    + rewrite IH. split; [intros H; split; [congruence | exact H] | now intros [_ H]].
Qed.

Lemma visit_at_unfold (snapshot_name name : string) (snapshot : Snapshot)
    (children : list SnapshotTree) :
  SnapshotOperations.visit_at snapshot_name (mkSnapshotTree name snapshot children)
  = if String.eqb name snapshot_name
    then (Some snapshot, [mkSnapshotTree name snapshot children])
    else let '(r, seen) :=
           SnapshotOperations.find_snapshot_visits children snapshot_name in
         (r, mkSnapshotTree name snapshot children :: seen).
Proof.
  cbn [SnapshotOperations.visit_at].
  destruct (String.eqb name snapshot_name); [reflexivity |].
  match goal with
  | |- context [?loop children] =>
      assert (Hloop : forall l,
                loop l = SnapshotOperations.find_snapshot_visits l snapshot_name)
  end.
  { induction l as [|c rest IH]; cbn; [reflexivity |]. now rewrite IH. }
  now rewrite Hloop.
Qed.

Lemma find_snapshot_visits_spec (snapshot_name : string)
    (snapshots : list SnapshotTree) :
  fst (SnapshotOperations.find_snapshot_visits snapshots snapshot_name)
  = SnapshotOperations._find_snapshot_by_name snapshots snapshot_name /\
  (SnapshotOperations._find_snapshot_by_name snapshots snapshot_name = None ->
   snd (SnapshotOperations.find_snapshot_visits snapshots snapshot_name)
   = preorder snapshots).
Proof.
  assert (Htree : forall t,
            fst (SnapshotOperations.visit_at snapshot_name t)
            = SnapshotOperations.find_at snapshot_name t /\
            (SnapshotOperations.find_at snapshot_name t = None ->
             snd (SnapshotOperations.visit_at snapshot_name t) = preorder_tree t)).
  { induction t as [name snapshot children IH] using SnapshotTree_forall_ind.
    rewrite find_at_unfold, visit_at_unfold. cbn [preorder_tree].
    destruct (String.eqb name snapshot_name); [split; [reflexivity | discriminate] |].
    assert (Hch :
      fst (SnapshotOperations.find_snapshot_visits children snapshot_name)
      = SnapshotOperations._find_snapshot_by_name children snapshot_name /\
      (SnapshotOperations._find_snapshot_by_name children snapshot_name = None ->
       snd (SnapshotOperations.find_snapshot_visits children snapshot_name)
       = flat_map preorder_tree children)).
    { induction IH as [|c rest [Hc1 Hc2] _ [IH1 IH2]]; [split; reflexivity |].
      cbn [SnapshotOperations.find_snapshot_visits
           SnapshotOperations._find_snapshot_by_name flat_map].
      destruct (SnapshotOperations.visit_at snapshot_name c) as [[r|] seen];
        cbn [fst snd] in Hc1, Hc2; rewrite <- Hc1.
      - split; [reflexivity | discriminate].
      - destruct (SnapshotOperations.find_snapshot_visits rest snapshot_name)
          as [r' seen'].
        cbn [fst snd] in *. split; [assumption |].
        intros Hnone. now rewrite Hc2, IH2. }
    destruct (SnapshotOperations.find_snapshot_visits children snapshot_name)
      as [r seen].
    cbn [fst snd] in *. destruct Hch as [H1 H2]. split; [assumption |].
    intros Hnone. now rewrite H2. }
  unfold preorder.
  induction snapshots as [|t rest [IH1 IH2]]; [split; reflexivity |].
  cbn [SnapshotOperations.find_snapshot_visits
       SnapshotOperations._find_snapshot_by_name flat_map].
  destruct (Htree t) as [Ht1 Ht2].
  destruct (SnapshotOperations.visit_at snapshot_name t) as [[r|] seen];
    cbn [fst snd] in Ht1, Ht2; rewrite <- Ht1.
  - split; [reflexivity | discriminate].
  - destruct (SnapshotOperations.find_snapshot_visits rest snapshot_name)
      as [r' seen'].
    cbn [fst snd] in *. split; [assumption |].
    intros Hnone. now rewrite Ht2, IH2.
Qed.

(** ** Running the operation bodies *)

Ltac mrun_io :=
  cbv beta iota zeta
      delta [bind ret ask time_time try_except reraise raise has_permission
             get_service_instance client emit get_vm_by_name get_all_vms].

Lemma after_lookup_eq (w : World) :
  {| clock := clock w;
     trace := ((trace w ++ [EvClient CallRetrieveContent])
               ++ [EvClient (CallCreateContainerView "VirtualMachine")])
              ++ [EvClient CallDestroyView] |}
  = after_lookup w.
Proof. unfold after_lookup, lookup_events. now rewrite <- !app_assoc. Qed.

Lemma client_calls_app (tr1 tr2 : list Event) :
  client_calls (tr1 ++ tr2) = client_calls tr1 ++ client_calls tr2.
Proof.
  induction tr1 as [|ev tr1 IH]; cbn [app client_calls]; [reflexivity |].
  destruct ev; cbn [app]; now rewrite ?IH.
Qed.

Lemma actions_app (tr1 tr2 : list Event) :
  actions (tr1 ++ tr2) = actions tr1 ++ actions tr2.
Proof. unfold actions. now rewrite client_calls_app, filter_app. Qed.

Lemma actions_after_lookup (w : World) :
  actions (trace (after_lookup w)) = actions (trace w).
Proof.
  unfold after_lookup. cbn [trace]. rewrite actions_app.
  change (actions lookup_events) with (@nil ClientCall). apply app_nil_r.
Qed.

Lemma actions_logged_audit (w : World) (lvl : AuditLevel) (r : AuditRecord) :
  actions (trace (logged w (EvAudit lvl r))) = actions (trace w).
Proof.
  unfold logged. cbn [trace]. rewrite actions_app.
  change (actions [EvAudit lvl r]) with (@nil ClientCall). apply app_nil_r.
Qed.

Lemma delete_snapshot_try_not_found (vm_name snapshot_name : string)
    (remove_children : bool) (env : Env) (w : World)
    (si : ServiceInstance) (vm : VirtualMachine) (snapshot_info : SnapshotInfo) :
  service_instance env = Some si ->
  lookup_vm si vm_name = Some vm ->
  vm_snapshot vm = Some snapshot_info ->
  SnapshotOperations._find_snapshot_by_name
    (rootSnapshotList snapshot_info) snapshot_name = None ->
  SnapshotOperations.delete_snapshot_try vm_name snapshot_name remove_children env w
  = (Raise (mkExn SnapshotOperationError
              ("Snapshot '" +:+ snapshot_name +:+ "' not found")),
     after_lookup w).
Proof.
  intros Hsi Hvm Hsnap Hnone. unfold lookup_vm in Hvm.
  unfold SnapshotOperations.delete_snapshot_try. mrun_io.
  rewrite Hsi. cbn [clock trace]. rewrite Hvm, Hsnap, Hnone.
  now rewrite after_lookup_eq.
Qed.

(** C8. The name lookup of revert and delete returns the snapshot of the
    first node named [snapshot_name] in the pre-order of the forest, and
    nothing exactly when no node has that name; in that case it has
    compared the name of every node, in pre-order, and [delete_snapshot]
    (authorized role, valid name of a VM that has snapshots) fails with
    the snapshot-not-found failure without submitting an action. *)
Theorem find_snapshot_spec (snapshots : list SnapshotTree) (snapshot_name : string) :
  SnapshotOperations._find_snapshot_by_name snapshots snapshot_name
    = option_map tree_snapshot (find (named snapshot_name) (preorder snapshots)) /\
  (SnapshotOperations._find_snapshot_by_name snapshots snapshot_name = None <->
   snapshot_name ∉ map tree_name (preorder snapshots)) /\
  fst (SnapshotOperations.find_snapshot_visits snapshots snapshot_name)
    = SnapshotOperations._find_snapshot_by_name snapshots snapshot_name /\
  (snapshot_name ∉ map tree_name (preorder snapshots) ->
   snd (SnapshotOperations.find_snapshot_visits snapshots snapshot_name)
   = preorder snapshots) /\
  forall (env : Env) (w : World) (vm_name user_role : string)
         (remove_children : bool) (si : ServiceInstance) (vm : VirtualMachine),
    RBACManager.check_permission (settings env) user_role "snapshot:delete" = true ->
    validate_vm_name vm_name = true ->
    logger_returns env ->
    service_instance env = Some si ->
    lookup_vm si vm_name = Some vm ->
    vm_snapshot vm = Some (mkSnapshotInfo snapshots) ->
    snapshot_name ∉ map tree_name (preorder snapshots) ->
    let r := SnapshotOperations.delete_snapshot vm_name snapshot_name
               remove_children user_role env w in
    fst r = Raise (mkExn SnapshotOperationError
                     ("Failed to delete snapshot: Snapshot '"
                      +:+ snapshot_name +:+ "' not found")) /\
    actions (trace (snd r)) = actions (trace w).
Proof.
  assert (Hnone : SnapshotOperations._find_snapshot_by_name snapshots snapshot_name
                  = None <->
                  snapshot_name ∉ map tree_name (preorder snapshots)).
  { rewrite find_snapshot_preorder, <- find_named_none.
    destruct (find (named snapshot_name) (preorder snapshots)); cbn;
      split; congruence. }
  destruct (find_snapshot_visits_spec snapshot_name snapshots) as [Hv1 Hv2].
  split; [apply find_snapshot_preorder |].
  split; [exact Hnone |].
  split; [exact Hv1 |].
  split; [intros H; apply Hv2; now apply Hnone |].
  intros env w vm_name user_role remove_children si vm
         Hperm Hvalid Hlog Hsi Hvm Hsnap Habsent r.
  subst r. unfold SnapshotOperations.delete_snapshot.
  erewrite audited_raise; try assumption; try reflexivity.
  - cbn [fst snd]. split; [reflexivity |].
    now rewrite actions_logged_audit, actions_after_lookup.
  - unfold SnapshotOperations.delete_snapshot_func. mrun.
    change (settings (under_deadline env w (int_or (Some 600)
              (operation_timeout (settings env))))) with (settings env).
    rewrite Hperm, Hvalid. cbn [negb].
    erewrite delete_snapshot_try_not_found; try eassumption; try reflexivity.
    now apply Hnone.
  - reflexivity.
  - reflexivity.
Qed.

Lemma find_snapshot_spec_witness :
  fst (SnapshotOperations.delete_snapshot "vm1" "missing" false "admin"
         (Sample.env_of [Sample.vm1 poweredOff (Sample.task_ending 0 success EmptyString)])
         Sample.w0)
  = Raise (mkExn SnapshotOperationError
             "Failed to delete snapshot: Snapshot 'missing' not found") /\
  snd (SnapshotOperations.find_snapshot_visits Sample.forest "missing")
  = preorder Sample.forest /\
  option_map snap_id (SnapshotOperations._find_snapshot_by_name Sample.forest "a")
  = Some "s2".
Proof.
  assert (Habsent : "missing" ∉ map tree_name (preorder Sample.forest)).
  { intros Hin. apply list_elem_of_In in Hin. simpl in Hin.
    repeat destruct Hin as [Hin|Hin]; try discriminate Hin. exact Hin. }
  destruct (find_snapshot_spec Sample.forest "missing")
    as (_ & _ & _ & Hvisits & Hdelete).
  split; [| split].
  - refine (proj1 (Hdelete
             (Sample.env_of [Sample.vm1 poweredOff (Sample.task_ending 0 success EmptyString)])
             Sample.w0 "vm1" "admin" false
             (mkSI (mkContent [Sample.vm1 poweredOff (Sample.task_ending 0 success EmptyString)]))
             (Sample.vm1 poweredOff (Sample.task_ending 0 success EmptyString))
             _ _ _ _ _ _ Habsent)); try reflexivity.
    intros lvl r. reflexivity.
  - exact (Hvisits Habsent).
  - reflexivity.
Defined.

(** ** Start *)

Lemma start_vm_try_running (vm_name : string) (env : Env) (w : World)
    (si : ServiceInstance) (vm : VirtualMachine) :
  service_instance env = Some si ->
  lookup_vm si vm_name = Some vm ->
  powerState vm = poweredOn ->
  VMOperations.start_vm_try vm_name env w
  = (Ok (already_running vm_name), after_lookup w).
Proof.
  intros Hsi Hvm Hon. unfold lookup_vm in Hvm.
  unfold VMOperations.start_vm_try. mrun_io.
  rewrite Hsi. cbn [clock trace]. rewrite Hvm, Hon. cbn [is_poweredOn].
  now rewrite after_lookup_eq.
Qed.

Lemma start_vm_try_started (vm_name : string) (env : Env) (w : World)
    (si : ServiceInstance) (vm : VirtualMachine) (n : nat) :
  service_instance env = Some si ->
  lookup_vm si vm_name = Some vm ->
  powerState vm <> poweredOn ->
  ((0 < n)%nat -> wakes_before_deadline env (clock w + Z.of_nat n)) ->
  Z.of_nat n <= operation_timeout (settings env) + 1 ->
  (forall i : nat, (i < n)%nat ->
     is_pending (info_state (info (PowerOnVM_Task vm) (clock w + Z.of_nat i))) = true) ->
  info_state (info (PowerOnVM_Task vm) (clock w + Z.of_nat n)) = success ->
  VMOperations.start_vm_try vm_name env w
  = (Ok (started vm_name (info_result (info (PowerOnVM_Task vm) (clock w + Z.of_nat n)))),
     after_polls (logged (after_lookup w) (EvClient (CallPowerOnVM (vm_name_of vm)))) n).
Proof.
  intros Hsi Hvm Hoff Hdl Hn Hpend Hdone. unfold lookup_vm in Hvm.
  unfold VMOperations.start_vm_try. mrun_io.
  rewrite Hsi. cbn [clock trace]. rewrite Hvm.
  destruct (is_poweredOn (powerState vm)) eqn:Hp;
    [destruct (powerState vm); try discriminate; now contradiction Hoff |].
  rewrite (wait_for_task_async_terminal _ _ _ _ n); cbn [clock]; try assumption.
  - unfold poller_outcome. rewrite Hdone. rewrite after_lookup_eq. reflexivity.
  - now rewrite Hdone.
Qed.

Lemma async_retry_first_ok {A} (delay backoff : Z) (name : string)
    (func : nat -> M A) (env : Env) (w w' : World) (a : A) :
  func 0%nat env w = (Ok a, w') ->
  async_retry 2 delay backoff name func env w = (Ok a, w').
Proof.
  intros H. unfold async_retry, range.
  change (seq 0 (Z.to_nat (2 + 1))) with [0; 1; 2]%nat.
  cbn [retry_loop]. unfold try_except. now rewrite H.
Qed.

Lemma actions_after_polls (w : World) (n : nat) :
  actions (trace (after_polls w n)) = actions (trace w).
Proof.
  unfold after_polls. cbn [trace]. rewrite actions_app.
  replace (actions (repeat (EvSleep 1) n)) with (@nil ClientCall);
    [apply app_nil_r |].
  induction n as [|n IH]; [reflexivity | exact IH].
Qed.

(** ** Authorization and validation failures under the retry decorator *)

Lemma start_vm_func_rejects (vm_name user_role : string) (env : Env)
    (w : World) (e : exn) :
  start_vm_rejection (settings env) vm_name user_role = Some e ->
  VMOperations.start_vm_func vm_name user_role env w = (Raise e, w) /\
  is_Exception e = true /\ is_asyncio_TimeoutError e = false.
Proof.
  unfold start_vm_rejection, VMOperations.start_vm_func. mrun.
  destruct (negb (RBACManager.check_permission (settings env) user_role "vm:start")).
  - intros H. inversion H. repeat split.
  - destruct (negb (validate_vm_name vm_name)); [| discriminate].
    intros H. inversion H. repeat split.
Qed.

(** C4 as the code has it.  [start_vm] is decorated with
    [async_retry(max_retries=2)] outside its authorization and validation
    checks, and the decorator retries every [Exception].  A call that its
    checks reject ends with that authorization or validation failure, but
    only after three executions of the body: two warnings are logged, the
    wrapper sleeps 1 and then 2 seconds, and the failure of the third
    execution is audited and raised. *)
Theorem start_vm_rejection_is_retried (env : Env) (w : World)
    (vm_name user_role : string) (e : exn) :
  deadline env = None ->
  logger_returns env ->
  0 < operation_timeout (settings env) ->
  start_vm_rejection (settings env) vm_name user_role = Some e ->
  VMOperations.start_vm vm_name user_role env w
  = (Raise e,
     {| clock := clock w + 3;
        trace := trace w ++
          [EvRetryWarning 1 "start_vm" (str_exn e) 1; EvSleep 1;
           EvRetryWarning 2 "start_vm" (str_exn e) 2; EvSleep 2;
           EvAudit ERROR
             {| audit_operation := "start_vm";
                audit_resource_type := Some "vm";
                audit_status := "failed";
                audit_error := Some (str_exn e);
                audit_duration := 3;
                audit_timestamp := clock w + 3 |}] |}).
Proof.
  intros Hdl Hlog Hpos Hrej. unfold VMOperations.start_vm.
  set (attempt := fun _ : nat =>
         timeout_handler None "start_vm"
           (VMOperations.start_vm_func vm_name user_role)).
  assert (Hattempt : forall (i : nat) w', attempt i env w' = (Raise e, w')).
  { intros i w'. unfold attempt.
    destruct (start_vm_func_rejects vm_name user_role
                (under_deadline env w'
                   (int_or None (operation_timeout (settings env)))) w' e Hrej)
      as (Hf & He & Hnt).
    now apply timeout_handler_raise. }
  assert (He : is_Exception e = true).
  { now destruct (start_vm_func_rejects vm_name user_role env w e Hrej) as (_ & He & _). }
  erewrite audit_log_raise; [| | exact He | apply Hlog].
  2:{ unfold async_retry, range.
      change (seq 0 (Z.to_nat (2 + 1))) with [0; 1; 2]%nat.
      rewrite (retry_loop_again 2 2 "start_vm" attempt env Hdl _ _ _ _ _ _ _
                 (Hattempt 0%nat w) He) by discriminate.
      rewrite (retry_loop_again 2 2 "start_vm" attempt env Hdl _ _ _ _ _ _ _
                 (Hattempt 1%nat _) He) by discriminate.
      apply (retry_loop_break 2 2 "start_vm" attempt env _ _ _ _ _ _ _
               (Hattempt 2%nat _) He). reflexivity. }
  unfold logged, audit_record, after_pause. cbn [clock trace option_map].
  rewrite <- !app_assoc. cbn [app].
  change (Z.of_nat 0 + 1) with 1. change (Z.of_nat 1 + 1) with 2.
  change (1 * 2) with 2. change (Z.max 0 1) with 1. change (Z.max 0 2) with 2.
  replace (clock w + 1 + 2 - clock w) with 3 by lia.
  replace (clock w + 1 + 2) with (clock w + 3) by lia.
  reflexivity.
Qed.

Lemma start_vm_rejection_is_retried_witness :
  fst (VMOperations.start_vm "vm1" "viewer" (Sample.env_of []) Sample.w0)
  = Raise (mkExn AuthorizationError "Insufficient permissions to start VM") /\
  clock (snd (VMOperations.start_vm "vm1" "viewer" (Sample.env_of []) Sample.w0))
  = 1003.
Proof.
  rewrite (start_vm_rejection_is_retried (Sample.env_of []) Sample.w0
             "vm1" "viewer"
             (mkExn AuthorizationError "Insufficient permissions to start VM")
             eq_refl (fun _ _ => eq_refl) eq_refl eq_refl).
  split; reflexivity.
Defined.

(** C4, the claim as stated fails: a viewer starting a VM, and an operator
    starting a VM with an invalid name, get their failure three seconds
    later, after two retry warnings. *)
Lemma start_vm_rejection_not_immediate :
  let vm := Sample.vm1 poweredOff (Sample.task_ending 0 success EmptyString) in
  let denied := VMOperations.start_vm "vm1" "viewer" (Sample.env_of [vm]) Sample.w0 in
  let invalid := VMOperations.start_vm "vm/1" "operator" (Sample.env_of [vm]) Sample.w0 in
  (fst denied
   = Raise (mkExn AuthorizationError "Insufficient permissions to start VM") /\
   retry_warnings (trace (snd denied)) = [1; 2] /\
   clock (snd denied) = clock Sample.w0 + 3) /\
  (fst invalid = Raise (mkExn ValidationError "Invalid VM name: vm/1") /\
   retry_warnings (trace (snd invalid)) = [1; 2] /\
   clock (snd invalid) = clock Sample.w0 + 3).
Proof. vm_compute. repeat split. Qed.

(** ** Resource modify without changes *)

Lemma modify_vm_resources_try_no_changes (vm_name : string) (env : Env)
    (w : World) (si : ServiceInstance) (vm : VirtualMachine) :
  service_instance env = Some si ->
  lookup_vm si vm_name = Some vm ->
  ResourceOperations.modify_vm_resources_try vm_name None None env w
  = (Ok (no_changes vm_name), after_lookup w).
Proof.
  intros Hsi Hvm. unfold lookup_vm in Hvm.
  unfold ResourceOperations.modify_vm_resources_try. mrun_io.
  rewrite Hsi. cbn [clock trace]. rewrite Hvm.
  cbn [ResourceOperations.changes_made app]. now rewrite after_lookup_eq.
Qed.

(** C6 as the code has it.  Resource-modify by an authorized role, with a
    valid name of a VM in the inventory and neither a cpu nor a memory
    argument (positive operation timeout, audit logger returning), returns
    the success ["no_changes"] and submits no action; it has looked the VM
    up first, by three calls on the management-plane client. *)
Theorem modify_without_changes (env : Env) (w : World)
    (vm_name user_role : string) (si : ServiceInstance) (vm : VirtualMachine) :
  RBACManager.check_permission (settings env) user_role "resource:allocate" = true ->
  validate_vm_name vm_name = true ->
  logger_returns env ->
  0 < operation_timeout (settings env) ->
  service_instance env = Some si ->
  lookup_vm si vm_name = Some vm ->
  let r := ResourceOperations.modify_vm_resources vm_name None None user_role env w in
  fst r = Ok (no_changes vm_name) /\
  actions (trace (snd r)) = actions (trace w) /\
  client_calls (trace (snd r))
    = client_calls (trace w)
      ++ [CallRetrieveContent; CallCreateContainerView "VirtualMachine";
          CallDestroyView] /\
  clock (snd r) = clock w.
Proof.
  intros Hperm Hvalid Hlog Hpos Hsi Hvm r. subst r.
  unfold ResourceOperations.modify_vm_resources.
  erewrite audited_ok; try assumption.
  2:{ unfold ResourceOperations.modify_vm_resources_func. mrun.
      change (settings (under_deadline env w _)) with (settings env).
      rewrite Hperm, Hvalid. cbn [negb ResourceOperations.out_of_range].
      now rewrite (modify_vm_resources_try_no_changes _ _ _ si vm). }
  cbn [fst snd]. split; [reflexivity |].
  split; [now rewrite actions_logged_audit, actions_after_lookup |].
  unfold logged, after_lookup. cbn [trace clock].
  rewrite !client_calls_app. cbn [client_calls lookup_events].
  split; [now rewrite app_nil_r | reflexivity].
Qed.

Lemma modify_without_changes_witness :
  let vm := Sample.vm1 poweredOff (Sample.task_ending 0 success EmptyString) in
  let r := ResourceOperations.modify_vm_resources "vm1" None None "admin"
             (Sample.env_of [vm]) Sample.w0 in
  fst r = Ok (no_changes "vm1") /\ actions (trace (snd r)) = [].
Proof.
  intros vm r.
  destruct (modify_without_changes (Sample.env_of [vm]) Sample.w0 "vm1" "admin"
              (mkSI (mkContent [vm])) vm
              eq_refl eq_refl (fun _ _ => eq_refl) eq_refl eq_refl eq_refl)
    as (H1 & H2 & _).
  split; [exact H1 | exact H2].
Defined.

(** C6, the claim as stated fails: the no-op call has made three calls on
    the management-plane client; and for a VM that is not in the inventory
    the same call is a failure. *)
Lemma modify_without_changes_calls_client :
  let vm := Sample.vm1 poweredOff (Sample.task_ending 0 success EmptyString) in
  let r := ResourceOperations.modify_vm_resources "vm1" None None "admin"
             (Sample.env_of [vm]) Sample.w0 in
  let r' := ResourceOperations.modify_vm_resources "vm2" None None "admin"
              (Sample.env_of [vm]) Sample.w0 in
  (fst r = Ok (no_changes "vm1") /\
   client_calls (trace (snd r))
   = [CallRetrieveContent; CallCreateContainerView "VirtualMachine";
      CallDestroyView]) /\
  fst r' = Raise (mkExn ResourceOperationError
                    "Failed to modify VM resources: VM 'vm2' not found").
Proof. vm_compute. repeat split. Qed.

(** ** Failures raised inside a body *)

Lemma delete_vm_try_task_failed (vm_name : string) (env : Env) (w : World)
    (si : ServiceInstance) (vm : VirtualMachine) :
  0 < operation_timeout (settings env) ->
  service_instance env = Some si ->
  lookup_vm si vm_name = Some vm ->
  powerState vm <> poweredOn ->
  info_state (info (Destroy_Task vm) (clock w)) = error ->
  VMOperations.delete_vm_try vm_name env w
  = (Raise (mkExn VMwareMCPException
              ("Task failed: "
               +:+ info_error_msg (info (Destroy_Task vm) (clock w)))),
     logged (after_lookup w) (EvClient (CallDestroyVM (vm_name_of vm)))).
Proof.
  intros Hpos Hsi Hvm Hoff Herr. unfold lookup_vm in Hvm.
  unfold VMOperations.delete_vm_try. mrun_io.
  rewrite Hsi. cbn [clock trace]. rewrite Hvm.
  destruct (is_poweredOn (powerState vm)) eqn:Hp;
    [destruct (powerState vm); try discriminate; now contradiction Hoff |].
  cbn [clock trace].
  rewrite (wait_for_task_async_terminal _ _ _ _ 0); cbn [clock Z.of_nat int_or].
  - unfold poller_outcome. rewrite Z.add_0_r, Herr, after_polls_0.
    unfold logged, after_lookup, lookup_events. cbn [clock trace].
    now rewrite <- !app_assoc.
  - intros H. inversion H.
  - lia.
  - intros i Hi. inversion Hi.
  - now rewrite Z.add_0_r, Herr.
Qed.

(** C5 as the code has it.  [delete_vm] (positive operation timeout, audit
    logger returning) passes on unchanged the authorization and validation
    failures that it raises before its [try] block.  Every [Exception]
    raised inside the [try] block, a failure of the poller included,
    reaches the caller as a [VMOperationError] whose message is
    ["Failed to delete VM: "] followed by the message of the original
    failure: kind and content both change.  A value returned by the block
    is returned unchanged. *)
Theorem delete_vm_failure_surface (env : Env) (w : World)
    (vm_name user_role : string) :
  logger_returns env ->
  0 < operation_timeout (settings env) ->
  let env' := under_deadline env w (operation_timeout (settings env)) in
  let allowed :=
    RBACManager.check_permission (settings env) user_role "vm:delete" in
  let r := VMOperations.delete_vm vm_name user_role env w in
  (allowed = false ->
   fst r = Raise (mkExn AuthorizationError "Insufficient permissions to delete VM")) /\
  (allowed = true -> validate_vm_name vm_name = false ->
   fst r = Raise (mkExn ValidationError ("Invalid VM name: " +:+ vm_name))) /\
  (allowed = true -> validate_vm_name vm_name = true ->
   (forall e w', VMOperations.delete_vm_try vm_name env' w = (Raise e, w') ->
      is_Exception e = true ->
      fst r = Raise (mkExn VMOperationError
                       ("Failed to delete VM: " +:+ str_exn e))) /\
   (forall v w', VMOperations.delete_vm_try vm_name env' w = (Ok v, w') ->
      fst r = Ok v) /\
   (forall si vm,
      service_instance env = Some si ->
      lookup_vm si vm_name = Some vm ->
      powerState vm <> poweredOn ->
      info_state (info (Destroy_Task vm) (clock w)) = error ->
      fst r = Raise (mkExn VMOperationError
                       ("Failed to delete VM: Task failed: "
                        +:+ info_error_msg (info (Destroy_Task vm) (clock w)))))).
Proof.
  intros Hlog Hpos env' allowed r. subst r.
  unfold VMOperations.delete_vm.
  assert (Hwrap : allowed = true -> validate_vm_name vm_name = true ->
            forall e w', VMOperations.delete_vm_try vm_name env' w = (Raise e, w') ->
            is_Exception e = true ->
            fst (audit_log "delete_vm" (Some "vm")
                   (timeout_handler None "delete_vm"
                      (VMOperations.delete_vm_func vm_name user_role)) env w)
            = Raise (mkExn VMOperationError
                       ("Failed to delete VM: " +:+ str_exn e))).
  { intros Hperm Hvalid e w' Htry He.
    erewrite audited_raise; try assumption; try reflexivity.
    unfold VMOperations.delete_vm_func. mrun.
    change (settings (under_deadline env w _)) with (settings env).
    fold allowed. rewrite Hperm, Hvalid. cbn [negb int_or].
    fold env'. now rewrite Htry, He. }
  split; [| split].
  - intros Hperm.
    erewrite audited_raise; try assumption; try reflexivity.
    unfold VMOperations.delete_vm_func. mrun.
    change (settings (under_deadline env w _)) with (settings env).
    fold allowed. now rewrite Hperm.
  - intros Hperm Hvalid.
    erewrite audited_raise; try assumption; try reflexivity.
    unfold VMOperations.delete_vm_func. mrun.
    change (settings (under_deadline env w _)) with (settings env).
    fold allowed. now rewrite Hperm, Hvalid.
  - intros Hperm Hvalid. split; [now apply Hwrap | split].
    + intros v w' Htry.
      erewrite audited_ok; try assumption; try reflexivity.
      unfold VMOperations.delete_vm_func. mrun.
      change (settings (under_deadline env w _)) with (settings env).
      fold allowed. rewrite Hperm, Hvalid. cbn [negb int_or].
      fold env'. now rewrite Htry.
    + intros si vm Hsi Hvm Hoff Herr.
      rewrite (Hwrap Hperm Hvalid _ _
                 (delete_vm_try_task_failed vm_name env' w si vm Hpos Hsi Hvm Hoff Herr)
                 eq_refl).
      reflexivity.
Qed.

Lemma delete_vm_failure_surface_witness :
  let vm := Sample.vm1 poweredOff (Sample.task_ending 0 error "disk locked") in
  fst (VMOperations.delete_vm "vm1" "viewer" (Sample.env_of [vm]) Sample.w0)
  = Raise (mkExn AuthorizationError "Insufficient permissions to delete VM") /\
  fst (VMOperations.delete_vm "vm1" "admin" (Sample.env_of [vm]) Sample.w0)
  = Raise (mkExn VMOperationError
             "Failed to delete VM: Task failed: disk locked").
Proof.
  intros vm.
  destruct (delete_vm_failure_surface (Sample.env_of [vm]) Sample.w0 "vm1" "viewer"
              (fun _ _ => eq_refl) eq_refl) as (Hdenied & _).
  destruct (delete_vm_failure_surface (Sample.env_of [vm]) Sample.w0 "vm1" "admin"
              (fun _ _ => eq_refl) eq_refl) as (_ & _ & Htry).
  destruct (Htry eq_refl eq_refl) as (_ & _ & Hpoller).
  split.
  - exact (Hdenied eq_refl).
  - exact (Hpoller (mkSI (mkContent [vm])) vm eq_refl eq_refl
             ltac:(discriminate) eq_refl).
Defined.

(** C5, the claim as stated fails: the poller raises a
    [VMwareMCPException] inside the body of [delete_vm], and the caller
    receives a [VMOperationError] with another message. *)
Lemma delete_vm_changes_failure :
  let vm := Sample.vm1 poweredOff (Sample.task_ending 0 error "disk locked") in
  let env := Sample.env_of [vm] in
  let raised := mkExn VMwareMCPException "Task failed: disk locked" in
  let surfaced :=
    mkExn VMOperationError "Failed to delete VM: Task failed: disk locked" in
  fst (wait_for_task_async (Destroy_Task vm) None
         (under_deadline env Sample.w0 300) Sample.w0) = Raise raised /\
  fst (VMOperations.delete_vm_try "vm1" (under_deadline env Sample.w0 300) Sample.w0)
  = Raise raised /\
  fst (VMOperations.delete_vm "vm1" "admin" env Sample.w0) = Raise surfaced /\
  surfaced <> raised.
Proof. vm_compute. repeat split. discriminate. Qed.

(** * Further properties of the code *)

(** ** The default roles, for every role and capability *)

Lemma roles_lookup (role : string) :
  (role = "admin" \/ role = "operator" \/ role = "viewer") \/
  RBACManager.ROLES !! role = None.
Proof.
  destruct (decide (role = "admin")) as [->|Ha]; [now left; left |].
  destruct (decide (role = "operator")) as [->|Ho]; [now left; right; left |].
  destruct (decide (role = "viewer")) as [->|Hv]; [now left; right; right |].
  right. unfold RBACManager.ROLES.
  rewrite !lookup_insert_ne by congruence. apply lookup_empty.
Qed.

(** X1. With authorization enabled, the viewer is the only role that has
    ["vm:list"]: the operator, the administrator and every role outside
    the table are refused it. *)
Theorem only_viewer_has_vm_list (st : Settings) (role : string) :
  enable_rbac st = true ->
  (RBACManager.check_permission st role "vm:list" = true <-> role = "viewer").
Proof.
  intros Hon. unfold RBACManager.check_permission. rewrite Hon. cbn [negb].
  split.
  - destruct (roles_lookup role) as [[-> | [-> | ->]] | Hnone].
    + vm_compute. discriminate.
    + vm_compute. discriminate.
    + reflexivity.
    + rewrite Hnone. cbn. discriminate.
  - intros ->. vm_compute. reflexivity.
Qed.

Lemma only_viewer_has_vm_list_witness :
  RBACManager.check_permission default_settings "admin" "vm:list" = false.
Proof.
  destruct (RBACManager.check_permission default_settings "admin" "vm:list") eqn:H;
    [| reflexivity].
  apply (only_viewer_has_vm_list default_settings "admin" eq_refl) in H.
  discriminate H.
Defined.

Lemma elem_of_str_in (x : string) (xs : list string) :
  x ∈ xs -> RBACManager.str_in x xs = true.
Proof. apply str_in_elem_of. Qed.

(** X2. Apart from ["vm:list"], the default roles are nested: every
    capability of the viewer is one of the operator, and every capability
    of the operator is one of the administrator. *)
Theorem roles_nested_except_vm_list (st : Settings) (cap : string) :
  (cap <> "vm:list" ->
   RBACManager.check_permission st "viewer" cap = true ->
   RBACManager.check_permission st "operator" cap = true) /\
  (RBACManager.check_permission st "operator" cap = true ->
   RBACManager.check_permission st "admin" cap = true).
Proof.
  unfold RBACManager.check_permission.
  destruct (enable_rbac st); cbn [negb]; [| split; reflexivity].
  change (default [] (RBACManager.ROLES !! "viewer"))
    with ["vm:list"; "host:monitor"; "resource:monitor"; "system:monitor"].
  change (default [] (RBACManager.ROLES !! "operator"))
    with ["vm:start"; "vm:stop"; "vm:clone"; "snapshot:create"; "snapshot:revert";
          "host:monitor"; "resource:monitor"; "system:monitor"].
  change (default [] (RBACManager.ROLES !! "admin"))
    with (RBACManager.get_user_permissions "admin").
  split.
  - intros Hne H. apply str_in_elem_of in H.
    repeat (apply elem_of_cons in H as [-> | H]); try (vm_compute; reflexivity).
    + now contradiction Hne.
    + inversion H.
  - intros H. apply str_in_elem_of in H.
    repeat (apply elem_of_cons in H as [-> | H]); try (vm_compute; reflexivity).
    inversion H.
Qed.

Lemma roles_nested_except_vm_list_witness :
  RBACManager.check_permission default_settings "admin" "vm:clone" = true.
Proof.
  apply (proj2 (roles_nested_except_vm_list default_settings "vm:clone")).
  reflexivity.
Defined.

Lemma client_calls_logged_audit (w : World) (lvl : AuditLevel) (r : AuditRecord) :
  client_calls (trace (logged w (EvAudit lvl r))) = client_calls (trace w).
Proof.
  unfold logged. cbn [trace]. rewrite client_calls_app. cbn. apply app_nil_r.
Qed.

(** X3. With authorization enabled, only the administrator can delete a
    snapshot: for every other role - the operator, which is the default
    role of [delete_snapshot], included - the operation raises its
    authorization failure and makes no call on the client. *)
Theorem only_admin_deletes_snapshots (env : Env) (w : World)
    (vm_name snapshot_name user_role : string) (remove_children : bool) :
  enable_rbac (settings env) = true ->
  logger_returns env ->
  user_role <> "admin" ->
  let r := SnapshotOperations.delete_snapshot vm_name snapshot_name
             remove_children user_role env w in
  fst r = Raise (mkExn AuthorizationError
                   "Insufficient permissions to delete snapshot") /\
  client_calls (trace (snd r)) = client_calls (trace w).
Proof.
  intros Hon Hlog Hrole r. subst r.
  assert (Hdenied : RBACManager.check_permission (settings env) user_role
                      "snapshot:delete" = false).
  { unfold RBACManager.check_permission. rewrite Hon. cbn [negb].
    destruct (roles_lookup user_role) as [[-> | [-> | ->]] | Hnone].
    - now contradiction Hrole.
    - vm_compute. reflexivity.
    - vm_compute. reflexivity.
    - now rewrite Hnone. }
  unfold SnapshotOperations.delete_snapshot.
  erewrite audited_raise; try assumption; try reflexivity.
  - cbn [fst snd]. split; [reflexivity | apply client_calls_logged_audit].
  - unfold SnapshotOperations.delete_snapshot_func. mrun.
    change (settings (under_deadline env w _)) with (settings env).
    now rewrite Hdenied.
  - reflexivity.
  - reflexivity.
Qed.

Lemma only_admin_deletes_snapshots_witness :
  fst (SnapshotOperations.delete_snapshot "vm1" "base" false "operator"
         (Sample.env_of [Sample.vm1 poweredOff (Sample.task_ending 0 success EmptyString)])
         Sample.w0)
  = Raise (mkExn AuthorizationError "Insufficient permissions to delete snapshot").
Proof.
  apply (only_admin_deletes_snapshots
           (Sample.env_of [Sample.vm1 poweredOff (Sample.task_ending 0 success EmptyString)])
           Sample.w0 "vm1" "base" "operator" false eq_refl (fun _ _ => eq_refl)).
  discriminate.
Defined.

(** ** Lookup and validation helpers *)

(** X4. [get_vm_by_name] creates a container view and destroys it again,
    whether or not it finds the VM, and makes no other call.  What it
    returns is the first VM of the view with the requested name; it
    returns nothing exactly when no VM of the view has that name. *)
Theorem get_vm_by_name_spec (content : ServiceContent) (vm_name : string)
    (env : Env) (w : World) :
  let r := get_vm_by_name content vm_name env w in
  clock (snd r) = clock w /\
  trace (snd r) = trace w ++ [EvClient (CallCreateContainerView "VirtualMachine");
                              EvClient CallDestroyView] /\
  (forall vm, fst r = Ok (Some vm) ->
     vm_name_of vm = vm_name /\
     exists before after,
       vm_view content = before ++ vm :: after /\
       Forall (fun other => vm_name_of other <> vm_name) before) /\
  (fst r = Ok None <->
   Forall (fun other => vm_name_of other <> vm_name) (vm_view content)) /\
  (exists found, fst r = Ok found).
Proof.
  intros r. subst r. unfold get_vm_by_name. mrun_io. cbn [fst snd clock trace].
  split; [reflexivity |]. split; [now rewrite <- app_assoc |].
  set (p := fun vm => String.eqb (vm_name_of vm) vm_name).
  assert (Hfind : forall l vm, find p l = Some vm ->
            vm_name_of vm = vm_name /\
            exists before after, l = before ++ vm :: after /\
              Forall (fun other => vm_name_of other <> vm_name) before).
  { induction l as [|x l IH]; intros vm Hf; [discriminate |].
    cbn [find] in Hf. destruct (p x) eqn:Hp.
    - inversion Hf; subst. unfold p in Hp. apply String.eqb_eq in Hp.
      split; [assumption |]. exists [], l. split; [reflexivity | constructor].
    - destruct (IH vm Hf) as (Hname & before & after & -> & Hall).
      split; [assumption |]. exists (x :: before), after.
      split; [reflexivity |]. constructor; [| assumption].
      unfold p in Hp. now apply String.eqb_neq in Hp. }
  assert (Hnone : forall l, find p l = None <->
            Forall (fun other => vm_name_of other <> vm_name) l).
  { induction l as [|x l IH]; cbn [find].
    - split; [constructor | reflexivity].
    - unfold p at 1. destruct (String.eqb_spec (vm_name_of x) vm_name) as [Heq|Hne].
      + split; [discriminate |]. intros H. inversion H; subst. contradiction.
      + rewrite IH. split.
        * intros H. now constructor.
        * intros H. now inversion H. }
  split; [| split].
  - intros vm H. inversion H as [Hf]. now apply (Hfind _ _ Hf).
  - split.
    + intros H. inversion H as [Hf]. now apply Hnone.
    + intros H. apply Hnone in H. now rewrite H.
  - eexists. reflexivity.
Qed.

Lemma byte_of_N (n : N) : (n < 256)%N -> N_of_ascii (ascii_of_N n) = n.
Proof. apply N_ascii_embedding. Qed.

Lemma ascii_eqb_byte (c : ascii) (n : N) :
  (n < 256)%N -> Ascii.eqb c (ascii_of_N n) = (N_of_ascii c =? n)%N.
Proof.
  intros Hn. destruct (Ascii.eqb_spec c (ascii_of_N n)) as [-> | Hne].
  - rewrite byte_of_N by exact Hn. symmetry. apply N.eqb_refl.
  - symmetry. apply N.eqb_neq. intros <-. apply Hne.
    symmetry. apply ascii_N_embedding.
Qed.

Lemma py_len_app (l1 l2 : list ascii) :
  py_len (string_of_list_ascii (l1 ++ l2))
  = (py_len (string_of_list_ascii l1) + py_len (string_of_list_ascii l2))%nat.
Proof.
  induction l1 as [|c l1 IH]; cbn [app string_of_list_ascii py_len]; [reflexivity |].
  rewrite IH. lia.
Qed.

Lemma char_in_app (c : ascii) (l1 l2 : list ascii) :
  char_in c (string_of_list_ascii (l1 ++ l2))
  = char_in c (string_of_list_ascii l1) || char_in c (string_of_list_ascii l2).
Proof.
  induction l1 as [|c' l1 IH]; cbn [app string_of_list_ascii char_in]; [reflexivity |].
  now rewrite IH, orb_assoc.
Qed.

Lemma continuation_byte (n : N) :
  (128 <= n < 192)%N -> is_continuation (ascii_of_N n) = true.
Proof.
  intros Hn. unfold is_continuation. rewrite byte_of_N by lia.
  apply andb_true_iff. split; [apply N.leb_le | apply N.ltb_lt]; lia.
Qed.

Lemma leading_byte (n : N) :
  (n < 128 \/ 192 <= n < 256)%N -> is_continuation (ascii_of_N n) = false.
Proof.
  intros Hn. unfold is_continuation. rewrite byte_of_N by lia.
  apply andb_false_iff.
  destruct Hn as [Hn | Hn]; [left; apply N.leb_gt | right; apply N.ltb_ge]; lia.
Qed.

Ltac hide_div_mod :=
  repeat match goal with
         | H : context [N.modulo ?a ?b] |- _ =>
             let x := fresh "x" in set (x := N.modulo a b) in *; clearbody x
         | |- context [N.modulo ?a ?b] =>
             let x := fresh "x" in set (x := N.modulo a b) in *; clearbody x
         | H : context [N.div ?a ?b] |- _ =>
             let x := fresh "x" in set (x := N.div a b) in *; clearbody x
         | |- context [N.div ?a ?b] =>
             let x := fresh "x" in set (x := N.div a b) in *; clearbody x
         end.

Ltac nlia := hide_div_mod; lia.

Lemma div_bound (a b c : N) : (b <> 0 -> a < b * c -> a / b < c)%N.
Proof. intros Hb H. now apply N.Div0.div_lt_upper_bound. Qed.

Lemma mod64 (a : N) : (128 <= 128 + a mod 64 < 192)%N.
Proof. pose proof (N.mod_lt a 64 ltac:(discriminate)). nlia. Qed.

Lemma py_len_utf8_char (cp : N) :
  (cp < 1114112)%N -> py_len (string_of_list_ascii (utf8_char cp)) = 1%nat.
Proof.
  intros Hcp. unfold utf8_char.
  destruct (N.ltb_spec cp 128) as [H1|H1]; [| destruct (N.ltb_spec cp 2048) as [H2|H2];
    [| destruct (N.ltb_spec cp 65536) as [H3|H3]]];
    cbn [string_of_list_ascii py_len];
    rewrite ?(continuation_byte _ (mod64 _)).
  - rewrite leading_byte by nlia. reflexivity.
  - pose proof (div_bound cp 64 32 ltac:(discriminate) ltac:(lia)).
    rewrite leading_byte by nlia. reflexivity.
  - pose proof (div_bound cp 4096 16 ltac:(discriminate) ltac:(lia)).
    rewrite leading_byte by nlia. reflexivity.
  - pose proof (div_bound cp 262144 5 ltac:(discriminate) ltac:(lia)).
    rewrite leading_byte by nlia. reflexivity.
Qed.

Lemma py_len_text (cps : list N) :
  Forall (fun cp => (cp < 1114112)%N) cps -> py_len (text cps) = length cps.
Proof.
  unfold text. induction 1 as [|cp cps Hcp _ IH]; [reflexivity |].
  cbn [flat_map length]. now rewrite py_len_app, py_len_utf8_char, IH.
Qed.

Lemma char_in_utf8_char (c : ascii) (cp : N) :
  (N_of_ascii c < 128)%N -> (cp < 1114112)%N ->
  char_in c (string_of_list_ascii (utf8_char cp)) = (N_of_ascii c =? cp)%N.
Proof.
  intros Hc Hcp. unfold utf8_char.
  assert (Hhigh : forall n, (128 <= n < 256)%N -> Ascii.eqb c (ascii_of_N n) = false).
  { intros n Hn. rewrite ascii_eqb_byte by lia. apply N.eqb_neq. lia. }
  destruct (N.ltb_spec cp 128) as [H1|H1]; [| destruct (N.ltb_spec cp 2048) as [H2|H2];
    [| destruct (N.ltb_spec cp 65536) as [H3|H3]]];
    cbn [string_of_list_ascii char_in].
  - rewrite ascii_eqb_byte by lia. apply orb_false_r.
  - pose proof (div_bound cp 64 32 ltac:(discriminate) ltac:(lia)).
    pose proof (mod64 cp).
    rewrite !Hhigh by nlia. symmetry. apply N.eqb_neq. lia.
  - pose proof (div_bound cp 4096 16 ltac:(discriminate) ltac:(lia)).
    pose proof (mod64 cp). pose proof (mod64 (cp / 64)).
    rewrite !Hhigh by nlia. symmetry. apply N.eqb_neq. lia.
  - pose proof (div_bound cp 262144 5 ltac:(discriminate) ltac:(lia)).
    pose proof (mod64 cp). pose proof (mod64 (cp / 64)). pose proof (mod64 (cp / 4096)).
    rewrite !Hhigh by nlia. symmetry. apply N.eqb_neq. lia.
Qed.

Lemma char_in_text (c : ascii) (cps : list N) :
  (N_of_ascii c < 128)%N ->
  Forall (fun cp => (cp < 1114112)%N) cps ->
  char_in c (text cps) = true <-> N_of_ascii c ∈ cps.
Proof.
  intros Hc. unfold text. induction 1 as [|cp cps Hcp _ IH].
  - cbn. split; [discriminate | intros H; inversion H].
  - cbn [flat_map]. rewrite char_in_app, orb_true_iff, IH, elem_of_cons.
    rewrite char_in_utf8_char by assumption. now rewrite N.eqb_eq.
Qed.

(** X5. [validate_vm_name] on the text of any code points: it accepts the
    name exactly when it has between 1 and 80 characters - code points,
    as [len] counts them, and not bytes - and none of them is one of the
    nine characters of [invalid_chars]. *)
Theorem validate_vm_name_spec (cps : list N) :
  Forall (fun cp => (cp < 1114112)%N) cps ->
  validate_vm_name (text cps) = true <->
  (1 <= length cps <= 80)%nat /\
  forall cp, cp ∈ cps -> cp ∉ invalid_code_points.
Proof.
  intros Hcps. unfold validate_vm_name. rewrite (py_len_text cps Hcps).
  assert (Hbad : existsb (fun c => char_in c (text cps)) invalid_chars = true
                 <-> exists cp, cp ∈ cps /\ cp ∈ invalid_code_points).
  { rewrite existsb_exists. split.
    - intros (c & Hc & Hin).
      assert (Hlow : (N_of_ascii c < 128)%N /\ N_of_ascii c ∈ invalid_code_points).
      { cbn in Hc. unfold invalid_code_points.
        repeat (destruct Hc as [<- | Hc];
                [split; [reflexivity | cbn; set_solver] |]).
        contradiction. }
      exists (N_of_ascii c). split; [| apply Hlow].
      now apply (char_in_text c cps (proj1 Hlow) Hcps).
    - intros (cp & Hin & Hbad). exists (ascii_of_N cp).
      assert (Hlow : (cp < 128)%N /\ In (ascii_of_N cp) invalid_chars).
      { unfold invalid_code_points in Hbad. rewrite !elem_of_cons in Hbad.
        repeat (destruct Hbad as [-> | Hbad];
                [split; [reflexivity | cbn; tauto] |]).
        now apply elem_of_nil in Hbad. }
      split; [apply Hlow |].
      apply char_in_text; rewrite ?byte_of_N by lia; try assumption; lia. }
  destruct (String.eqb_spec (text cps) EmptyString) as [Hempty | Hne]; cbn [orb].
  - assert (length cps = 0%nat) as ->.
    { rewrite <- (py_len_text cps Hcps), Hempty. reflexivity. }
    split; [discriminate | lia].
  - destruct (Nat.ltb_spec (length cps) 1) as [H1|H1]; cbn [orb].
    + split; [discriminate | lia].
    + destruct (Nat.ltb_spec 80 (length cps)) as [H80|H80].
      * split; [discriminate | lia].
      * rewrite negb_true_iff. split.
        -- intros Hex. split; [lia |]. intros cp Hin Hinv.
           assert (existsb (fun c => char_in c (text cps)) invalid_chars = true);
             [| congruence].
           apply Hbad. now exists cp.
        -- intros [_ Hall].
           destruct (existsb (fun c => char_in c (text cps)) invalid_chars) eqn:Hex;
             [| reflexivity].
           destruct (proj1 Hbad eq_refl) as (cp & Hin & Hinv).
           now apply Hall in Hin.
Qed.

Lemma get_vm_by_name_spec_witness :
  let a := Sample.vm1 poweredOff (Sample.task_ending 0 success EmptyString) in
  let b := Sample.vm1 poweredOn (Sample.task_ending 0 success EmptyString) in
  fst (get_vm_by_name (mkContent [a; b]) "vm1" (Sample.env_of []) Sample.w0)
  = Ok (Some a) /\ vm_name_of a = "vm1".
Proof.
  intros a b. split; [reflexivity |].
  destruct (get_vm_by_name_spec (mkContent [a; b]) "vm1" (Sample.env_of []) Sample.w0)
    as (_ & _ & Hfound & _).
  exact (proj1 (Hfound a eq_refl)).
Defined.

Lemma validate_vm_name_spec_witness :
  validate_vm_name (text (repeat 233%N 41)) = true.
Proof.
  apply (proj2 (validate_vm_name_spec (repeat 233%N 41)
                  ltac:(repeat constructor))).
  split; [cbn; lia |].
  intros cp Hin. apply list_elem_of_In, repeat_spec in Hin. subst cp.
  unfold invalid_code_points. rewrite !not_elem_of_cons.
  repeat split; try discriminate. apply not_elem_of_nil.
Defined.

(** ** The timeout decorator *)

(** X6. [timeout_handler] with an effective timeout [T] (its argument, or
    the configured default when the argument is absent or zero).  When
    [T] is not positive the coroutine is never started and the decorator
    raises its timeout failure at once.  When [T] is positive and the
    coroutine sleeps up to or past [T], the decorator raises the same
    failure exactly [T] seconds after the start and what follows the
    sleep is never run. *)
Theorem timeout_handler_expiry {A : Type} (ts : option Z) (name : string)
    (env : Env) (w : World) :
  let T := int_or ts (operation_timeout (settings env)) in
  let timed_out :=
    mkExn TimeoutError
      ("Operation " +:+ name +:+ " timed out after " +:+ pretty T +:+ "s") in
  (T <= 0 ->
   forall func : M A, timeout_handler ts name func env w = (Raise timed_out, w)) /\
  (0 < T -> deadline env = None ->
   forall (d : Z) (rest : M A),
     T <= Z.max 0 d ->
     timeout_handler ts name (sleep d ;;; rest) env w
     = (Raise timed_out,
        {| clock := clock w + T; trace := trace w ++ [EvSleep d] |})).
Proof.
  intros T timed_out. split.
  - intros Hle func. unfold timeout_handler, wait_for. mrun. fold T.
    destruct (T <=? 0) eqn:H; [| apply Z.leb_gt in H; lia].
    reflexivity.
  - intros Hpos Hdl d rest Hd. unfold timeout_handler, wait_for. mrun. fold T.
    destruct (T <=? 0) eqn:H; [apply Z.leb_le in H; lia |].
    rewrite Hdl.
    rewrite (sleep_cancelled d _ w (clock w + T)) by (try reflexivity; lia).
    cbn [is_CancelledError exn_cls andb clock].
    rewrite Z.leb_refl. reflexivity.
Qed.

Lemma timeout_handler_expiry_witness :
  timeout_handler (Some 10) "probe" (sleep 30 ;;; ret 1) (Sample.env_of []) Sample.w0
  = (Raise (mkExn TimeoutError "Operation probe timed out after 10s"),
     {| clock := 1010; trace := [EvSleep 30] |}).
Proof.
  apply (proj2 (timeout_handler_expiry (A := Z) (Some 10) "probe"
                  (Sample.env_of []) Sample.w0)
           eq_refl eq_refl 30 (ret 1)).
  simpl. lia.
Defined.

(** ** The poller, for every task *)

Lemma poll_loop_bounded (fuel : nat) : forall (task : Task) (timeout start : Z)
    (env : Env) (w : World) (r : outcome unit) (w' : World),
  deadline env = None ->
  poll_loop fuel task timeout start env w = Some (r, w') ->
  exists k : nat,
    w' = after_polls w k /\
    Z.of_nat k <= Z.max 0 (timeout + 1 - (clock w - start)).
Proof.
  induction fuel as [|fuel IH]; intros task timeout start env w r w' Hdl Hrun;
    [discriminate |].
  cbn [poll_loop] in Hrun.
  destruct (is_pending _).
  - destruct (timeout <? clock w - start) eqn:Hlate.
    + inversion Hrun; subst. exists 0%nat. rewrite after_polls_0. split; [reflexivity | lia].
    + apply Z.ltb_ge in Hlate. rewrite (sleep_no_deadline 1 env w Hdl) in Hrun.
      apply IH in Hrun as (k & -> & Hk); [| assumption].
      exists (S k). cbn [clock] in Hk.
      replace (clock w + Z.max 0 1) with (clock w + 1) in * by lia.
      rewrite after_polls_S. split; [reflexivity | lia].
  - inversion Hrun; subst. exists 0%nat. rewrite after_polls_0. split; [reflexivity | lia].
Qed.

(** X7. Whatever the task does, the poller run alone (deadline [d]) only
    sleeps: it ends after some number [k] of one-second sleeps, at most
    [d + 1] of them, having made no call on the client. *)
Theorem poller_bounded (task : Task) (timeout : option Z) (env : Env) (w : World) :
  deadline env = None ->
  let d := int_or timeout (operation_timeout (settings env)) in
  exists k : nat,
    snd (wait_for_task_async task timeout env w) = after_polls w k /\
    Z.of_nat k <= Z.max 0 (d + 1) /\
    client_calls (trace (after_polls w k)) = client_calls (trace w).
Proof.
  intros Hdl d. unfold wait_for_task_async. fold d.
  destruct (poll_loop_total task d env w) as [[r w'] Hrun]. rewrite Hrun.
  destruct (poll_loop_bounded _ _ _ _ _ _ _ _ Hdl Hrun) as (k & -> & Hk).
  exists k. split; [| split].
  - destruct r as [[]|e]; [| reflexivity].
    destruct (info_state _); reflexivity.
  - lia.
  - unfold after_polls. cbn [trace]. rewrite client_calls_app.
    replace (client_calls (repeat (EvSleep 1) k)) with (@nil ClientCall);
      [apply app_nil_r |].
    clear. induction k as [|k IH]; [reflexivity | exact IH].
Qed.

Lemma poller_bounded_witness :
  exists k : nat,
    snd (wait_for_task_async (Sample.task_ending 1002 error "boom") (Some 4)
           (Sample.env_of []) Sample.w0) = after_polls Sample.w0 k /\
    Z.of_nat k <= 5.
Proof.
  destruct (poller_bounded (Sample.task_ending 1002 error "boom") (Some 4)
              (Sample.env_of []) Sample.w0 eq_refl) as (k & H1 & H2 & _).
  exists k. split; [exact H1 | exact H2].
Defined.

(** ** The retry and audit decorators at their edges *)

(** X8. [async_retry] with a negative [max_retries] never calls the
    function: the loop runs over an empty range and [raise
    last_exception] raises a [TypeError], [last_exception] being
    [None]. *)
Theorem async_retry_negative_max_retries {A : Type} (max_retries delay backoff : Z)
    (name : string) (func : nat -> M A) (env : Env) (w : World) :
  max_retries < 0 ->
  async_retry max_retries delay backoff name func env w
  = (Raise (mkExn TypeError "exceptions must derive from BaseException"), w).
Proof.
  intros Hneg. unfold async_retry, range.
  replace (Z.to_nat (max_retries + 1)) with 0%nat by lia. reflexivity.
Qed.

Lemma async_retry_negative_max_retries_witness :
  async_retry (-1) 1 2 "flaky" Sample.flaky (Sample.env_of []) Sample.w0
  = (Raise (mkExn TypeError "exceptions must derive from BaseException"), Sample.w0).
Proof.
  apply (async_retry_negative_max_retries (-1) 1 2 "flaky" Sample.flaky
           (Sample.env_of []) Sample.w0).
  lia.
Defined.

(** X9. A failure that does not derive from [Exception], such as the
    cancellation of the coroutine, is neither retried nor audited: the
    retry decorator passes it on after the first call without warning or
    sleep, and the audit decorator passes it on without a call on the
    audit logger. *)
Theorem cancellation_passes_decorators {A : Type} (func : M A) (env : Env)
    (w w' : World) (e : exn) :
  func env w = (Raise e, w') ->
  is_Exception e = false ->
  (forall max_retries delay backoff name,
     0 <= max_retries ->
     async_retry max_retries delay backoff name (fun _ => func) env w
     = (Raise e, w')) /\
  (forall operation rt, audit_log operation rt func env w = (Raise e, w')).
Proof.
  intros Hf He. split.
  - intros max_retries delay backoff name Hmax. unfold async_retry, range.
    replace (Z.to_nat (max_retries + 1)) with (S (Z.to_nat max_retries)) by lia.
    cbn [seq retry_loop]. unfold try_except. now rewrite Hf, He.
  - intros operation rt. unfold audit_log. mrun. now rewrite Hf, He.
Qed.

Lemma cancellation_passes_decorators_witness :
  audit_log "probe" None (sleep 5)
    (with_deadline (Sample.env_of []) (Some 1002)) Sample.w0
  = (Raise (mkExn CancelledError EmptyString),
     {| clock := 1002; trace := [EvSleep 5] |}).
Proof.
  apply (proj2 (cancellation_passes_decorators (sleep 5)
                  (with_deadline (Sample.env_of []) (Some 1002)) Sample.w0
                  {| clock := 1002; trace := [EvSleep 5] |}
                  (mkExn CancelledError EmptyString) eq_refl eq_refl)).
Defined.

(** ** Three failing attempts *)

Lemma retry_loop_again_before_deadline {A} (max_retries backoff : Z)
    (name : string) (func : nat -> M A) (env : Env) (a : nat)
    (rest : list nat) (cd : Z) (last : option exn) (w w1 : World) (e : exn) :
  func a env w = (Raise e, w1) ->
  is_Exception e = true ->
  Z.of_nat a <> max_retries ->
  wakes_before_deadline env (clock w1 + Z.max 0 cd) ->
  retry_loop max_retries backoff name func (a :: rest) cd last env w
  = retry_loop max_retries backoff name func rest (cd * backoff) (Some e)
      env (after_pause name w1 a e cd).
Proof.
  intros H He Ha Hwake. cbn [retry_loop]. unfold try_except. rewrite H, He.
  apply Z.eqb_neq in Ha. rewrite Ha.
  unfold bind, emit.
  rewrite (sleep_before_deadline cd env
             {| clock := clock w1;
                trace := trace w1 ++ [EvRetryWarning (Z.of_nat a + 1) name
                                        (str_exn e) cd] |}) by exact Hwake.
  reflexivity.
Qed.

(** The decorator [async_retry(max_retries=2)] over a function whose three
    calls fail. *)
Lemma async_retry_thrice {A} (name : string) (func : nat -> M A) (env : Env)
    (w w0 w1 w2 : World) (e0 e1 e2 : exn) :
  func 0%nat env w = (Raise e0, w0) ->
  is_Exception e0 = true ->
  wakes_before_deadline env (clock w0 + 1) ->
  func 1%nat env (after_pause name w0 0 e0 1) = (Raise e1, w1) ->
  is_Exception e1 = true ->
  wakes_before_deadline env (clock w1 + 2) ->
  func 2%nat env (after_pause name w1 1 e1 2) = (Raise e2, w2) ->
  is_Exception e2 = true ->
  async_retry 2 1 2 name func env w = (Raise e2, w2).
Proof.
  intros H0 He0 Hw0 H1 He1 Hw1 H2 He2. unfold async_retry, range.
  change (seq 0 (Z.to_nat (2 + 1))) with [0; 1; 2]%nat.
  rewrite (retry_loop_again_before_deadline 2 2 name func env _ _ _ _ _ _ _ H0 He0)
    by (try discriminate; exact Hw0).
  change (1 * 2) with 2.
  rewrite (retry_loop_again_before_deadline 2 2 name func env _ _ _ _ _ _ _ H1 He1)
    by (try discriminate; exact Hw1).
  now apply (retry_loop_break 2 2 name func env _ _ _ _ _ _ _ H2 He2).
Qed.

Lemma client_calls_after_pause (name : string) (w : World) (a : nat)
    (e : exn) (cd : Z) :
  client_calls (trace (after_pause name w a e cd)) = client_calls (trace w).
Proof.
  unfold after_pause. cbn [trace]. rewrite !client_calls_app. cbn.
  now rewrite !app_nil_r.
Qed.

Lemma client_calls_after_lookup (w : World) :
  client_calls (trace (after_lookup w))
  = client_calls (trace w)
    ++ [CallRetrieveContent; CallCreateContainerView "VirtualMachine";
        CallDestroyView].
Proof. unfold after_lookup. cbn [trace]. now rewrite client_calls_app. Qed.

Lemma actions_after_pause (name : string) (w : World) (a : nat)
    (e : exn) (cd : Z) :
  actions (trace (after_pause name w a e cd)) = actions (trace w).
Proof. unfold actions. now rewrite client_calls_after_pause. Qed.

(** ** Operations without a connection *)

(** X10. Without an active connection ([auth_manager.si] is [None]), an
    operation called by an authorized role with a valid name fails with
    the operation error of its module, whose message ends in ["No active
    VMware connection"], and makes no call on the client; [start_vm]
    does so only after its three attempts. *)
Theorem operations_without_connection (env : Env) (w : World)
    (vm_name snapshot_name user_role : string) (remove_children : bool)
    (format_vm_info : VirtualMachine -> value) :
  service_instance env = None ->
  logger_returns env ->
  0 < operation_timeout (settings env) ->
  let allowed cap := RBACManager.check_permission (settings env) user_role cap in
  (allowed "vm:list" = true ->
   let r := VMOperations.list_vms format_vm_info user_role env w in
   fst r = Raise (no_connection VMOperationError "Failed to list VMs: ") /\
   client_calls (trace (snd r)) = client_calls (trace w)) /\
  (validate_vm_name vm_name = true ->
   (allowed "vm:delete" = true ->
    let r := VMOperations.delete_vm vm_name user_role env w in
    fst r = Raise (no_connection VMOperationError "Failed to delete VM: ") /\
    client_calls (trace (snd r)) = client_calls (trace w)) /\
   (allowed "resource:allocate" = true ->
    let r := ResourceOperations.modify_vm_resources vm_name None None user_role env w in
    fst r = Raise (no_connection ResourceOperationError
                     "Failed to modify VM resources: ") /\
    client_calls (trace (snd r)) = client_calls (trace w)) /\
   (allowed "snapshot:delete" = true ->
    let r := SnapshotOperations.delete_snapshot vm_name snapshot_name
               remove_children user_role env w in
    fst r = Raise (no_connection SnapshotOperationError
                     "Failed to delete snapshot: ") /\
    client_calls (trace (snd r)) = client_calls (trace w)) /\
   (allowed "vm:start" = true -> deadline env = None ->
    let r := VMOperations.start_vm vm_name user_role env w in
    fst r = Raise (no_connection VMOperationError "Failed to start VM: ") /\
    client_calls (trace (snd r)) = client_calls (trace w) /\
    clock (snd r) = clock w + 3)).
Proof.
  intros Hsi Hlog Hpos allowed. subst allowed. cbv beta.
  assert (Hsettings : forall w' t, settings (under_deadline env w' t) = settings env)
    by reflexivity.
  assert (Hsi' : forall w' t, service_instance (under_deadline env w' t) = None)
    by (intros; exact Hsi).
  split; [| intros Hvalid; split; [| split; [| split]]].
  - intros Hperm r. subst r. unfold VMOperations.list_vms.
    erewrite audited_raise; try assumption; try reflexivity.
    + cbn [fst snd]. split; [reflexivity | apply client_calls_logged_audit].
    + unfold VMOperations.list_vms_func, VMOperations.list_vms_try. mrun.
      rewrite Hsettings, Hperm. cbn [negb]. mrun. rewrite Hsi'. reflexivity.
    + reflexivity.
    + reflexivity.
  - intros Hperm r. subst r. unfold VMOperations.delete_vm.
    erewrite audited_raise; try assumption; try reflexivity.
    + cbn [fst snd]. split; [reflexivity | apply client_calls_logged_audit].
    + unfold VMOperations.delete_vm_func, VMOperations.delete_vm_try. mrun.
      rewrite Hsettings, Hperm, Hvalid. cbn [negb]. mrun.
      rewrite Hsi'. reflexivity.
    + reflexivity.
    + reflexivity.
  - intros Hperm r. subst r. unfold ResourceOperations.modify_vm_resources.
    erewrite audited_raise; try assumption; try reflexivity.
    + cbn [fst snd]. split; [reflexivity | apply client_calls_logged_audit].
    + unfold ResourceOperations.modify_vm_resources_func,
        ResourceOperations.modify_vm_resources_try. mrun.
      rewrite Hsettings, Hperm, Hvalid.
      cbn [negb ResourceOperations.out_of_range]. mrun.
      rewrite Hsi'. reflexivity.
    + reflexivity.
    + reflexivity.
  - intros Hperm r. subst r. unfold SnapshotOperations.delete_snapshot.
    erewrite audited_raise; try assumption; try reflexivity.
    + cbn [fst snd]. split; [reflexivity | apply client_calls_logged_audit].
    + unfold SnapshotOperations.delete_snapshot_func,
        SnapshotOperations.delete_snapshot_try. mrun.
      rewrite Hsettings, Hperm, Hvalid. cbn [negb]. mrun.
      rewrite Hsi'. reflexivity.
    + reflexivity.
    + reflexivity.
  - intros Hperm Hdl r. subst r. unfold VMOperations.start_vm.
    set (e := no_connection VMOperationError "Failed to start VM: ").
    assert (Hattempt : forall (i : nat) w',
              timeout_handler None "start_vm"
                (VMOperations.start_vm_func vm_name user_role) env w'
              = (Raise e, w')).
    { intros i w'. apply timeout_handler_raise; try assumption; try reflexivity.
      unfold VMOperations.start_vm_func, VMOperations.start_vm_try. mrun.
      rewrite Hsettings, Hperm, Hvalid. cbn [negb]. mrun.
      rewrite Hsi'. reflexivity. }
    assert (Hrun : exists w2,
              async_retry 2 1 2 "start_vm"
                (fun _ : nat => timeout_handler None "start_vm"
                                  (VMOperations.start_vm_func vm_name user_role))
                env w = (Raise e, w2) /\
              client_calls (trace w2) = client_calls (trace w) /\
              clock w2 = clock w + 3).
    { eexists. split.
      - eapply async_retry_thrice.
        + apply (Hattempt 0%nat).
        + reflexivity.
        + now apply no_deadline_wakes.
        + apply (Hattempt 1%nat).
        + reflexivity.
        + now apply no_deadline_wakes.
        + apply (Hattempt 2%nat).
        + reflexivity.
      - rewrite !client_calls_after_pause. split; [reflexivity |]. cbn. lia. }
    destruct Hrun as (w2 & Hrun & Hcalls & Hclock).
    rewrite (audit_log_raise _ _ _ _ _ _ _ Hrun eq_refl (Hlog _ _)).
    cbn [fst snd]. split; [reflexivity |].
    rewrite client_calls_logged_audit. split; assumption.
Qed.

Lemma operations_without_connection_witness :
  let env := {| settings := default_settings; service_instance := None;
                audit_logger := Sample.quiet_logger; deadline := None |} in
  fst (VMOperations.delete_vm "vm1" "admin" env Sample.w0)
  = Raise (mkExn VMOperationError
             "Failed to delete VM: No active VMware connection") /\
  fst (VMOperations.start_vm "vm1" "admin" env Sample.w0)
  = Raise (mkExn VMOperationError
             "Failed to start VM: No active VMware connection").
Proof.
  intros env.
  destruct (operations_without_connection env Sample.w0 "vm1" "base" "admin" false
              (fun _ => VNone) eq_refl (fun _ _ => eq_refl) eq_refl)
    as (_ & Hops).
  destruct (Hops eq_refl) as (Hdelete & _ & _ & Hstart).
  split.
  - exact (proj1 (Hdelete eq_refl)).
  - exact (proj1 (Hstart eq_refl eq_refl)).
Defined.

(** ** Listing *)

(** X11. [list_vms] by a role that has ["vm:list"], with an active
    connection (positive operation timeout, audit logger returning),
    returns the formatted VMs of the inventory in the order of the view,
    one entry per VM, after three calls on the client and without
    submitting an action; it takes no time. *)
Theorem list_vms_lists_inventory (env : Env) (w : World) (user_role : string)
    (format_vm_info : VirtualMachine -> value) (si : ServiceInstance) :
  RBACManager.check_permission (settings env) user_role "vm:list" = true ->
  logger_returns env ->
  0 < operation_timeout (settings env) ->
  service_instance env = Some si ->
  let r := VMOperations.list_vms format_vm_info user_role env w in
  fst r = Ok (VList (map format_vm_info (vm_view (RetrieveContent si)))) /\
  client_calls (trace (snd r))
    = client_calls (trace w)
      ++ [CallRetrieveContent; CallCreateContainerView "VirtualMachine";
          CallDestroyView] /\
  clock (snd r) = clock w.
Proof.
  intros Hperm Hlog Hpos Hsi r. subst r. unfold VMOperations.list_vms.
  erewrite audited_ok; try assumption.
  2:{ unfold VMOperations.list_vms_func, VMOperations.list_vms_try. mrun_io.
      change (settings (under_deadline env w _)) with (settings env).
      rewrite Hperm. cbn [negb]. mrun_io.
      change (service_instance (under_deadline env w _)) with (service_instance env).
      rewrite Hsi. cbn [clock trace]. rewrite after_lookup_eq. reflexivity. }
  cbn [fst snd]. split; [reflexivity |].
  rewrite client_calls_logged_audit, client_calls_after_lookup.
  split; reflexivity.
Qed.

Lemma list_vms_lists_inventory_witness :
  let a := Sample.vm1 poweredOff (Sample.task_ending 0 success EmptyString) in
  fst (VMOperations.list_vms (fun vm => VStr (vm_name_of vm)) "viewer"
         (Sample.env_of [a; a]) Sample.w0)
  = Ok (VList [VStr "vm1"; VStr "vm1"]).
Proof.
  intros a.
  exact (proj1 (list_vms_lists_inventory (Sample.env_of [a; a]) Sample.w0 "viewer"
                  (fun vm => VStr (vm_name_of vm)) (mkSI (mkContent [a; a]))
                  eq_refl (fun _ _ => eq_refl) eq_refl eq_refl)).
Defined.

(** ** Start: failures are retried *)

Section StartAttempts.

Variables (env : Env) (vm_name user_role : string) (si : ServiceInstance).
Hypothesis Hperm :
  RBACManager.check_permission (settings env) user_role "vm:start" = true.
Hypothesis Hvalid : validate_vm_name vm_name = true.
Hypothesis Hpos : 0 < operation_timeout (settings env).
Hypothesis Hsi : service_instance env = Some si.

Lemma start_vm_func_enters (env' : Env) (w : World) :
  settings env' = settings env ->
  VMOperations.start_vm_func vm_name user_role env' w
  = try_except (VMOperations.start_vm_try vm_name)
      (fun e => raise VMOperationError ("Failed to start VM: " +:+ str_exn e))
      env' w.
Proof.
  intros Hst. unfold VMOperations.start_vm_func. mrun.
  now rewrite Hst, Hperm, Hvalid.
Qed.

Lemma start_attempt_not_found (w : World) :
  lookup_vm si vm_name = None ->
  start_attempt vm_name user_role env w
  = (Raise (mkExn VMOperationError
              ("Failed to start VM: VM '" +:+ vm_name +:+ "' not found")),
     after_lookup w).
Proof.
  intros Hvm. unfold lookup_vm in Hvm. unfold start_attempt.
  apply timeout_handler_raise; try assumption; try reflexivity.
  rewrite start_vm_func_enters by reflexivity.
  unfold VMOperations.start_vm_try. mrun_io.
  change (service_instance (under_deadline env w _)) with (service_instance env).
  rewrite Hsi. cbn [clock trace]. rewrite Hvm. now rewrite after_lookup_eq.
Qed.

Lemma start_attempt_task_failed (w : World) (vm : VirtualMachine) :
  lookup_vm si vm_name = Some vm ->
  powerState vm <> poweredOn ->
  info_state (info (PowerOnVM_Task vm) (clock w)) = error ->
  start_attempt vm_name user_role env w
  = (Raise (mkExn VMOperationError
              ("Failed to start VM: Task failed: "
               +:+ info_error_msg (info (PowerOnVM_Task vm) (clock w)))),
     logged (after_lookup w) (EvClient (CallPowerOnVM (vm_name_of vm)))).
Proof.
  intros Hvm Hoff Herr. unfold lookup_vm in Hvm. unfold start_attempt.
  apply timeout_handler_raise; try assumption; try reflexivity.
  rewrite start_vm_func_enters by reflexivity.
  unfold VMOperations.start_vm_try. mrun_io.
  change (service_instance (under_deadline env w _)) with (service_instance env).
  rewrite Hsi. cbn [clock trace]. rewrite Hvm.
  destruct (is_poweredOn (powerState vm)) eqn:Hp;
    [destruct (powerState vm); try discriminate; now contradiction Hoff |].
  rewrite (wait_for_task_async_terminal _ _ _ _ 0); cbn [clock Z.of_nat int_or].
  - unfold poller_outcome. rewrite Z.add_0_r, Herr, after_polls_0.
    unfold logged, after_lookup, lookup_events. cbn [clock trace].
    now rewrite <- !app_assoc.
  - intros H. inversion H.
  - change (settings (under_deadline env w _)) with (settings env). lia.
  - intros i Hi. inversion Hi.
  - now rewrite Z.add_0_r, Herr.
Qed.

End StartAttempts.

Lemma audit_after_three_attempts {A} (operation : string) (rt : option string)
    (func : nat -> M A) (env : Env) (w w2 : World) (e : exn) :
  logger_returns env ->
  async_retry 2 1 2 operation func env w = (Raise e, w2) ->
  is_Exception e = true ->
  let r := audit_log operation rt (async_retry 2 1 2 operation func) env w in
  fst r = Raise e /\
  client_calls (trace (snd r)) = client_calls (trace w2) /\
  clock (snd r) = clock w2.
Proof.
  intros Hlog Hrun He r. subst r.
  rewrite (audit_log_raise _ _ _ _ _ _ _ Hrun He (Hlog _ _)).
  cbn [fst snd]. rewrite client_calls_logged_audit. repeat split.
Qed.

(** X12. [start_vm] by an authorized role for a valid name that no VM of
    the inventory has (no enclosing deadline): the "not found" failure of
    the body is retried like any other, so the inventory is searched
    three times (nine client calls, no action) and the failure reaches
    the caller three seconds after the call. *)
Theorem start_vm_not_found_is_retried (env : Env) (w : World)
    (vm_name user_role : string) (si : ServiceInstance) :
  RBACManager.check_permission (settings env) user_role "vm:start" = true ->
  validate_vm_name vm_name = true ->
  logger_returns env ->
  0 < operation_timeout (settings env) ->
  deadline env = None ->
  service_instance env = Some si ->
  lookup_vm si vm_name = None ->
  let r := VMOperations.start_vm vm_name user_role env w in
  let lookup := [CallRetrieveContent; CallCreateContainerView "VirtualMachine";
                 CallDestroyView] in
  fst r = Raise (mkExn VMOperationError
                   ("Failed to start VM: VM '" +:+ vm_name +:+ "' not found")) /\
  client_calls (trace (snd r))
    = client_calls (trace w) ++ lookup ++ lookup ++ lookup /\
  clock (snd r) = clock w + 3.
Proof.
  intros Hperm Hvalid Hlog Hpos Hdl Hsi Hvm r lookup. subst r.
  unfold VMOperations.start_vm.
  pose proof (start_attempt_not_found env vm_name user_role si
                Hperm Hvalid Hpos Hsi) as Hattempt.
  unfold start_attempt in Hattempt.
  edestruct (audit_after_three_attempts "start_vm" (Some "vm")
               (fun _ : nat => timeout_handler None "start_vm"
                                 (VMOperations.start_vm_func vm_name user_role))
               env w) as (H1 & H2 & H3); [exact Hlog | | | ].
  - eapply async_retry_thrice.
    + now apply Hattempt.
    + reflexivity.
    + now apply no_deadline_wakes.
    + now apply Hattempt.
    + reflexivity.
    + now apply no_deadline_wakes.
    + now apply Hattempt.
    + reflexivity.
  - reflexivity.
  - split; [exact H1 |]. split.
    + rewrite H2.
      repeat (rewrite client_calls_after_lookup || rewrite client_calls_after_pause).
      subst lookup. now rewrite <- !app_assoc.
    + rewrite H3. cbn. lia.
Qed.

Lemma start_vm_not_found_is_retried_witness :
  fst (VMOperations.start_vm "ghost" "operator" (Sample.env_of []) Sample.w0)
  = Raise (mkExn VMOperationError "Failed to start VM: VM 'ghost' not found") /\
  clock (snd (VMOperations.start_vm "ghost" "operator" (Sample.env_of []) Sample.w0))
  = 1003.
Proof.
  destruct (start_vm_not_found_is_retried (Sample.env_of []) Sample.w0
              "ghost" "operator" (mkSI (mkContent []))
              eq_refl eq_refl (fun _ _ => eq_refl) eq_refl eq_refl eq_refl eq_refl)
    as (H1 & _ & H3).
  split; [exact H1 | exact H3].
Defined.

(** X13. [start_vm] of a VM that is not powered on, when the remote plane
    reports every power-on task as failed at once (no enclosing
    deadline): each of the three attempts submits a power-on action of
    its own, so three actions are submitted, and the caller gets the
    failure of the third, three seconds after the call. *)
Theorem start_vm_resubmits_power_on (env : Env) (w : World)
    (vm_name user_role : string) (si : ServiceInstance) (vm : VirtualMachine) :
  RBACManager.check_permission (settings env) user_role "vm:start" = true ->
  validate_vm_name vm_name = true ->
  logger_returns env ->
  0 < operation_timeout (settings env) ->
  deadline env = None ->
  service_instance env = Some si ->
  lookup_vm si vm_name = Some vm ->
  powerState vm <> poweredOn ->
  (forall t, info_state (info (PowerOnVM_Task vm) t) = error) ->
  let r := VMOperations.start_vm vm_name user_role env w in
  let power_on := CallPowerOnVM (vm_name_of vm) in
  fst r = Raise (mkExn VMOperationError
                   ("Failed to start VM: Task failed: "
                    +:+ info_error_msg (info (PowerOnVM_Task vm) (clock w + 3)))) /\
  actions (trace (snd r)) = actions (trace w) ++ [power_on; power_on; power_on] /\
  clock (snd r) = clock w + 3.
Proof.
  intros Hperm Hvalid Hlog Hpos Hdl Hsi Hvm Hoff Herr r power_on. subst r.
  unfold VMOperations.start_vm.
  pose proof (fun w' => start_attempt_task_failed env vm_name user_role si
                Hperm Hvalid Hpos Hsi w' vm Hvm Hoff (Herr _)) as Hattempt.
  unfold start_attempt in Hattempt.
  assert (Hrun : exists w2 e,
            async_retry 2 1 2 "start_vm"
              (fun _ : nat => timeout_handler None "start_vm"
                                (VMOperations.start_vm_func vm_name user_role))
              env w = (Raise e, w2) /\
            e = mkExn VMOperationError
                  ("Failed to start VM: Task failed: "
                   +:+ info_error_msg (info (PowerOnVM_Task vm) (clock w + 3))) /\
            actions (trace w2) = actions (trace w) ++ [power_on; power_on; power_on] /\
            clock w2 = clock w + 3).
  { eexists. eexists. split.
    - eapply async_retry_thrice.
      + apply Hattempt.
      + reflexivity.
      + now apply no_deadline_wakes.
      + apply Hattempt.
      + reflexivity.
      + now apply no_deadline_wakes.
      + apply Hattempt.
      + reflexivity.
    - cbn [logged after_lookup after_pause clock trace].
      replace (clock w + Z.max 0 1 + Z.max 0 2) with (clock w + 3) by lia.
      split; [reflexivity |]. split; [| reflexivity].
      rewrite !actions_app. cbn.
      rewrite !app_nil_r, <- !app_assoc. reflexivity. }
  destruct Hrun as (w2 & e & Hrun & -> & Hact & Hclock).
  rewrite (audit_log_raise _ _ _ _ _ _ _ Hrun eq_refl (Hlog _ _)).
  cbn [fst snd]. rewrite actions_logged_audit. repeat split; assumption.
Qed.

Lemma start_vm_resubmits_power_on_witness :
  let failed := mkTask (fun _ => mkTaskInfo "task-9" error (mkPayload "none") "no host") in
  let vm := Sample.vm1 poweredOff failed in
  actions (trace (snd (VMOperations.start_vm "vm1" "operator"
                         (Sample.env_of [vm]) Sample.w0)))
  = [CallPowerOnVM "vm1"; CallPowerOnVM "vm1"; CallPowerOnVM "vm1"].
Proof.
  intros failed vm.
  destruct (start_vm_resubmits_power_on (Sample.env_of [vm]) Sample.w0
              "vm1" "operator" (mkSI (mkContent [vm])) vm
              eq_refl eq_refl (fun _ _ => eq_refl) eq_refl eq_refl eq_refl eq_refl)
    as (_ & H2 & _).
  - discriminate.
  - intros t. reflexivity.
  - exact H2.
Defined.

(** ** Tasks that do not finish in time *)

Lemma poll_loop_cancelled (m : nat) : forall (fuel : nat) (task : Task)
    (timeout start : Z) (env : Env) (w : World) (dl : Z),
  deadline env = Some dl ->
  dl = clock w + Z.of_nat m + 1 ->
  (m < fuel)%nat ->
  (forall i : nat, (i <= m)%nat ->
     is_pending (info_state (info task (clock w + Z.of_nat i))) = true) ->
  clock w + Z.of_nat m - start <= timeout ->
  poll_loop fuel task timeout start env w
  = Some (Raise (mkExn CancelledError EmptyString),
          {| clock := dl; trace := trace w ++ repeat (EvSleep 1) (S m) |}).
Proof.
  induction m as [|m IH]; intros fuel task timeout start env w dl Hdl Heq Hfuel Hpend Hin.
  - destruct fuel as [|fuel]; [lia |]. cbn [poll_loop].
    pose proof (Hpend 0%nat ltac:(lia)) as H0. rewrite Z.add_0_r in H0. rewrite H0.
    destruct (timeout <? clock w - start) eqn:Hlate;
      [apply Z.ltb_lt in Hlate; lia |].
    rewrite (sleep_cancelled 1 env w dl Hdl) by lia. reflexivity.
  - destruct fuel as [|fuel]; [lia |]. cbn [poll_loop].
    pose proof (Hpend 0%nat ltac:(lia)) as H0. rewrite Z.add_0_r in H0. rewrite H0.
    destruct (timeout <? clock w - start) eqn:Hlate;
      [apply Z.ltb_lt in Hlate; lia |].
    rewrite (sleep_before_deadline 1 env w)
      by (unfold wakes_before_deadline; rewrite Hdl; lia).
    replace (clock w + Z.max 0 1) with (clock w + 1) by lia.
    rewrite (IH fuel task timeout start env
               {| clock := clock w + 1; trace := trace w ++ [EvSleep 1] |} dl);
      cbn [clock trace]; try assumption; try lia.
    + now rewrite <- app_assoc.
    + intros i Hi. specialize (Hpend (S i) ltac:(lia)).
      now replace (clock w + 1 + Z.of_nat i) with (clock w + Z.of_nat (S i)) by lia.
Qed.

Lemma wait_for_task_async_cancelled (task : Task) (timeout : option Z)
    (env : Env) (w : World) (T : Z) :
  0 < T ->
  deadline env = Some (clock w + T) ->
  T - 1 <= int_or timeout (operation_timeout (settings env)) ->
  (forall i : nat, Z.of_nat i < T ->
     is_pending (info_state (info task (clock w + Z.of_nat i))) = true) ->
  wait_for_task_async task timeout env w
  = (Raise (mkExn CancelledError EmptyString), cancelled_polling w T).
Proof.
  intros Hpos Hdl Hd Hpend. unfold wait_for_task_async.
  rewrite (poll_loop_cancelled (Z.to_nat (T - 1)) _ _ _ _ _ _ (clock w + T));
    try assumption; try (unfold poll_fuel; lia).
  - unfold cancelled_polling.
    now replace (S (Z.to_nat (T - 1))) with (Z.to_nat T) by lia.
  - intros i Hi. apply Hpend. lia.
Qed.

Lemma timeout_handler_cancelled {A} (ts : option Z) (name : string)
    (func : M A) (env : Env) (w w' : World) :
  let T := int_or ts (operation_timeout (settings env)) in
  0 < T ->
  func (under_deadline env w T) w = (Raise (mkExn CancelledError EmptyString), w') ->
  clock w + T <= clock w' ->
  timeout_handler ts name func env w
  = (Raise (mkExn TimeoutError
              ("Operation " +:+ name +:+ " timed out after " +:+ pretty T +:+ "s")),
     w').
Proof.
  intros T Hpos Hf Hclock. unfold timeout_handler, wait_for. mrun. fold T.
  destruct (T <=? 0) eqn:H; [apply Z.leb_le in H; lia |].
  unfold under_deadline in Hf. rewrite Hf.
  cbn [is_CancelledError exn_cls andb].
  destruct (clock w + T <=? clock w') eqn:Hc;
    [| apply Z.leb_gt in Hc; lia].
  reflexivity.
Qed.

Lemma actions_cancelled_polling (w : World) (T : Z) :
  actions (trace (cancelled_polling w T)) = actions (trace w).
Proof.
  unfold cancelled_polling. cbn [trace]. rewrite actions_app.
  replace (actions (repeat (EvSleep 1) (Z.to_nat T))) with (@nil ClientCall);
    [apply app_nil_r |].
  induction (Z.to_nat T) as [|n IH]; [reflexivity | exact IH].
Qed.

Lemma start_attempt_times_out (env : Env) (vm_name user_role : string)
    (si : ServiceInstance) (vm : VirtualMachine) (w : World) :
  RBACManager.check_permission (settings env) user_role "vm:start" = true ->
  validate_vm_name vm_name = true ->
  0 < operation_timeout (settings env) ->
  deadline env = None ->
  service_instance env = Some si ->
  lookup_vm si vm_name = Some vm ->
  powerState vm <> poweredOn ->
  (forall t, is_pending (info_state (info (PowerOnVM_Task vm) t)) = true) ->
  start_attempt vm_name user_role env w
  = (Raise (operation_timed_out "start_vm" (operation_timeout (settings env))),
     cancelled_polling
       (logged (after_lookup w) (EvClient (CallPowerOnVM (vm_name_of vm))))
       (operation_timeout (settings env))).
Proof.
  intros Hperm Hvalid Hpos Hdl Hsi Hvm Hoff Hpend. unfold lookup_vm in Hvm.
  unfold start_attempt.
  apply (timeout_handler_cancelled None "start_vm"); try assumption.
  2:{ cbn [cancelled_polling logged after_lookup clock int_or]. lia. }
  rewrite (start_vm_func_enters env vm_name user_role Hperm Hvalid) by reflexivity.
  unfold VMOperations.start_vm_try. mrun_io.
  change (service_instance (under_deadline env w _)) with (service_instance env).
  rewrite Hsi. cbn [clock trace]. rewrite Hvm.
  destruct (is_poweredOn (powerState vm)) eqn:Hp;
    [destruct (powerState vm); try discriminate; now contradiction Hoff |].
  rewrite (wait_for_task_async_cancelled _ _ _ _ (operation_timeout (settings env)));
    cbn [clock int_or]; try assumption.
  - cbn [is_Exception exn_cls]. unfold cancelled_polling, logged, after_lookup,
      lookup_events. cbn [clock trace]. now rewrite <- !app_assoc.
  - unfold under_deadline, with_deadline. cbn [deadline]. now rewrite Hdl.
  - change (settings (under_deadline env w _)) with (settings env). lia.
  - intros i _. apply Hpend.
Qed.

(** X14. [start_vm] of a VM that is not powered on, when no power-on task
    ever leaves queued/running (no enclosing deadline, operation timeout
    [T]): every attempt is cut off by the timeout decorator after [T]
    seconds and retried, so three power-on actions are submitted and the
    caller gets the timeout failure of the decorator [3 * T + 3] seconds
    after the call; the retries are not bounded by [T]. *)
Theorem start_vm_timeout_is_retried (env : Env) (w : World)
    (vm_name user_role : string) (si : ServiceInstance) (vm : VirtualMachine) :
  RBACManager.check_permission (settings env) user_role "vm:start" = true ->
  validate_vm_name vm_name = true ->
  logger_returns env ->
  0 < operation_timeout (settings env) ->
  deadline env = None ->
  service_instance env = Some si ->
  lookup_vm si vm_name = Some vm ->
  powerState vm <> poweredOn ->
  (forall t, is_pending (info_state (info (PowerOnVM_Task vm) t)) = true) ->
  let T := operation_timeout (settings env) in
  let r := VMOperations.start_vm vm_name user_role env w in
  let power_on := CallPowerOnVM (vm_name_of vm) in
  fst r = Raise (operation_timed_out "start_vm" T) /\
  actions (trace (snd r)) = actions (trace w) ++ [power_on; power_on; power_on] /\
  clock (snd r) = clock w + 3 * T + 3.
Proof.
  intros Hperm Hvalid Hlog Hpos Hdl Hsi Hvm Hoff Hpend T r power_on. subst r.
  unfold VMOperations.start_vm.
  pose proof (fun w' => start_attempt_times_out env vm_name user_role si vm w'
                Hperm Hvalid Hpos Hdl Hsi Hvm Hoff Hpend) as Hattempt.
  unfold start_attempt in Hattempt. fold T in Hattempt.
  assert (Hrun : exists w2,
            async_retry 2 1 2 "start_vm"
              (fun _ : nat => timeout_handler None "start_vm"
                                (VMOperations.start_vm_func vm_name user_role))
              env w = (Raise (operation_timed_out "start_vm" T), w2) /\
            actions (trace w2) = actions (trace w) ++ [power_on; power_on; power_on] /\
            clock w2 = clock w + 3 * T + 3).
  { eexists. split.
    - eapply async_retry_thrice.
      + apply Hattempt.
      + reflexivity.
      + now apply no_deadline_wakes.
      + apply Hattempt.
      + reflexivity.
      + now apply no_deadline_wakes.
      + apply Hattempt.
      + reflexivity.
    - split.
      + repeat (rewrite actions_cancelled_polling
                || rewrite actions_after_pause
                || (unfold logged at 1; cbn [trace]; rewrite actions_app)
                || rewrite actions_after_lookup).
        cbn. now rewrite <- !app_assoc.
      + cbn [cancelled_polling logged after_lookup after_pause clock]. lia. }
  destruct Hrun as (w2 & Hrun & Hact & Hclock).
  rewrite (audit_log_raise _ _ _ _ _ _ _ Hrun eq_refl (Hlog _ _)).
  cbn [fst snd]. rewrite actions_logged_audit. repeat split; assumption.
Qed.

Lemma start_vm_timeout_is_retried_witness :
  let stuck := mkTask (fun _ => mkTaskInfo "task-7" running (mkPayload "none") "none") in
  let vm := Sample.vm1 poweredOff stuck in
  fst (VMOperations.start_vm "vm1" "operator" (Sample.env_of [vm]) Sample.w0)
  = Raise (operation_timed_out "start_vm" 300) /\
  clock (snd (VMOperations.start_vm "vm1" "operator" (Sample.env_of [vm]) Sample.w0))
  = 1000 + 3 * 300 + 3.
Proof.
  intros stuck vm.
  destruct (start_vm_timeout_is_retried (Sample.env_of [vm]) Sample.w0
              "vm1" "operator" (mkSI (mkContent [vm])) vm
              eq_refl eq_refl (fun _ _ => eq_refl) eq_refl eq_refl eq_refl eq_refl
              ltac:(discriminate) (fun _ => eq_refl))
    as (H1 & _ & H3).
  split; [exact H1 | exact H3].
Defined.

(** ** Start, with its retries *)

(** C7 as the code has it.  Start by an authorized role with a valid name
    of a VM in the inventory (positive operation timeout [T], audit
    logger returning).  When the VM is powered on, the result is the
    no-op success ["already_running"] and no action is submitted.
    Otherwise a power-on action is submitted and polled.  When its task
    succeeds after [n < T] polls, the result is ["started"] with the
    task's result, [n] seconds later, and the action is the only one.
    The first action need not be the last: when the power-on tasks fail,
    and when they do not leave queued/running within [T] seconds, the
    retry decorator repeats the attempt, and each of the three attempts
    submits a power-on action of its own before the failure reaches the
    caller. *)
Theorem start_vm_spec (env : Env) (w : World) (vm_name user_role : string)
    (si : ServiceInstance) (vm : VirtualMachine) :
  RBACManager.check_permission (settings env) user_role "vm:start" = true ->
  validate_vm_name vm_name = true ->
  logger_returns env ->
  0 < operation_timeout (settings env) ->
  service_instance env = Some si ->
  lookup_vm si vm_name = Some vm ->
  let T := operation_timeout (settings env) in
  let r := VMOperations.start_vm vm_name user_role env w in
  let power_on := CallPowerOnVM (vm_name_of vm) in
  (powerState vm = poweredOn ->
     fst r = Ok (already_running vm_name) /\
     actions (trace (snd r)) = actions (trace w)) /\
  (powerState vm <> poweredOn ->
   deadline env = None ->
   (forall n : nat,
      Z.of_nat n < T ->
      (forall i : nat, (i < n)%nat ->
         is_pending (info_state (info (PowerOnVM_Task vm) (clock w + Z.of_nat i)))
         = true) ->
      info_state (info (PowerOnVM_Task vm) (clock w + Z.of_nat n)) = success ->
      fst r = Ok (started vm_name
                    (info_result (info (PowerOnVM_Task vm) (clock w + Z.of_nat n)))) /\
      actions (trace (snd r)) = actions (trace w) ++ [power_on] /\
      total_delay (trace (snd r)) = total_delay (trace w) + Z.of_nat n /\
      clock (snd r) = clock w + Z.of_nat n) /\
   ((forall t, info_state (info (PowerOnVM_Task vm) t) = error) ->
      fst r = Raise (mkExn VMOperationError
                       ("Failed to start VM: Task failed: "
                        +:+ info_error_msg (info (PowerOnVM_Task vm) (clock w + 3)))) /\
      actions (trace (snd r))
        = actions (trace w) ++ [power_on; power_on; power_on] /\
      clock (snd r) = clock w + 3) /\
   ((forall t, is_pending (info_state (info (PowerOnVM_Task vm) t)) = true) ->
      fst r = Raise (operation_timed_out "start_vm" T) /\
      actions (trace (snd r))
        = actions (trace w) ++ [power_on; power_on; power_on] /\
      clock (snd r) = clock w + 3 * T + 3)).
Proof.
  intros Hperm Hvalid Hlog Hpos Hsi Hvm T r power_on. subst r.
  unfold VMOperations.start_vm.
  set (timeout := int_or None (operation_timeout (settings env))).
  assert (Hfunc : forall v w',
            VMOperations.start_vm_try vm_name (under_deadline env w timeout) w
              = (Ok v, w') ->
            VMOperations.start_vm_func vm_name user_role
              (under_deadline env w timeout) w = (Ok v, w')).
  { intros v w' Htry. unfold VMOperations.start_vm_func. mrun.
    change (settings (under_deadline env w timeout)) with (settings env).
    rewrite Hperm, Hvalid. cbn [negb]. now rewrite Htry. }
  split.
  - intros Hon.
    erewrite audit_log_ok; [| apply async_retry_first_ok, timeout_handler_ok;
                              [exact Hpos
                              | apply Hfunc, (start_vm_try_running _ _ _ si vm);
                                assumption]
                            | apply Hlog].
    cbn [fst snd]. split; [reflexivity |].
    now rewrite actions_logged_audit, actions_after_lookup.
  - intros Hoff Hdl. split; [| split].
    + intros n Hn Hpend Hdone.
      erewrite audit_log_ok;
        [| apply async_retry_first_ok, timeout_handler_ok;
           [exact Hpos | apply Hfunc, (start_vm_try_started _ _ _ si vm n);
                         try eassumption]
         | apply Hlog].
      * cbn [fst snd]. split; [reflexivity |].
        rewrite actions_logged_audit, actions_after_polls.
        unfold logged at 1. cbn [trace clock].
        rewrite actions_app, actions_after_lookup.
        split; [reflexivity |].
        unfold logged, after_polls, after_lookup. cbn [trace clock].
        rewrite !total_delay_app. cbn [total_delay lookup_events].
        split; [| reflexivity].
        replace (total_delay (repeat (EvSleep 1) n)) with (Z.of_nat n); [lia |].
        clear. induction n as [|n IH]; [reflexivity |].
        cbn [repeat total_delay]. lia.
      * intros _. unfold wakes_before_deadline, under_deadline, with_deadline.
        cbn [deadline]. rewrite Hdl. unfold timeout. cbn [int_or]. fold T. lia.
      * change (settings (under_deadline env w timeout)) with (settings env).
        fold T. lia.
    + intros Herr.
      pose proof (fun w' => start_attempt_task_failed env vm_name user_role si
                    Hperm Hvalid Hpos Hsi w' vm Hvm Hoff (Herr _)) as Hattempt.
      unfold start_attempt in Hattempt.
      assert (Hrun : exists w2 e,
                async_retry 2 1 2 "start_vm"
                  (fun _ : nat => timeout_handler None "start_vm"
                                    (VMOperations.start_vm_func vm_name user_role))
                  env w = (Raise e, w2) /\
                e = mkExn VMOperationError
                      ("Failed to start VM: Task failed: "
                       +:+ info_error_msg (info (PowerOnVM_Task vm) (clock w + 3))) /\
                actions (trace w2)
                  = actions (trace w) ++ [power_on; power_on; power_on] /\
                clock w2 = clock w + 3).
      { eexists. eexists. split.
        - eapply async_retry_thrice.
          + apply Hattempt.
          + reflexivity.
          + now apply no_deadline_wakes.
          + apply Hattempt.
          + reflexivity.
          + now apply no_deadline_wakes.
          + apply Hattempt.
          + reflexivity.
        - cbn [logged after_lookup after_pause clock trace].
          replace (clock w + Z.max 0 1 + Z.max 0 2) with (clock w + 3) by lia.
          split; [reflexivity |]. split; [| reflexivity].
          rewrite !actions_app. cbn.
          rewrite !app_nil_r, <- !app_assoc. reflexivity. }
      destruct Hrun as (w2 & e & Hrun & -> & Hact & Hclock).
      rewrite (audit_log_raise _ _ _ _ _ _ _ Hrun eq_refl (Hlog _ _)).
      cbn [fst snd]. rewrite actions_logged_audit. repeat split; assumption.
    + intros Hpend.
      pose proof (fun w' => start_attempt_times_out env vm_name user_role si vm w'
                    Hperm Hvalid Hpos Hdl Hsi Hvm Hoff Hpend) as Hattempt.
      unfold start_attempt in Hattempt. fold T in Hattempt.
      assert (Hrun : exists w2,
                async_retry 2 1 2 "start_vm"
                  (fun _ : nat => timeout_handler None "start_vm"
                                    (VMOperations.start_vm_func vm_name user_role))
                  env w = (Raise (operation_timed_out "start_vm" T), w2) /\
                actions (trace w2)
                  = actions (trace w) ++ [power_on; power_on; power_on] /\
                clock w2 = clock w + 3 * T + 3).
      { eexists. split.
        - eapply async_retry_thrice.
          + apply Hattempt.
          + reflexivity.
          + now apply no_deadline_wakes.
          + apply Hattempt.
          + reflexivity.
          + now apply no_deadline_wakes.
          + apply Hattempt.
          + reflexivity.
        - split.
          + repeat (rewrite actions_cancelled_polling
                    || rewrite actions_after_pause
                    || (unfold logged at 1; cbn [trace]; rewrite actions_app)
                    || rewrite actions_after_lookup).
            cbn. now rewrite <- !app_assoc.
          + cbn [cancelled_polling logged after_lookup after_pause clock]. lia. }
      destruct Hrun as (w2 & Hrun & Hact & Hclock).
      rewrite (audit_log_raise _ _ _ _ _ _ _ Hrun eq_refl (Hlog _ _)).
      cbn [fst snd]. rewrite actions_logged_audit. repeat split; assumption.
Qed.

Lemma start_vm_spec_witness :
  let on := Sample.vm1 poweredOn (Sample.task_ending 0 success EmptyString) in
  let off := Sample.vm1 poweredOff (Sample.task_ending 1003 success EmptyString) in
  (fst (VMOperations.start_vm "vm1" "operator" (Sample.env_of [on]) Sample.w0)
   = Ok (already_running "vm1") /\
   actions (trace (snd (VMOperations.start_vm "vm1" "operator"
                          (Sample.env_of [on]) Sample.w0))) = []) /\
  (fst (VMOperations.start_vm "vm1" "operator" (Sample.env_of [off]) Sample.w0)
   = Ok (started "vm1" (mkPayload "done")) /\
   actions (trace (snd (VMOperations.start_vm "vm1" "operator"
                          (Sample.env_of [off]) Sample.w0)))
   = [CallPowerOnVM "vm1"]).
Proof.
  intros on off. split.
  - refine (proj1 (start_vm_spec (Sample.env_of [on]) Sample.w0 "vm1" "operator"
                     (mkSI (mkContent [on])) on _ _ _ _ _ _) _);
      try reflexivity.
    intros lvl r. reflexivity.
  - destruct (proj1 (proj2 (start_vm_spec (Sample.env_of [off]) Sample.w0
                              "vm1" "operator" (mkSI (mkContent [off])) off
                              eq_refl eq_refl (fun _ _ => eq_refl) eq_refl
                              eq_refl eq_refl)
                       ltac:(discriminate) eq_refl) 3%nat)
      as (H1 & H2 & _).
    + simpl. lia.
    + intros i Hi. destruct i as [|[|[|i]]]; try reflexivity. lia.
    + reflexivity.
    + split; [exact H1 | exact H2].
Defined.

(** C7, the claim as stated fails: for a VM that is powered off and a
    management plane that reports the power-on task as failed, Start
    does not submit one action and poll it to completion: it submits
    three power-on actions, one per attempt of the retry decorator,
    before it fails. *)
Lemma start_vm_submits_three_power_ons :
  let failed := mkTask (fun _ => mkTaskInfo "task-9" error (mkPayload "none")
                                   "no host") in
  let vm := Sample.vm1 poweredOff failed in
  let r := VMOperations.start_vm "vm1" "operator" (Sample.env_of [vm]) Sample.w0 in
  fst r = Raise (mkExn VMOperationError
                   "Failed to start VM: Task failed: no host") /\
  actions (trace (snd r))
  = [CallPowerOnVM "vm1"; CallPowerOnVM "vm1"; CallPowerOnVM "vm1"] /\
  clock (snd r) = clock Sample.w0 + 3.
Proof. vm_compute. repeat split. Qed.

(** ** Delete *)

Section DeleteVM.

Variables (env : Env) (vm_name user_role : string) (si : ServiceInstance)
          (vm : VirtualMachine).
Hypothesis Hperm :
  RBACManager.check_permission (settings env) user_role "vm:delete" = true.
Hypothesis Hvalid : validate_vm_name vm_name = true.
Hypothesis Hpos : 0 < operation_timeout (settings env).
Hypothesis Hsi : service_instance env = Some si.
Hypothesis Hvm : lookup_vm si vm_name = Some vm.

Lemma delete_vm_func_enters (env' : Env) (w : World) :
  settings env' = settings env ->
  VMOperations.delete_vm_func vm_name user_role env' w
  = try_except (VMOperations.delete_vm_try vm_name)
      (fun e => raise VMOperationError ("Failed to delete VM: " +:+ str_exn e))
      env' w.
Proof.
  intros Hst. unfold VMOperations.delete_vm_func. mrun.
  now rewrite Hst, Hperm, Hvalid.
Qed.

(** The body of [delete_vm] once the VM is found: the optional power-off,
    then the destroy action. *)
Lemma delete_vm_try_found (env' : Env) (w : World) :
  service_instance env' = Some si ->
  VMOperations.delete_vm_try vm_name env' w
  = ((if is_poweredOn (powerState vm)
      then
        power_off_task <-
          client (CallPowerOffVM (vm_name_of vm)) (PowerOffVM_Task vm) ;;
        wait_for_task_async power_off_task None ;;;
        ret tt
      else ret tt) ;;;
     task <- client (CallDestroyVM (vm_name_of vm)) (Destroy_Task vm) ;;
     result <- wait_for_task_async task None ;;
     ret (deleted vm_name result)) env' (after_lookup w).
Proof.
  intros Hsi'. unfold VMOperations.delete_vm_try.
  unfold lookup_vm in Hvm.
  cbv beta iota zeta delta [bind ret get_service_instance ask client emit
                            get_vm_by_name].
  rewrite Hsi'. cbn [clock trace]. rewrite Hvm. rewrite after_lookup_eq.
  reflexivity.
Qed.

End DeleteVM.

Lemma submit_and_poll {B} (call : ClientCall) (task : Task) (timeout : option Z)
    (k : Payload -> M B) (env : Env) (w : World) (n : nat) :
  ((0 < n)%nat -> wakes_before_deadline env (clock w + Z.of_nat n)) ->
  Z.of_nat n <= int_or timeout (operation_timeout (settings env)) + 1 ->
  ends_after task (clock w) n ->
  (t <- client call task ;; result <- wait_for_task_async t timeout ;; k result) env w
  = match poller_outcome (info task (clock w + Z.of_nat n)) with
    | Ok result => k result env (after_polls (logged w (EvClient call)) n)
    | Raise e => (Raise e, after_polls (logged w (EvClient call)) n)
    end.
Proof.
  intros Hwake Hn [Hpend Hend].
  cbv beta iota zeta delta [bind ret client emit].
  fold (logged w (EvClient call)).
  rewrite (wait_for_task_async_terminal task timeout env
             (logged w (EvClient call)) n); try assumption.
  reflexivity.
Qed.

Lemma actions_logged_client (w : World) (c : ClientCall) :
  actions (trace (logged w (EvClient c)))
  = actions (trace w) ++ (if is_action c then [c] else []).
Proof.
  unfold logged. cbn [trace]. rewrite actions_app. f_equal.
  unfold actions. cbn [client_calls]. rewrite filter_cons, filter_nil.
  destruct (decide (is_action c = true)) as [H|H].
  - now rewrite H.
  - apply not_true_is_false in H. now rewrite H.
Qed.

(** X15. [delete_vm] by an authorized role, valid name of a VM of the
    inventory (no enclosing deadline, operation timeout [T]).  For a VM
    that is powered on it submits a power-off action, polls it, and only
    then submits the destroy action; for any other VM it submits the
    destroy action alone.  When the tasks succeed after [n1] and [n2]
    polls, [n1 + n2 < T], the result is ["deleted"] with the result of
    the destroy task, [n1 + n2] seconds after the call. *)
Theorem delete_vm_powers_off_first (env : Env) (w : World)
    (vm_name user_role : string) (si : ServiceInstance) (vm : VirtualMachine)
    (n1 n2 : nat) :
  RBACManager.check_permission (settings env) user_role "vm:delete" = true ->
  validate_vm_name vm_name = true ->
  logger_returns env ->
  deadline env = None ->
  service_instance env = Some si ->
  lookup_vm si vm_name = Some vm ->
  Z.of_nat (n1 + n2) < operation_timeout (settings env) ->
  let r := VMOperations.delete_vm vm_name user_role env w in
  (powerState vm = poweredOn ->
   ends_after (PowerOffVM_Task vm) (clock w) n1 ->
   info_state (info (PowerOffVM_Task vm) (clock w + Z.of_nat n1)) = success ->
   ends_after (Destroy_Task vm) (clock w + Z.of_nat n1) n2 ->
   info_state (info (Destroy_Task vm) (clock w + Z.of_nat n1 + Z.of_nat n2)) = success ->
   fst r = Ok (deleted vm_name
                 (info_result (info (Destroy_Task vm)
                                 (clock w + Z.of_nat n1 + Z.of_nat n2)))) /\
   actions (trace (snd r))
     = actions (trace w)
       ++ [CallPowerOffVM (vm_name_of vm); CallDestroyVM (vm_name_of vm)] /\
   clock (snd r) = clock w + Z.of_nat n1 + Z.of_nat n2) /\
  (powerState vm <> poweredOn ->
   ends_after (Destroy_Task vm) (clock w) n2 ->
   info_state (info (Destroy_Task vm) (clock w + Z.of_nat n2)) = success ->
   fst r = Ok (deleted vm_name
                 (info_result (info (Destroy_Task vm) (clock w + Z.of_nat n2)))) /\
   actions (trace (snd r)) = actions (trace w) ++ [CallDestroyVM (vm_name_of vm)] /\
   clock (snd r) = clock w + Z.of_nat n2).
Proof.
  intros Hperm Hvalid Hlog Hdl Hsi Hvm Hn r. subst r.
  assert (Hpos : 0 < operation_timeout (settings env)) by lia.
  unfold VMOperations.delete_vm.
  set (T := int_or None (operation_timeout (settings env))).
  set (env' := under_deadline env w T).
  assert (Hwake : forall t, t < clock w + operation_timeout (settings env) ->
            wakes_before_deadline env' t).
  { intros t Ht. unfold wakes_before_deadline, env', under_deadline, with_deadline.
    cbn [deadline]. now rewrite Hdl. }
  assert (Hfunc : forall v w',
            VMOperations.delete_vm_try vm_name env' w = (Ok v, w') ->
            audit_log "delete_vm" (Some "vm")
              (timeout_handler None "delete_vm"
                 (VMOperations.delete_vm_func vm_name user_role)) env w
            = (Ok v, logged w' (EvAudit INFO
                 (audit_record "delete_vm" (Some "vm") (clock w) None w')))).
  { intros v w' Htry. apply audited_ok; try assumption. fold T env'.
    rewrite (delete_vm_func_enters env vm_name user_role Hperm Hvalid) by reflexivity.
    unfold try_except. now rewrite Htry. }
  split.
  - intros Hon [Hp1 He1] Hs1 [Hp2 He2] Hs2.
    erewrite Hfunc.
    2:{ rewrite (delete_vm_try_found vm_name si vm Hvm) by exact Hsi.
        rewrite Hon. cbn [is_poweredOn]. unfold bind at 1.
        rewrite (submit_and_poll _ _ _ _ _ _ n1); try (split; assumption).
        - unfold poller_outcome. cbn [after_lookup clock]. rewrite Hs1.
          cbv beta iota zeta delta [ret].
          rewrite (submit_and_poll _ _ _ _ _ _ n2).
          + unfold poller_outcome.
            cbn [after_polls logged after_lookup clock]. rewrite Hs2. reflexivity.
          + intros _. apply Hwake.
            cbn [after_polls logged after_lookup clock]. lia.
          + change (settings env') with (settings env). cbn [int_or]. lia.
          + cbn [after_polls logged after_lookup clock]. split; assumption.
        - intros _. apply Hwake. cbn [after_lookup clock]. lia.
        - change (settings env') with (settings env). cbn [int_or]. lia. }
    cbn [fst snd]. split; [reflexivity |].
    rewrite actions_logged_audit, actions_after_polls, actions_logged_client,
      actions_after_polls, actions_logged_client, actions_after_lookup.
    cbn [is_action logged after_polls after_lookup clock].
    split; [now rewrite <- app_assoc | lia].
  - intros Hoff [Hp2 He2] Hs2.
    erewrite Hfunc.
    2:{ rewrite (delete_vm_try_found vm_name si vm Hvm) by exact Hsi.
        destruct (is_poweredOn (powerState vm)) eqn:Hp;
          [destruct (powerState vm); try discriminate; now contradiction Hoff |].
        unfold bind at 1. cbv beta iota zeta delta [ret].
        rewrite (submit_and_poll _ _ _ _ _ _ n2).
        - unfold poller_outcome. cbn [after_lookup clock]. rewrite Hs2. reflexivity.
        - intros _. apply Hwake. cbn [after_lookup clock]. lia.
        - change (settings env') with (settings env). cbn [int_or]. lia.
        - cbn [after_lookup clock]. split; assumption. }
    cbn [fst snd]. split; [reflexivity |].
    rewrite actions_logged_audit, actions_after_polls, actions_logged_client,
      actions_after_lookup.
    cbn [is_action logged after_polls after_lookup clock].
    split; [reflexivity | lia].
Qed.

Lemma delete_vm_powers_off_first_witness :
  let vm := Sample.vm1 poweredOn (Sample.task_ending 1002 success EmptyString) in
  let r := VMOperations.delete_vm "vm1" "admin" (Sample.env_of [vm]) Sample.w0 in
  fst r = Ok (deleted "vm1" (mkPayload "done")) /\
  actions (trace (snd r)) = [CallPowerOffVM "vm1"; CallDestroyVM "vm1"] /\
  clock (snd r) = 1002.
Proof.
  intros vm r.
  refine (proj1 (delete_vm_powers_off_first (Sample.env_of [vm]) Sample.w0
                   "vm1" "admin" (mkSI (mkContent [vm])) vm 2 0
                   eq_refl eq_refl (fun _ _ => eq_refl) eq_refl eq_refl eq_refl _)
            eq_refl _ eq_refl _ eq_refl).
  - simpl. lia.
  - split; [| reflexivity].
    intros i Hi. destruct i as [|[|i]]; try reflexivity. lia.
  - split; [| reflexivity]. intros i Hi. lia.
Defined.

(** X16. [delete_vm] of a powered-on VM whose power-off task ends in the
    failed state after [n1 < T] polls: the destroy action is never
    submitted and nothing is retried - the one power-off is the only
    action - and the caller gets a [VMOperationError] that quotes the
    remote error message. *)
Theorem delete_vm_stops_at_failed_power_off (env : Env) (w : World)
    (vm_name user_role : string) (si : ServiceInstance) (vm : VirtualMachine)
    (n1 : nat) :
  RBACManager.check_permission (settings env) user_role "vm:delete" = true ->
  validate_vm_name vm_name = true ->
  logger_returns env ->
  deadline env = None ->
  service_instance env = Some si ->
  lookup_vm si vm_name = Some vm ->
  Z.of_nat n1 < operation_timeout (settings env) ->
  powerState vm = poweredOn ->
  ends_after (PowerOffVM_Task vm) (clock w) n1 ->
  info_state (info (PowerOffVM_Task vm) (clock w + Z.of_nat n1)) = error ->
  let r := VMOperations.delete_vm vm_name user_role env w in
  fst r = Raise (mkExn VMOperationError
                   ("Failed to delete VM: Task failed: "
                    +:+ info_error_msg (info (PowerOffVM_Task vm)
                                          (clock w + Z.of_nat n1)))) /\
  actions (trace (snd r)) = actions (trace w) ++ [CallPowerOffVM (vm_name_of vm)] /\
  clock (snd r) = clock w + Z.of_nat n1.
Proof.
  intros Hperm Hvalid Hlog Hdl Hsi Hvm Hn Hon [Hp1 He1] Hs1 r. subst r.
  assert (Hpos : 0 < operation_timeout (settings env)) by lia.
  unfold VMOperations.delete_vm.
  erewrite audited_raise; try assumption.
  2:{ rewrite (delete_vm_func_enters env vm_name user_role Hperm Hvalid) by reflexivity.
      unfold try_except.
      rewrite (delete_vm_try_found vm_name si vm Hvm) by exact Hsi.
      rewrite Hon. cbn [is_poweredOn]. unfold bind at 1.
      rewrite (submit_and_poll _ _ _ _ _ _ n1); try (split; assumption).
      - unfold poller_outcome. cbn [after_lookup clock]. rewrite Hs1.
        cbn [is_Exception exn_cls]. reflexivity.
      - intros _. unfold wakes_before_deadline, under_deadline, with_deadline.
        cbn [deadline after_lookup clock int_or]. rewrite Hdl. lia.
      - change (settings (under_deadline env w _)) with (settings env).
        cbn [int_or]. lia. }
  - cbn [fst snd]. split; [reflexivity |].
    rewrite actions_logged_audit, actions_after_polls, actions_logged_client,
      actions_after_lookup.
    cbn [is_action logged after_polls after_lookup clock].
    split; [reflexivity | lia].
  - reflexivity.
  - reflexivity.
Qed.

Lemma delete_vm_stops_at_failed_power_off_witness :
  let vm := Sample.vm1 poweredOn (Sample.task_ending 1001 error "busy") in
  let r := VMOperations.delete_vm "vm1" "admin" (Sample.env_of [vm]) Sample.w0 in
  fst r = Raise (mkExn VMOperationError "Failed to delete VM: Task failed: busy") /\
  actions (trace (snd r)) = [CallPowerOffVM "vm1"] /\
  clock (snd r) = 1001.
Proof.
  intros vm r.
  refine (delete_vm_stops_at_failed_power_off (Sample.env_of [vm]) Sample.w0
            "vm1" "admin" (mkSI (mkContent [vm])) vm 1
            eq_refl eq_refl (fun _ _ => eq_refl) eq_refl eq_refl eq_refl _
            eq_refl _ eq_refl).
  - simpl. lia.
  - split; [| reflexivity].
    intros i Hi. destruct i as [|i]; [reflexivity | lia].
Defined.

(** X17. [delete_vm] of a VM that is not powered on, when the destroy task
    stays queued/running for [T] seconds (no enclosing deadline): the
    timeout decorator cuts the poller off before the poller's own timeout
    can fire, and its [TimeoutError] reaches the caller with kind and
    message unchanged, [T] seconds after the call, the body's
    [except Exception] not catching the cancellation. *)
Theorem delete_vm_times_out (env : Env) (w : World)
    (vm_name user_role : string) (si : ServiceInstance) (vm : VirtualMachine) :
  RBACManager.check_permission (settings env) user_role "vm:delete" = true ->
  validate_vm_name vm_name = true ->
  logger_returns env ->
  0 < operation_timeout (settings env) ->
  deadline env = None ->
  service_instance env = Some si ->
  lookup_vm si vm_name = Some vm ->
  powerState vm <> poweredOn ->
  let T := operation_timeout (settings env) in
  (forall i : nat, Z.of_nat i < T ->
     is_pending (info_state (info (Destroy_Task vm) (clock w + Z.of_nat i))) = true) ->
  let r := VMOperations.delete_vm vm_name user_role env w in
  fst r = Raise (operation_timed_out "delete_vm" T) /\
  actions (trace (snd r)) = actions (trace w) ++ [CallDestroyVM (vm_name_of vm)] /\
  clock (snd r) = clock w + T.
Proof.
  intros Hperm Hvalid Hlog Hpos Hdl Hsi Hvm Hoff T Hpend r. subst r.
  unfold VMOperations.delete_vm.
  assert (Hrun : timeout_handler None "delete_vm"
                   (VMOperations.delete_vm_func vm_name user_role) env w
                 = (Raise (operation_timed_out "delete_vm" T),
                    cancelled_polling
                      (logged (after_lookup w) (EvClient (CallDestroyVM (vm_name_of vm))))
                      T)).
  { apply (timeout_handler_cancelled None "delete_vm"); try assumption.
    - rewrite (delete_vm_func_enters env vm_name user_role Hperm Hvalid)
        by reflexivity.
      unfold try_except.
      rewrite (delete_vm_try_found vm_name si vm Hvm) by exact Hsi.
      destruct (is_poweredOn (powerState vm)) eqn:Hp;
        [destruct (powerState vm); try discriminate; now contradiction Hoff |].
      unfold bind at 1. cbv beta iota zeta delta [ret bind client emit].
      rewrite (wait_for_task_async_cancelled _ _ _ _ T);
        cbn [clock logged after_lookup int_or]; try assumption.
      + cbn [is_Exception exn_cls]. reflexivity.
      + unfold under_deadline, with_deadline. cbn [deadline int_or].
        now rewrite Hdl.
      + change (settings (under_deadline env w _)) with (settings env).
        fold T. lia.
    - cbn [cancelled_polling clock logged after_lookup int_or]. fold T. lia. }
  rewrite (audit_log_raise _ _ _ _ _ _ _ Hrun eq_refl (Hlog _ _)).
  cbn [fst snd]. split; [reflexivity |].
  rewrite actions_logged_audit, actions_cancelled_polling, actions_logged_client,
    actions_after_lookup.
  cbn [is_action logged cancelled_polling clock after_lookup].
  split; reflexivity.
Qed.

Lemma delete_vm_times_out_witness :
  let vm := Sample.vm1 poweredOff
              (mkTask (fun _ => mkTaskInfo "task-7" running (mkPayload "none")
                                  EmptyString)) in
  let r := VMOperations.delete_vm "vm1" "admin" (Sample.env_of [vm]) Sample.w0 in
  fst r = Raise (operation_timed_out "delete_vm" 300) /\
  actions (trace (snd r)) = [CallDestroyVM "vm1"] /\
  clock (snd r) = 1300.
Proof.
  intros vm r.
  refine (delete_vm_times_out (Sample.env_of [vm]) Sample.w0
            "vm1" "admin" (mkSI (mkContent [vm])) vm
            eq_refl eq_refl (fun _ _ => eq_refl) eq_refl eq_refl eq_refl eq_refl
            _ (fun _ _ => eq_refl)).
  discriminate.
Defined.

(** ** Snapshots *)

Lemma names_at_preorder (t : SnapshotTree) :
  SnapshotOperations.names_at t = map tree_name (preorder_tree t).
Proof.
  induction t as [name snapshot children IH] using SnapshotTree_forall_ind.
  cbn [SnapshotOperations.names_at preorder_tree map tree_name]. f_equal.
  induction IH as [|c rest Hc _ IHrest]; [reflexivity |].
  cbn [flat_map]. rewrite List.map_app, Hc, <- IHrest. reflexivity.
Qed.

Lemma get_all_snapshot_names_preorder (snapshots : list SnapshotTree) :
  SnapshotOperations._get_all_snapshot_names snapshots
  = map tree_name (preorder snapshots).
Proof.
  unfold preorder.
  induction snapshots as [|t rest IH]; [reflexivity |].
  cbn [SnapshotOperations._get_all_snapshot_names flat_map].
  now rewrite List.map_app, names_at_preorder, IH.
Qed.

(** X18. [_get_all_snapshot_names] lists the names of the forest in
    pre-order, one per node (so that its length, which
    [delete_all_snapshots] reports, is the number of snapshots), and it
    agrees with [_find_snapshot_by_name]: a name is listed exactly when
    the search for it finds a snapshot. *)
Theorem get_all_snapshot_names_spec (snapshots : list SnapshotTree)
    (snapshot_name : string) :
  SnapshotOperations._get_all_snapshot_names snapshots
  = map tree_name (preorder snapshots) /\
  length (SnapshotOperations._get_all_snapshot_names snapshots)
  = length (preorder snapshots) /\
  (snapshot_name ∈ SnapshotOperations._get_all_snapshot_names snapshots
   <-> SnapshotOperations._find_snapshot_by_name snapshots snapshot_name <> None).
Proof.
  rewrite get_all_snapshot_names_preorder.
  split; [reflexivity |]. split; [apply List.length_map |].
  rewrite find_snapshot_preorder.
  pose proof (find_named_none snapshot_name (preorder snapshots)) as Hnone.
  destruct (find (named snapshot_name) (preorder snapshots)) as [t|];
    cbn [option_map].
  - split; [discriminate |]. intros _.
    destruct (decide (snapshot_name ∈ map tree_name (preorder snapshots)))
      as [Hin|Hout]; [exact Hin |].
    apply Hnone in Hout. discriminate.
  - split; [| congruence]. intros Hin.
    now apply (proj1 Hnone) in Hin.
Qed.

Lemma delete_snapshot_func_enters (env : Env) (w : World)
    (vm_name snapshot_name user_role : string) (remove_children : bool) :
  RBACManager.check_permission (settings env) user_role "snapshot:delete" = true ->
  validate_vm_name vm_name = true ->
  SnapshotOperations.delete_snapshot_func vm_name snapshot_name remove_children
    user_role env w
  = try_except
      (SnapshotOperations.delete_snapshot_try vm_name snapshot_name remove_children)
      (fun e => raise SnapshotOperationError
                  ("Failed to delete snapshot: " +:+ str_exn e))
      env w.
Proof.
  intros Hperm Hvalid. unfold SnapshotOperations.delete_snapshot_func. mrun.
  now rewrite Hperm, Hvalid.
Qed.

Lemma delete_snapshot_try_found (vm_name snapshot_name : string)
    (remove_children : bool) (env : Env) (w : World)
    (si : ServiceInstance) (vm : VirtualMachine) (snapshot_info : SnapshotInfo)
    (t : SnapshotTree) :
  service_instance env = Some si ->
  lookup_vm si vm_name = Some vm ->
  vm_snapshot vm = Some snapshot_info ->
  find (named snapshot_name) (preorder (rootSnapshotList snapshot_info)) = Some t ->
  SnapshotOperations.delete_snapshot_try vm_name snapshot_name remove_children env w
  = (task <- client (CallRemoveSnapshot (snap_id (tree_snapshot t)) remove_children)
               (RemoveSnapshot_Task (tree_snapshot t) remove_children) ;;
     result <- wait_for_task_async task (Some 600) ;;
     ret (snapshot_deleted vm_name snapshot_name remove_children result))
      env (after_lookup w).
Proof.
  intros Hsi Hvm Hsnap Hfind. unfold lookup_vm in Hvm.
  unfold SnapshotOperations.delete_snapshot_try.
  cbv beta iota zeta delta [bind ret get_service_instance ask client emit
                            get_vm_by_name].
  rewrite Hsi. cbn [clock trace]. rewrite Hvm, Hsnap.
  rewrite find_snapshot_preorder, Hfind. cbn [option_map].
  rewrite after_lookup_eq. reflexivity.
Qed.

(** X19. [delete_snapshot] by an authorized role on a VM of the inventory
    (no enclosing deadline): the one action it submits is the removal of
    the snapshot of the first node with the given name in the pre-order of
    the VM's snapshot forest, with the caller's [remove_children] flag.
    When the task succeeds after [n < 600] polls the result is
    ["deleted"], [n] seconds after the call; the limit of 600 seconds is
    the operation's own and [settings.operation_timeout] plays no part. *)
Theorem delete_snapshot_removes_first_match (env : Env) (w : World)
    (vm_name snapshot_name user_role : string) (remove_children : bool)
    (si : ServiceInstance) (vm : VirtualMachine) (snapshot_info : SnapshotInfo)
    (t : SnapshotTree) (n : nat) :
  RBACManager.check_permission (settings env) user_role "snapshot:delete" = true ->
  validate_vm_name vm_name = true ->
  logger_returns env ->
  deadline env = None ->
  service_instance env = Some si ->
  lookup_vm si vm_name = Some vm ->
  vm_snapshot vm = Some snapshot_info ->
  find (named snapshot_name) (preorder (rootSnapshotList snapshot_info)) = Some t ->
  let task := RemoveSnapshot_Task (tree_snapshot t) remove_children in
  Z.of_nat n < 600 ->
  ends_after task (clock w) n ->
  info_state (info task (clock w + Z.of_nat n)) = success ->
  let r := SnapshotOperations.delete_snapshot vm_name snapshot_name
             remove_children user_role env w in
  fst r = Ok (snapshot_deleted vm_name snapshot_name remove_children
                (info_result (info task (clock w + Z.of_nat n)))) /\
  actions (trace (snd r))
  = actions (trace w)
    ++ [CallRemoveSnapshot (snap_id (tree_snapshot t)) remove_children] /\
  clock (snd r) = clock w + Z.of_nat n.
Proof.
  intros Hperm Hvalid Hlog Hdl Hsi Hvm Hsnap Hfind task Hn Hends Hs r. subst r.
  unfold SnapshotOperations.delete_snapshot.
  erewrite audited_ok; try assumption.
  3:{ rewrite delete_snapshot_func_enters by assumption.
      unfold try_except.
      rewrite (delete_snapshot_try_found _ _ _ _ _ si vm snapshot_info t)
        by assumption.
      fold task. rewrite (submit_and_poll _ _ _ _ _ _ n).
      - unfold poller_outcome. cbn [after_lookup clock]. rewrite Hs. reflexivity.
      - intros _. unfold wakes_before_deadline, under_deadline, with_deadline.
        change (int_or (Some 600) (operation_timeout (settings env))) with 600.
        cbn [deadline after_lookup clock]. rewrite Hdl. lia.
      - change (int_or (Some 600) _) with 600. lia.
      - exact Hends. }
  - cbn [fst snd]. split; [reflexivity |].
    rewrite actions_logged_audit, actions_after_polls, actions_logged_client,
      actions_after_lookup.
    cbn [is_action logged after_polls after_lookup clock].
    split; [reflexivity | lia].
  - reflexivity.
Qed.

Lemma delete_snapshot_removes_first_match_witness :
  let vm := Sample.vm1 poweredOn (Sample.task_ending 0 success EmptyString) in
  let r := SnapshotOperations.delete_snapshot "vm1" "a" true "admin"
             (Sample.env_of [vm]) Sample.w0 in
  fst r = Ok (snapshot_deleted "vm1" "a" true (mkPayload "done")) /\
  actions (trace (snd r)) = [CallRemoveSnapshot "s2" true] /\
  clock (snd r) = 1000.
Proof.
  intros vm r.
  refine (delete_snapshot_removes_first_match (Sample.env_of [vm]) Sample.w0
            "vm1" "a" "admin" true (mkSI (mkContent [vm])) vm
            (mkSnapshotInfo Sample.forest)
            (mkSnapshotTree "a" (Sample.snap "s2")
               [mkSnapshotTree "leaf" (Sample.snap "s3") []])
            0
            eq_refl eq_refl (fun _ _ => eq_refl) eq_refl eq_refl eq_refl eq_refl
            eq_refl eq_refl _ eq_refl).
  split; [| reflexivity]. intros i Hi. lia.
Defined.

(** X20. [delete_snapshot] by an authorized role when its target is
    missing: for a name that is not in the inventory, and for a VM
    without snapshot information, it fails with a
    [SnapshotOperationError] that names the VM, after the lookup and
    without submitting an action.  (A VM without snapshots is a failure
    here although [delete_all_snapshots] treats it as a no-op success.) *)
Theorem delete_snapshot_missing_target (env : Env) (w : World)
    (vm_name snapshot_name user_role : string) (remove_children : bool)
    (si : ServiceInstance) :
  RBACManager.check_permission (settings env) user_role "snapshot:delete" = true ->
  validate_vm_name vm_name = true ->
  logger_returns env ->
  service_instance env = Some si ->
  let r := SnapshotOperations.delete_snapshot vm_name snapshot_name
             remove_children user_role env w in
  (lookup_vm si vm_name = None ->
   fst r = Raise (mkExn SnapshotOperationError
                    ("Failed to delete snapshot: VM '" +:+ vm_name +:+ "' not found")) /\
   actions (trace (snd r)) = actions (trace w)) /\
  (forall vm : VirtualMachine,
     lookup_vm si vm_name = Some vm ->
     vm_snapshot vm = None ->
     fst r = Raise (mkExn SnapshotOperationError
                      ("Failed to delete snapshot: VM '" +:+ vm_name
                       +:+ "' has no snapshots")) /\
     actions (trace (snd r)) = actions (trace w)).
Proof.
  intros Hperm Hvalid Hlog Hsi r. subst r.
  unfold SnapshotOperations.delete_snapshot.
  assert (Hrun : forall msg,
            SnapshotOperations.delete_snapshot_try vm_name snapshot_name
              remove_children
              (under_deadline env w
                 (int_or (Some 600) (operation_timeout (settings env)))) w
            = (Raise (mkExn SnapshotOperationError msg), after_lookup w) ->
            let r := audit_log "delete_snapshot" (Some "snapshot")
                       (timeout_handler (Some 600) "delete_snapshot"
                          (SnapshotOperations.delete_snapshot_func vm_name
                             snapshot_name remove_children user_role)) env w in
            fst r = Raise (mkExn SnapshotOperationError
                             ("Failed to delete snapshot: " +:+ msg)) /\
            actions (trace (snd r)) = actions (trace w)).
  { intros msg Htry r. subst r.
    erewrite audited_raise; try assumption.
    - cbn [fst snd]. split; [reflexivity |].
      now rewrite actions_logged_audit, actions_after_lookup.
    - reflexivity.
    - rewrite delete_snapshot_func_enters by assumption.
      unfold try_except. rewrite Htry. reflexivity.
    - reflexivity.
    - reflexivity. }
  split.
  - intros Hvm. apply Hrun. unfold lookup_vm in Hvm.
    unfold SnapshotOperations.delete_snapshot_try. mrun_io.
    change (service_instance (under_deadline env w _)) with (service_instance env).
    rewrite Hsi. cbn [clock trace]. rewrite Hvm.
    now rewrite after_lookup_eq.
  - intros vm Hvm Hsnap. apply Hrun. unfold lookup_vm in Hvm.
    unfold SnapshotOperations.delete_snapshot_try. mrun_io.
    change (service_instance (under_deadline env w _)) with (service_instance env).
    rewrite Hsi. cbn [clock trace]. rewrite Hvm, Hsnap.
    now rewrite after_lookup_eq.
Qed.

Lemma delete_snapshot_missing_target_witness :
  let t := Sample.task_ending 0 success EmptyString in
  let vm := {| vm_name_of := "vm2"; powerState := poweredOff; vm_snapshot := None;
               PowerOnVM_Task := t; PowerOffVM_Task := t; Destroy_Task := t;
               ReconfigVM_Task := fun _ => t |} in
  let r := SnapshotOperations.delete_snapshot "vm2" "base" false "admin"
             (Sample.env_of [vm]) Sample.w0 in
  fst r = Raise (mkExn SnapshotOperationError
                   "Failed to delete snapshot: VM 'vm2' has no snapshots") /\
  actions (trace (snd r)) = [].
Proof.
  intros t vm r.
  exact (proj2 (delete_snapshot_missing_target (Sample.env_of [vm]) Sample.w0
                  "vm2" "base" "admin" false (mkSI (mkContent [vm]))
                  eq_refl eq_refl (fun _ _ => eq_refl) eq_refl)
           vm eq_refl eq_refl).
Defined.

(** ** Resource modify *)

Lemma within_in_range (x : option Z) (lo hi : Z) :
  within x lo hi -> ResourceOperations.out_of_range x lo hi = false.
Proof.
  intros H. destruct x as [v|]; [| reflexivity].
  specialize (H v eq_refl). cbn [ResourceOperations.out_of_range].
  apply orb_false_iff. split; apply Z.ltb_ge; lia.
Qed.

(** X21. [modify_vm_resources] validates its arguments before it contacts
    the management plane: a cpu count outside 1..128, or (with an absent
    or valid cpu count) a memory size outside 4..1048576 MB, is rejected
    with a [ValidationError] and no call on the client is made, so that
    no inventory lookup takes place. *)
Theorem modify_rejects_out_of_range (env : Env) (w : World)
    (vm_name user_role : string) (cpu_count memory_mb : option Z) :
  RBACManager.check_permission (settings env) user_role "resource:allocate" = true ->
  validate_vm_name vm_name = true ->
  logger_returns env ->
  0 < operation_timeout (settings env) ->
  let r := ResourceOperations.modify_vm_resources vm_name cpu_count memory_mb
             user_role env w in
  (forall c, cpu_count = Some c -> c < 1 \/ 128 < c ->
     fst r = Raise (mkExn ValidationError "CPU count must be between 1 and 128") /\
     client_calls (trace (snd r)) = client_calls (trace w)) /\
  (forall m, memory_mb = Some m -> m < 4 \/ 1048576 < m ->
     within cpu_count 1 128 ->
     fst r = Raise (mkExn ValidationError "Memory must be between 4 MB and 1 TB") /\
     client_calls (trace (snd r)) = client_calls (trace w)).
Proof.
  intros Hperm Hvalid Hlog Hpos r. subst r.
  unfold ResourceOperations.modify_vm_resources.
  assert (Hout : forall (x : option Z) v lo hi,
            x = Some v -> v < lo \/ hi < v ->
            ResourceOperations.out_of_range x lo hi = true).
  { intros x v lo hi -> Hv. cbn [ResourceOperations.out_of_range].
    apply orb_true_iff. destruct Hv; [left | right]; now apply Z.ltb_lt. }
  split.
  - intros c Hc Hrange.
    erewrite audited_raise; try assumption.
    + cbn [fst snd]. split; [reflexivity |]. apply client_calls_logged_audit.
    + unfold ResourceOperations.modify_vm_resources_func. mrun.
      change (settings (under_deadline env w _)) with (settings env).
      rewrite Hperm, Hvalid. cbn [negb].
      rewrite (Hout _ _ _ _ Hc Hrange). reflexivity.
    + reflexivity.
    + reflexivity.
  - intros m Hm Hrange Hcpu.
    erewrite audited_raise; try assumption.
    + cbn [fst snd]. split; [reflexivity |]. apply client_calls_logged_audit.
    + unfold ResourceOperations.modify_vm_resources_func. mrun.
      change (settings (under_deadline env w _)) with (settings env).
      rewrite Hperm, Hvalid. cbn [negb].
      rewrite (within_in_range _ _ _ Hcpu), (Hout _ _ _ _ Hm Hrange). reflexivity.
    + reflexivity.
    + reflexivity.
Qed.

Lemma modify_rejects_out_of_range_witness :
  let vm := Sample.vm1 poweredOff (Sample.task_ending 0 success EmptyString) in
  let r := ResourceOperations.modify_vm_resources "vm1" (Some 0) (Some 2048)
             "admin" (Sample.env_of [vm]) Sample.w0 in
  fst r = Raise (mkExn ValidationError "CPU count must be between 1 and 128") /\
  client_calls (trace (snd r)) = [].
Proof.
  intros vm r.
  refine (proj1 (modify_rejects_out_of_range (Sample.env_of [vm]) Sample.w0
                   "vm1" "admin" (Some 0) (Some 2048)
                   eq_refl eq_refl (fun _ _ => eq_refl) eq_refl)
            0 eq_refl _).
  left. lia.
Defined.

(** X22. [modify_vm_resources] by an authorized role with at least one
    argument, all given arguments in range, on a VM of the inventory (no
    enclosing deadline, operation timeout [T]): exactly one
    reconfiguration is submitted, whose specification carries the two
    arguments as given (an absent one stays unset), and when its task
    succeeds after [n < T] polls the result is ["modified"] with one
    change line per given argument, cpu first. *)
Theorem modify_submits_one_reconfiguration (env : Env) (w : World)
    (vm_name user_role : string) (cpu_count memory_mb : option Z)
    (si : ServiceInstance) (vm : VirtualMachine) (n : nat) :
  RBACManager.check_permission (settings env) user_role "resource:allocate" = true ->
  validate_vm_name vm_name = true ->
  logger_returns env ->
  deadline env = None ->
  service_instance env = Some si ->
  lookup_vm si vm_name = Some vm ->
  within cpu_count 1 128 ->
  within memory_mb 4 1048576 ->
  cpu_count <> None \/ memory_mb <> None ->
  let spec := {| numCPUs := cpu_count; memoryMB := memory_mb |} in
  let task := ReconfigVM_Task vm spec in
  Z.of_nat n < operation_timeout (settings env) ->
  ends_after task (clock w) n ->
  info_state (info task (clock w + Z.of_nat n)) = success ->
  let r := ResourceOperations.modify_vm_resources vm_name cpu_count memory_mb
             user_role env w in
  fst r = Ok (modified vm_name
                (match cpu_count with
                 | Some c => ["CPU count: " +:+ pretty c]
                 | None => []
                 end ++
                 match memory_mb with
                 | Some m => ["Memory: " +:+ pretty m +:+ " MB"]
                 | None => []
                 end)
                (info_result (info task (clock w + Z.of_nat n)))) /\
  actions (trace (snd r))
  = actions (trace w) ++ [CallReconfigVM (vm_name_of vm) spec] /\
  clock (snd r) = clock w + Z.of_nat n.
Proof.
  intros Hperm Hvalid Hlog Hdl Hsi Hvm Hcpu Hmem Hsome spec task Hn Hends Hs r.
  subst r.
  assert (Hpos : 0 < operation_timeout (settings env)) by lia.
  unfold ResourceOperations.modify_vm_resources.
  assert (Htry : forall env', service_instance env' = Some si ->
            ResourceOperations.modify_vm_resources_try vm_name cpu_count memory_mb
              env' w
            = (t <- client (CallReconfigVM (vm_name_of vm) spec) task ;;
               result <- wait_for_task_async t None ;;
               ret (modified vm_name
                      (ResourceOperations.changes_made cpu_count memory_mb)
                      result)) env' (after_lookup w)).
  { intros env' Hsi'. unfold lookup_vm in Hvm.
    unfold ResourceOperations.modify_vm_resources_try.
    cbv beta iota zeta delta [bind ret get_service_instance ask client emit
                              get_vm_by_name].
    rewrite Hsi'. cbn [clock trace]. rewrite Hvm. rewrite after_lookup_eq.
    fold spec task.
    destruct cpu_count as [c|], memory_mb as [m|];
      cbn [ResourceOperations.changes_made app]; try reflexivity.
    destruct Hsome as [H|H]; now contradiction H. }
  erewrite audited_ok; try assumption.
  2:{ unfold ResourceOperations.modify_vm_resources_func. mrun.
      change (settings (under_deadline env w _)) with (settings env).
      rewrite Hperm, Hvalid. cbn [negb].
      rewrite (within_in_range _ _ _ Hcpu), (within_in_range _ _ _ Hmem).
      rewrite Htry by exact Hsi.
      rewrite (submit_and_poll _ _ _ _ _ _ n).
      - unfold poller_outcome. cbn [after_lookup clock]. rewrite Hs. reflexivity.
      - intros _. unfold wakes_before_deadline, under_deadline, with_deadline.
        cbn [deadline after_lookup clock int_or]. rewrite Hdl. lia.
      - change (settings (under_deadline env w _)) with (settings env).
        cbn [int_or]. lia.
      - exact Hends. }
  cbn [fst snd]. split; [reflexivity |].
  rewrite actions_logged_audit, actions_after_polls, actions_logged_client,
    actions_after_lookup.
  cbn [is_action logged after_polls after_lookup clock].
  split; [reflexivity | lia].
Qed.

Lemma modify_submits_one_reconfiguration_witness :
  let vm := Sample.vm1 poweredOff (Sample.task_ending 1003 success EmptyString) in
  let r := ResourceOperations.modify_vm_resources "vm1" None (Some 2048)
             "admin" (Sample.env_of [vm]) Sample.w0 in
  fst r = Ok (modified "vm1" ["Memory: " +:+ pretty 2048 +:+ " MB"]
                (mkPayload "done")) /\
  actions (trace (snd r))
  = [CallReconfigVM "vm1" {| numCPUs := None; memoryMB := Some 2048 |}] /\
  clock (snd r) = 1003.
Proof.
  intros vm r.
  refine (modify_submits_one_reconfiguration (Sample.env_of [vm]) Sample.w0
            "vm1" "admin" None (Some 2048) (mkSI (mkContent [vm])) vm 3
            eq_refl eq_refl (fun _ _ => eq_refl) eq_refl eq_refl eq_refl
            _ _ _ eq_refl _ eq_refl).
  - intros v Hv. discriminate.
  - intros v Hv. injection Hv as <-. lia.
  - right. discriminate.
  - split; [| reflexivity].
    intros i Hi. destruct i as [|[|[|i]]]; try reflexivity. lia.
Defined.

(** ** Stop *)

Section StopAttempt.

Variable ShutdownGuest : VirtualMachine -> M unit.
Variable powerState_after_grace : VirtualMachine -> M PowerState.
Variables (env : Env) (vm_name user_role : string) (force : bool)
          (si : ServiceInstance) (vm : VirtualMachine).
Hypothesis Hperm :
  RBACManager.check_permission (settings env) user_role "vm:stop" = true.
Hypothesis Hvalid : validate_vm_name vm_name = true.
Hypothesis Hlog : logger_returns env.
Hypothesis Hpos : 0 < operation_timeout (settings env).
Hypothesis Hsi : service_instance env = Some si.
Hypothesis Hvm : lookup_vm si vm_name = Some vm.

Lemma stop_vm_first_attempt (w w' : World) (v : value) :
  VMOperations.stop_vm_try ShutdownGuest powerState_after_grace vm_name force
    (under_deadline env w (operation_timeout (settings env))) w = (Ok v, w') ->
  VMOperations.stop_vm ShutdownGuest powerState_after_grace vm_name force
    user_role env w
  = (Ok v, logged w' (EvAudit INFO
                        (audit_record "stop_vm" (Some "vm") (clock w) None w'))).
Proof.
  intros Htry. unfold VMOperations.stop_vm.
  apply audit_log_ok; [| apply Hlog].
  apply async_retry_first_ok, timeout_handler_ok; [exact Hpos |].
  cbn [int_or]. unfold VMOperations.stop_vm_func. mrun.
  change (settings (under_deadline env w _)) with (settings env).
  rewrite Hperm, Hvalid. cbn [negb]. now rewrite Htry.
Qed.

Lemma stop_vm_try_found (env' : Env) (w : World) :
  service_instance env' = Some si ->
  VMOperations.stop_vm_try ShutdownGuest powerState_after_grace vm_name force env' w
  = (if VMOperations.is_poweredOff (powerState vm)
     then ret (already_stopped vm_name)
     else
       decision <- VMOperations.stop_decision ShutdownGuest powerState_after_grace
                     vm_name force vm ;;
       match decision with
       | inl returned => ret returned
       | inr (task, method) =>
           result <- wait_for_task_async task None ;;
           ret (stopped vm_name method result)
       end) env' (after_lookup w).
Proof.
  intros Hsi'. unfold VMOperations.stop_vm_try. unfold lookup_vm in Hvm.
  cbv beta iota zeta delta [bind ret get_service_instance ask client emit
                            get_vm_by_name].
  rewrite Hsi'. cbn [clock trace]. rewrite Hvm. rewrite after_lookup_eq.
  reflexivity.
Qed.

(** The attempt once the [if force] statement has left a task to poll. *)
Lemma stop_vm_polls (w w1 : World) (task : Task) (method : string) (n : nat) :
  deadline env = None ->
  powerState vm <> poweredOff ->
  VMOperations.stop_decision ShutdownGuest powerState_after_grace vm_name force vm
    (under_deadline env w (operation_timeout (settings env))) (after_lookup w)
  = (Ok (inr (task, method)), w1) ->
  clock w <= clock w1 ->
  clock w1 + Z.of_nat n < clock w + operation_timeout (settings env) ->
  ends_after task (clock w1) n ->
  info_state (info task (clock w1 + Z.of_nat n)) = success ->
  VMOperations.stop_vm ShutdownGuest powerState_after_grace vm_name force
    user_role env w
  = (Ok (stopped vm_name method (info_result (info task (clock w1 + Z.of_nat n)))),
     logged (after_polls w1 n)
       (EvAudit INFO (audit_record "stop_vm" (Some "vm") (clock w) None
                        (after_polls w1 n)))).
Proof.
  intros Hdl Hoff Hdec Hclock Hn [Hpend Hend] Hs.
  apply stop_vm_first_attempt.
  rewrite stop_vm_try_found by exact Hsi.
  destruct (VMOperations.is_poweredOff (powerState vm)) eqn:Hp;
    [destruct (powerState vm); try discriminate; now contradiction Hoff |].
  unfold bind at 1. rewrite Hdec. unfold bind, ret.
  rewrite (wait_for_task_async_terminal _ _ _ _ n); try assumption.
  - unfold poller_outcome. now rewrite Hs.
  - intros _. unfold wakes_before_deadline, under_deadline, with_deadline.
    cbn [deadline]. now rewrite Hdl.
  - change (settings (under_deadline env w _)) with (settings env).
    cbn [int_or]. lia.
Qed.

End StopAttempt.

Lemma stop_decision_graceful (ShutdownGuest : VirtualMachine -> M unit)
    (powerState_after_grace : VirtualMachine -> M PowerState)
    (vm_name : string) (vm : VirtualMachine) (st : PowerState)
    (env : Env) (w : World) :
  returns (ShutdownGuest vm) tt ->
  returns (powerState_after_grace vm) st ->
  wakes_before_deadline env (clock w + 5) ->
  VMOperations.stop_decision ShutdownGuest powerState_after_grace vm_name false vm
    env w
  = if is_poweredOn st
    then (Ok (inr (PowerOffVM_Task vm, "force_stop_fallback")),
          logged (after_grace w) (EvClient (CallPowerOffVM (vm_name_of vm))))
    else (Ok (inl (stopped_gracefully vm_name)), after_grace w).
Proof.
  intros Hguest Hstate Hwake.
  unfold VMOperations.stop_decision, try_except_any.
  cbv beta iota zeta delta [bind ret client emit].
  rewrite Hguest. cbv beta iota.
  rewrite (sleep_before_deadline 5) by exact Hwake.
  change (Z.max 0 5) with 5. fold (after_grace w).
  rewrite Hstate. cbv beta iota.
  destruct (is_poweredOn st); reflexivity.
Qed.

Lemma stop_decision_guest_fails (ShutdownGuest : VirtualMachine -> M unit)
    (powerState_after_grace : VirtualMachine -> M PowerState)
    (vm_name : string) (vm : VirtualMachine) (e : exn)
    (env : Env) (w w' : World) :
  ShutdownGuest vm env w = (Raise e, w') ->
  VMOperations.stop_decision ShutdownGuest powerState_after_grace vm_name false vm
    env w
  = (Ok (inr (PowerOffVM_Task vm, "force_stop_fallback")),
     logged w' (EvClient (CallPowerOffVM (vm_name_of vm)))).
Proof.
  intros Hguest.
  unfold VMOperations.stop_decision, try_except_any.
  cbv beta iota zeta delta [bind ret client emit].
  rewrite Hguest. reflexivity.
Qed.

(** X23. [stop_vm] by an authorized role on a VM of the inventory.  A VM
    that is powered off is left alone: the result is the no-op success
    ["already_stopped"], with or without [force], and no action is
    submitted.  With [force], any other VM is powered off by one action,
    without a call of [ShutdownGuest] or a grace period: when the task
    succeeds after [n < T] polls the result is ["stopped"] by
    ["force_stop"], [n] seconds after the call. *)
Theorem stop_vm_spec (ShutdownGuest : VirtualMachine -> M unit)
    (powerState_after_grace : VirtualMachine -> M PowerState)
    (env : Env) (w : World) (vm_name user_role : string)
    (si : ServiceInstance) (vm : VirtualMachine) :
  RBACManager.check_permission (settings env) user_role "vm:stop" = true ->
  validate_vm_name vm_name = true ->
  logger_returns env ->
  0 < operation_timeout (settings env) ->
  service_instance env = Some si ->
  lookup_vm si vm_name = Some vm ->
  let stop_vm := VMOperations.stop_vm ShutdownGuest powerState_after_grace in
  (powerState vm = poweredOff ->
   forall force : bool,
     let r := stop_vm vm_name force user_role env w in
     fst r = Ok (already_stopped vm_name) /\
     actions (trace (snd r)) = actions (trace w) /\
     clock (snd r) = clock w) /\
  (powerState vm <> poweredOff ->
   deadline env = None ->
   forall n : nat,
     Z.of_nat n < operation_timeout (settings env) ->
     ends_after (PowerOffVM_Task vm) (clock w) n ->
     info_state (info (PowerOffVM_Task vm) (clock w + Z.of_nat n)) = success ->
     let r := stop_vm vm_name true user_role env w in
     fst r = Ok (stopped vm_name "force_stop"
                   (info_result (info (PowerOffVM_Task vm) (clock w + Z.of_nat n)))) /\
     actions (trace (snd r))
     = actions (trace w) ++ [CallPowerOffVM (vm_name_of vm)] /\
     clock (snd r) = clock w + Z.of_nat n).
Proof.
  intros Hperm Hvalid Hlog Hpos Hsi Hvm stop_vm. subst stop_vm. split.
  - intros Hoff force r. subst r.
    rewrite (stop_vm_first_attempt _ _ env vm_name user_role force
               Hperm Hvalid Hlog Hpos w (after_lookup w) (already_stopped vm_name)).
    + cbn [fst snd]. split; [reflexivity |].
      split; [now rewrite actions_logged_audit, actions_after_lookup | reflexivity].
    + rewrite (stop_vm_try_found _ _ vm_name force si vm Hvm) by exact Hsi.
      now rewrite Hoff.
  - intros Hon Hdl n Hn Hends Hs r. subst r.
    rewrite (stop_vm_polls _ _ env vm_name user_role true si vm
               Hperm Hvalid Hlog Hpos Hsi Hvm w
               (logged (after_lookup w) (EvClient (CallPowerOffVM (vm_name_of vm))))
               (PowerOffVM_Task vm) "force_stop" n);
      try assumption; try reflexivity.
    + cbn [fst snd]. split; [reflexivity |].
      rewrite actions_logged_audit, actions_after_polls, actions_logged_client,
        actions_after_lookup.
      split; reflexivity.
    + cbn [logged after_lookup clock]. lia.
Qed.

Lemma stop_vm_spec_witness :
  let guest := fun _ : VirtualMachine => ret tt in
  let state := fun _ : VirtualMachine => ret poweredOn in
  let vm := Sample.vm1 poweredOn (Sample.task_ending 1002 success EmptyString) in
  let r := VMOperations.stop_vm guest state "vm1" true "operator"
             (Sample.env_of [vm]) Sample.w0 in
  fst r = Ok (stopped "vm1" "force_stop" (mkPayload "done")) /\
  actions (trace (snd r)) = [CallPowerOffVM "vm1"] /\
  clock (snd r) = 1002.
Proof.
  intros guest state vm r.
  refine (proj2 (stop_vm_spec guest state (Sample.env_of [vm]) Sample.w0
                   "vm1" "operator" (mkSI (mkContent [vm])) vm
                   eq_refl eq_refl (fun _ _ => eq_refl) eq_refl eq_refl eq_refl)
            _ eq_refl 2%nat eq_refl _ eq_refl).
  - discriminate.
  - split; [| reflexivity].
    intros i Hi. destruct i as [|[|i]]; try reflexivity. lia.
Defined.

(** X24. [stop_vm] without [force] on a VM that is not powered off, when
    the call of [ShutdownGuest] returns (no enclosing deadline, operation
    timeout [T > 5]): the operation waits the grace period of 5 seconds
    and reads the power state again.  If the VM is no longer powered on,
    the result is ["stopped"] by ["graceful_shutdown"], without a task
    result and without any action submitted.  If it is still powered on,
    one power-off action is submitted, and when its task succeeds after
    [n] polls, [5 + n < T], the result is ["stopped"] by
    ["force_stop_fallback"], [5 + n] seconds after the call. *)
Theorem stop_vm_graceful (ShutdownGuest : VirtualMachine -> M unit)
    (powerState_after_grace : VirtualMachine -> M PowerState)
    (env : Env) (w : World) (vm_name user_role : string)
    (si : ServiceInstance) (vm : VirtualMachine) (st : PowerState) (n : nat) :
  RBACManager.check_permission (settings env) user_role "vm:stop" = true ->
  validate_vm_name vm_name = true ->
  logger_returns env ->
  deadline env = None ->
  service_instance env = Some si ->
  lookup_vm si vm_name = Some vm ->
  powerState vm <> poweredOff ->
  returns (ShutdownGuest vm) tt ->
  returns (powerState_after_grace vm) st ->
  5 + Z.of_nat n < operation_timeout (settings env) ->
  let r := VMOperations.stop_vm ShutdownGuest powerState_after_grace
             vm_name false user_role env w in
  (st <> poweredOn ->
   fst r = Ok (stopped_gracefully vm_name) /\
   actions (trace (snd r)) = actions (trace w) /\
   clock (snd r) = clock w + 5) /\
  (st = poweredOn ->
   ends_after (PowerOffVM_Task vm) (clock w + 5) n ->
   info_state (info (PowerOffVM_Task vm) (clock w + 5 + Z.of_nat n)) = success ->
   fst r = Ok (stopped vm_name "force_stop_fallback"
                 (info_result (info (PowerOffVM_Task vm)
                                 (clock w + 5 + Z.of_nat n)))) /\
   actions (trace (snd r)) = actions (trace w) ++ [CallPowerOffVM (vm_name_of vm)] /\
   clock (snd r) = clock w + 5 + Z.of_nat n).
Proof.
  intros Hperm Hvalid Hlog Hdl Hsi Hvm Hon Hguest Hstate Hn r. subst r.
  assert (Hpos : 0 < operation_timeout (settings env)) by lia.
  assert (Hdec := stop_decision_graceful ShutdownGuest powerState_after_grace
                    vm_name vm st
                    (under_deadline env w (operation_timeout (settings env)))
                    (after_lookup w) Hguest Hstate).
  assert (Hwake : wakes_before_deadline
                    (under_deadline env w (operation_timeout (settings env)))
                    (clock (after_lookup w) + 5)).
  { unfold wakes_before_deadline, under_deadline, with_deadline.
    cbn [deadline after_lookup clock]. rewrite Hdl. lia. }
  specialize (Hdec Hwake).
  split.
  - intros Hst.
    destruct (is_poweredOn st) eqn:Hp;
      [destruct st; try discriminate; now contradiction Hst |].
    rewrite (stop_vm_first_attempt _ _ env vm_name user_role false
               Hperm Hvalid Hlog Hpos w (after_grace (after_lookup w))
               (stopped_gracefully vm_name)).
    + cbn [fst snd]. split; [reflexivity |].
      rewrite actions_logged_audit.
      unfold after_grace. cbn [trace clock logged after_lookup].
      rewrite !actions_app.
      change (actions [EvSleep 5]) with (@nil ClientCall).
      change (actions lookup_events) with (@nil ClientCall).
      now rewrite !app_nil_r.
    + rewrite (stop_vm_try_found _ _ vm_name false si vm Hvm) by exact Hsi.
      destruct (VMOperations.is_poweredOff (powerState vm)) eqn:Hoff;
        [destruct (powerState vm); try discriminate; now contradiction Hon |].
      unfold bind at 1. rewrite Hdec. reflexivity.
  - intros -> Hends Hs. cbn [is_poweredOn] in Hdec.
    rewrite (stop_vm_polls _ _ env vm_name user_role false si vm
               Hperm Hvalid Hlog Hpos Hsi Hvm w _ _ _ n Hdl Hon Hdec).
    + cbn [fst snd]. split; [reflexivity |].
      rewrite actions_logged_audit, actions_after_polls, actions_logged_client.
      unfold after_grace. cbn [trace clock logged after_polls after_lookup].
      rewrite !actions_app.
      change (actions [EvSleep 5]) with (@nil ClientCall).
      change (actions lookup_events) with (@nil ClientCall).
      now rewrite !app_nil_r.
    + cbn [logged after_grace after_lookup clock]. lia.
    + cbn [logged after_grace after_lookup clock]. lia.
    + exact Hends.
    + exact Hs.
Qed.

Lemma stop_vm_graceful_witness :
  let guest := fun _ : VirtualMachine => ret tt in
  let state := fun _ : VirtualMachine => ret poweredOff in
  let vm := Sample.vm1 poweredOn (Sample.task_ending 0 success EmptyString) in
  let r := VMOperations.stop_vm guest state "vm1" false "operator"
             (Sample.env_of [vm]) Sample.w0 in
  fst r = Ok (stopped_gracefully "vm1") /\
  actions (trace (snd r)) = [] /\
  clock (snd r) = 1005.
Proof.
  intros guest state vm r.
  refine (proj1 (stop_vm_graceful guest state (Sample.env_of [vm]) Sample.w0
                   "vm1" "operator" (mkSI (mkContent [vm])) vm poweredOff 0
                   eq_refl eq_refl (fun _ _ => eq_refl) eq_refl eq_refl eq_refl
                   _ (fun _ _ => eq_refl) (fun _ _ => eq_refl) eq_refl) _);
    discriminate.
Defined.

(** X25. [stop_vm] without [force] when the call of [ShutdownGuest]
    raises: whatever is raised - the bare [except] does not look at its
    class - is swallowed, the grace period is skipped, and one power-off
    action is submitted at once.  When its task succeeds after [n < T]
    polls the result is the success ["stopped"] by
    ["force_stop_fallback"], which does not mention the failure of the
    guest shutdown. *)
Theorem stop_vm_guest_shutdown_fails (ShutdownGuest : VirtualMachine -> M unit)
    (powerState_after_grace : VirtualMachine -> M PowerState)
    (env : Env) (w : World) (vm_name user_role : string)
    (si : ServiceInstance) (vm : VirtualMachine) (e : exn) (n : nat) :
  RBACManager.check_permission (settings env) user_role "vm:stop" = true ->
  validate_vm_name vm_name = true ->
  logger_returns env ->
  deadline env = None ->
  service_instance env = Some si ->
  lookup_vm si vm_name = Some vm ->
  powerState vm <> poweredOff ->
  (forall env' w', ShutdownGuest vm env' w' = (Raise e, w')) ->
  Z.of_nat n < operation_timeout (settings env) ->
  ends_after (PowerOffVM_Task vm) (clock w) n ->
  info_state (info (PowerOffVM_Task vm) (clock w + Z.of_nat n)) = success ->
  let r := VMOperations.stop_vm ShutdownGuest powerState_after_grace
             vm_name false user_role env w in
  fst r = Ok (stopped vm_name "force_stop_fallback"
                (info_result (info (PowerOffVM_Task vm) (clock w + Z.of_nat n)))) /\
  actions (trace (snd r)) = actions (trace w) ++ [CallPowerOffVM (vm_name_of vm)] /\
  clock (snd r) = clock w + Z.of_nat n.
Proof.
  intros Hperm Hvalid Hlog Hdl Hsi Hvm Hon Hguest Hn Hends Hs r. subst r.
  assert (Hpos : 0 < operation_timeout (settings env)) by lia.
  rewrite (stop_vm_polls _ _ env vm_name user_role false si vm
             Hperm Hvalid Hlog Hpos Hsi Hvm w _ _ _ n Hdl Hon
             (stop_decision_guest_fails _ _ vm_name vm e _ _ _ (Hguest _ _))).
  - cbn [fst snd]. split; [reflexivity |].
    rewrite actions_logged_audit, actions_after_polls, actions_logged_client,
      actions_after_lookup.
    split; reflexivity.
  - cbn [logged after_lookup clock]. lia.
  - cbn [logged after_lookup clock]. lia.
  - exact Hends.
  - exact Hs.
Qed.

Lemma stop_vm_guest_shutdown_fails_witness :
  let guest := fun _ : VirtualMachine =>
                 raise (OtherException "ToolsUnavailable")
                   "VMware Tools is not running" : M unit in
  let state := fun _ : VirtualMachine => ret poweredOn in
  let vm := Sample.vm1 poweredOn (Sample.task_ending 1001 success EmptyString) in
  let r := VMOperations.stop_vm guest state "vm1" false "operator"
             (Sample.env_of [vm]) Sample.w0 in
  fst r = Ok (stopped "vm1" "force_stop_fallback" (mkPayload "done")) /\
  actions (trace (snd r)) = [CallPowerOffVM "vm1"] /\
  clock (snd r) = 1001.
Proof.
  intros guest state vm r.
  refine (stop_vm_guest_shutdown_fails guest state (Sample.env_of [vm]) Sample.w0
            "vm1" "operator" (mkSI (mkContent [vm])) vm
            (mkExn (OtherException "ToolsUnavailable") "VMware Tools is not running")
            1
            eq_refl eq_refl (fun _ _ => eq_refl) eq_refl eq_refl eq_refl
            _ (fun _ _ => eq_refl) eq_refl _ eq_refl).
  - discriminate.
  - split; [| reflexivity].
    intros i Hi. destruct i as [|i]; [reflexivity | lia].
Defined.

(** ** Restart *)

Lemma audited_operations_app (tr1 tr2 : list Event) :
  audited_operations (tr1 ++ tr2)
  = audited_operations tr1 ++ audited_operations tr2.
Proof. unfold audited_operations. now rewrite audit_records_app, List.map_app. Qed.

Lemma audited_operations_after_pause (name : string) (w : World) (a : nat)
    (e : exn) (cd : Z) :
  audited_operations (trace (after_pause name w a e cd))
  = audited_operations (trace w).
Proof.
  unfold after_pause. cbn [trace]. rewrite !audited_operations_app.
  cbn. now rewrite !app_nil_r.
Qed.

Lemma audited_operations_after_lookup (w : World) :
  audited_operations (trace (after_lookup w)) = audited_operations (trace w).
Proof.
  unfold after_lookup. cbn [trace]. rewrite audited_operations_app.
  cbn. now rewrite app_nil_r.
Qed.

Lemma audited_operations_after_polls (w : World) (n : nat) :
  audited_operations (trace (after_polls w n)) = audited_operations (trace w).
Proof.
  unfold after_polls. cbn [trace]. rewrite audited_operations_app.
  replace (audited_operations (repeat (EvSleep 1) n)) with (@nil string);
    [apply app_nil_r |].
  induction n as [|n IH]; [reflexivity | exact IH].
Qed.

Lemma audited_operations_logged (w : World) (ev : Event) :
  audited_operations (trace (logged w ev))
  = audited_operations (trace w)
    ++ match ev with
       | EvAudit _ r => [audit_operation r]
       | _ => []
       end.
Proof.
  unfold logged. cbn [trace]. rewrite audited_operations_app. f_equal.
  now destruct ev.
Qed.

Lemma retry_warnings_app (tr1 tr2 : list Event) :
  retry_warnings (tr1 ++ tr2) = retry_warnings tr1 ++ retry_warnings tr2.
Proof.
  induction tr1 as [|ev tr1 IH]; cbn [app retry_warnings]; [reflexivity |].
  destruct ev; cbn [app]; now rewrite ?IH.
Qed.

Section StopRejected.

Variable ShutdownGuest : VirtualMachine -> M unit.
Variable powerState_after_grace : VirtualMachine -> M PowerState.
Variables (vm_name user_role : string) (force : bool).

(** [stop_vm] on a name that fails validation: three attempts, each
    rejected before the [try] block, then the audit of the failure. *)
Lemma stop_vm_invalid_name (env : Env) (w : World) :
  RBACManager.check_permission (settings env) user_role "vm:stop" = true ->
  validate_vm_name vm_name = false ->
  logger_returns env ->
  0 < operation_timeout (settings env) ->
  wakes_before_deadline env (clock w + 3) ->
  VMOperations.stop_vm ShutdownGuest powerState_after_grace vm_name force
    user_role env w
  = (Raise (invalid_vm_name vm_name),
     failed_audit "stop_vm" (Some "vm") (clock w) (invalid_vm_name vm_name)
       (after_three_attempts "stop_vm" w (invalid_vm_name vm_name))).
Proof.
  intros Hperm Hvalid Hlog Hpos Hwake.
  unfold VMOperations.stop_vm, failed_audit.
  apply audit_log_raise; [| reflexivity | apply Hlog].
  assert (Hattempt : forall w',
            timeout_handler None "stop_vm"
              (VMOperations.stop_vm_func ShutdownGuest powerState_after_grace
                 vm_name force user_role) env w'
            = (Raise (invalid_vm_name vm_name), w')).
  { intros w'. apply timeout_handler_raise; try assumption; try reflexivity.
    unfold VMOperations.stop_vm_func. mrun.
    change (settings (under_deadline env w' _)) with (settings env).
    now rewrite Hperm, Hvalid. }
  unfold after_three_attempts. eapply async_retry_thrice.
  - apply Hattempt.
  - reflexivity.
  - apply (wakes_before_deadline_mono env (clock w + 3)); [lia | exact Hwake].
  - apply Hattempt.
  - reflexivity.
  - apply (wakes_before_deadline_mono env (clock w + 3)); [| exact Hwake].
    cbn [after_pause clock]. lia.
  - apply Hattempt.
  - reflexivity.
Qed.

(** One attempt of [restart_vm] on such a name. *)
Lemma restart_attempt_invalid_name (env : Env) (w : World) :
  RBACManager.check_permission (settings env) user_role "vm:start" = true ->
  RBACManager.check_permission (settings env) user_role "vm:stop" = true ->
  validate_vm_name vm_name = false ->
  logger_returns env ->
  3 < operation_timeout (settings env) ->
  deadline env = None ->
  timeout_handler None "restart_vm"
    (VMOperations.restart_vm_func ShutdownGuest powerState_after_grace
       vm_name force user_role) env w
  = (Raise (restart_rejected vm_name),
     failed_audit "stop_vm" (Some "vm") (clock w) (invalid_vm_name vm_name)
       (after_three_attempts "stop_vm" w (invalid_vm_name vm_name))).
Proof.
  intros Hstart Hstop Hvalid Hlog HT Hdl.
  apply timeout_handler_raise; [cbn [int_or]; lia | | reflexivity | reflexivity].
  cbn [int_or].
  unfold VMOperations.restart_vm_func. mrun.
  change (settings (under_deadline env w _)) with (settings env).
  rewrite Hstart. cbn [negb].
  unfold VMOperations.restart_vm_try.
  cbv beta iota zeta delta [bind ret].
  rewrite stop_vm_invalid_name.
  - reflexivity.
  - exact Hstop.
  - exact Hvalid.
  - exact Hlog.
  - change (settings (under_deadline env w _)) with (settings env). lia.
  - unfold wakes_before_deadline, under_deadline, with_deadline.
    cbn [deadline]. rewrite Hdl. lia.
Qed.

End StopRejected.

Lemma retry_warnings_after_pause (name : string) (w : World) (a : nat)
    (e : exn) (cd : Z) :
  retry_warnings (trace (after_pause name w a e cd))
  = retry_warnings (trace w) ++ [Z.of_nat a + 1].
Proof.
  unfold after_pause. cbn [trace]. rewrite !retry_warnings_app.
  cbn [retry_warnings]. now rewrite app_nil_r.
Qed.

Lemma retry_warnings_logged_audit (w : World) (lvl : AuditLevel) (r : AuditRecord) :
  retry_warnings (trace (logged w (EvAudit lvl r))) = retry_warnings (trace w).
Proof.
  unfold logged. cbn [trace]. rewrite retry_warnings_app. cbn. apply app_nil_r.
Qed.

(** X26. [restart_vm] does not validate the VM name itself.  Called by a
    role that may start and stop VMs with a name that fails validation
    (no enclosing deadline, operation timeout above 3 seconds), it hands
    the name to [stop_vm], whose three attempts are rejected; the
    [ValidationError] is turned into a [VMOperationError] by the body of
    [restart_vm], and the retry decorator of [restart_vm] repeats the
    whole: [stop_vm] runs three times with three attempts each, eight
    retry warnings are logged, four audit records are written, and the
    failure reaches the caller after 12 seconds of back-off, without any
    call on the client. *)
Theorem restart_vm_invalid_name (ShutdownGuest : VirtualMachine -> M unit)
    (powerState_after_grace : VirtualMachine -> M PowerState)
    (env : Env) (w : World) (vm_name user_role : string) (force : bool) :
  RBACManager.check_permission (settings env) user_role "vm:start" = true ->
  RBACManager.check_permission (settings env) user_role "vm:stop" = true ->
  validate_vm_name vm_name = false ->
  logger_returns env ->
  3 < operation_timeout (settings env) ->
  deadline env = None ->
  let r := VMOperations.restart_vm ShutdownGuest powerState_after_grace
             vm_name force user_role env w in
  fst r = Raise (mkExn VMOperationError
                   ("Failed to restart VM: Invalid VM name: " +:+ vm_name)) /\
  client_calls (trace (snd r)) = client_calls (trace w) /\
  retry_warnings (trace (snd r))
  = retry_warnings (trace w) ++ [1; 2; 1; 1; 2; 2; 1; 2] /\
  audited_operations (trace (snd r))
  = audited_operations (trace w) ++ ["stop_vm"; "stop_vm"; "stop_vm"; "restart_vm"] /\
  clock (snd r) = clock w + 12.
Proof.
  intros Hstart Hstop Hvalid Hlog HT Hdl r. subst r.
  unfold VMOperations.restart_vm.
  assert (Hattempt := fun w' =>
            restart_attempt_invalid_name ShutdownGuest powerState_after_grace
              vm_name user_role force env w' Hstart Hstop Hvalid Hlog HT Hdl).
  set (ve := invalid_vm_name vm_name) in *.
  set (re := restart_rejected vm_name) in *.
  set (stop_fails := fun w' : World =>
         failed_audit "stop_vm" (Some "vm") (clock w') ve
           (after_three_attempts "stop_vm" w' ve)).
  assert (Hrun : async_retry 2 1 2 "restart_vm"
                   (fun _ : nat =>
                      timeout_handler None "restart_vm"
                        (VMOperations.restart_vm_func ShutdownGuest
                           powerState_after_grace vm_name force user_role)) env w
                 = (Raise re,
                    stop_fails
                      (after_pause "restart_vm"
                         (stop_fails (after_pause "restart_vm" (stop_fails w) 0 re 1))
                         1 re 2))).
  { eapply async_retry_thrice.
    - apply Hattempt.
    - reflexivity.
    - now apply no_deadline_wakes.
    - apply Hattempt.
    - reflexivity.
    - now apply no_deadline_wakes.
    - apply Hattempt.
    - reflexivity. }
  rewrite (audit_log_raise _ _ _ _ _ _ _ Hrun eq_refl (Hlog _ _)).
  cbn [fst snd]. split; [reflexivity |].
  subst stop_fails. cbv beta. unfold failed_audit, after_three_attempts.
  split; [| split; [| split]].
  - now repeat (rewrite client_calls_logged_audit || rewrite client_calls_after_pause).
  - repeat (rewrite retry_warnings_logged_audit || rewrite retry_warnings_after_pause).
    rewrite <- !app_assoc. reflexivity.
  - repeat (rewrite audited_operations_logged || rewrite audited_operations_after_pause).
    cbn [audit_record audit_operation]. rewrite <- !app_assoc. reflexivity.
  - cbn [logged after_pause clock]. lia.
Qed.

Lemma restart_vm_invalid_name_witness :
  let guest := fun _ : VirtualMachine => ret tt in
  let state := fun _ : VirtualMachine => ret poweredOff in
  let r := VMOperations.restart_vm guest state "a/b" false "operator"
             (Sample.env_of []) Sample.w0 in
  fst r = Raise (mkExn VMOperationError "Failed to restart VM: Invalid VM name: a/b") /\
  client_calls (trace (snd r)) = [] /\
  clock (snd r) = 1012.
Proof.
  intros guest state r.
  destruct (restart_vm_invalid_name guest state (Sample.env_of []) Sample.w0
              "a/b" "operator" false
              eq_refl eq_refl eq_refl (fun _ _ => eq_refl) eq_refl eq_refl)
    as (H1 & H2 & _ & _ & H5).
  split; [exact H1 |]. split; [exact H2 | exact H5].
Defined.

(** X27. [restart_vm] of a VM that is powered off, by a role that may
    start and stop VMs (no enclosing deadline, operation timeout [T]):
    the stop step is the no-op ["already_stopped"], the operation pauses
    2 seconds, and the start step submits the one action of the whole
    operation.  When the power-on task succeeds after [n] polls,
    [2 + n < T], the result is ["restarted"] and embeds the results of
    both steps; three audit records are written, for [stop_vm],
    [start_vm] and [restart_vm] in this order. *)
Theorem restart_vm_of_stopped_vm (ShutdownGuest : VirtualMachine -> M unit)
    (powerState_after_grace : VirtualMachine -> M PowerState)
    (env : Env) (w : World) (vm_name user_role : string) (force : bool)
    (si : ServiceInstance) (vm : VirtualMachine) (n : nat) :
  RBACManager.check_permission (settings env) user_role "vm:start" = true ->
  RBACManager.check_permission (settings env) user_role "vm:stop" = true ->
  validate_vm_name vm_name = true ->
  logger_returns env ->
  deadline env = None ->
  service_instance env = Some si ->
  lookup_vm si vm_name = Some vm ->
  powerState vm = poweredOff ->
  2 + Z.of_nat n < operation_timeout (settings env) ->
  ends_after (PowerOnVM_Task vm) (clock w + 2) n ->
  info_state (info (PowerOnVM_Task vm) (clock w + 2 + Z.of_nat n)) = success ->
  let r := VMOperations.restart_vm ShutdownGuest powerState_after_grace
             vm_name force user_role env w in
  fst r = Ok (restarted vm_name (already_stopped vm_name)
                (started vm_name
                   (info_result (info (PowerOnVM_Task vm)
                                   (clock w + 2 + Z.of_nat n))))) /\
  actions (trace (snd r)) = actions (trace w) ++ [CallPowerOnVM (vm_name_of vm)] /\
  audited_operations (trace (snd r))
  = audited_operations (trace w) ++ ["stop_vm"; "start_vm"; "restart_vm"] /\
  clock (snd r) = clock w + 2 + Z.of_nat n.
Proof.
  intros Hstart Hstop Hvalid Hlog Hdl Hsi Hvm Hoff Hn [Hpend Hend] Hs r. subst r.
  assert (Hpos : 0 < operation_timeout (settings env)) by lia.
  set (T := operation_timeout (settings env)) in *.
  set (env1 := under_deadline env w T).
  (* the stop step *)
  set (w1 := logged (after_lookup w)
               (EvAudit INFO (audit_record "stop_vm" (Some "vm") (clock w) None
                                (after_lookup w)))).
  assert (H1 : VMOperations.stop_vm ShutdownGuest powerState_after_grace
                 vm_name force user_role env1 w
               = (Ok (already_stopped vm_name), w1)).
  { apply (stop_vm_first_attempt ShutdownGuest powerState_after_grace env1
             vm_name user_role force Hstop Hvalid Hlog Hpos).
    rewrite (stop_vm_try_found _ _ vm_name force si vm Hvm) by exact Hsi.
    now rewrite Hoff. }
  (* the pause *)
  set (w2 := {| clock := clock w1 + Z.max 0 2; trace := trace w1 ++ [EvSleep 2] |}).
  assert (H2 : sleep 2 env1 w1 = (Ok tt, w2)).
  { apply sleep_before_deadline.
    unfold wakes_before_deadline, env1, under_deadline, with_deadline.
    cbn [deadline w1 logged after_lookup clock]. rewrite Hdl. lia. }
  (* the start step *)
  set (result := info_result (info (PowerOnVM_Task vm) (clock w + 2 + Z.of_nat n))).
  set (w3 := after_polls
               (logged (after_lookup w2) (EvClient (CallPowerOnVM (vm_name_of vm))))
               n).
  assert (H3 : VMOperations.start_vm vm_name user_role env1 w2
               = (Ok (started vm_name result),
                  logged w3 (EvAudit INFO
                               (audit_record "start_vm" (Some "vm") (clock w2)
                                  None w3)))).
  { unfold VMOperations.start_vm.
    apply audit_log_ok; [| apply Hlog].
    apply async_retry_first_ok, timeout_handler_ok; [exact Hpos |].
    cbn [int_or].
    rewrite (start_vm_func_enters env vm_name user_role Hstart Hvalid)
      by reflexivity.
    unfold try_except.
    rewrite (start_vm_try_started vm_name _ w2 si vm n); try assumption.
    - subst result. cbn [w2 w1 logged after_lookup clock].
      replace (clock w + Z.max 0 2 + Z.of_nat n) with (clock w + 2 + Z.of_nat n)
        by lia.
      reflexivity.
    - now rewrite Hoff.
    - intros _. unfold wakes_before_deadline, env1, under_deadline, with_deadline.
      cbn [deadline settings w2 w1 logged after_lookup clock]. rewrite Hdl.
      fold T. lia.
    - change (settings (under_deadline env1 w2 _)) with (settings env).
      fold T. lia. }
  unfold VMOperations.restart_vm.
  erewrite audit_log_ok; [| | apply Hlog].
  2:{ apply async_retry_first_ok, timeout_handler_ok; [exact Hpos |].
      cbn [int_or]. fold T env1.
      unfold VMOperations.restart_vm_func. mrun.
      change (settings env1) with (settings env).
      rewrite Hstart. cbn [negb].
      unfold VMOperations.restart_vm_try.
      cbv beta iota zeta delta [bind ret].
      rewrite H1, H2, H3. reflexivity. }
  cbn [fst snd]. split; [reflexivity |].
  split; [| split].
  - rewrite !actions_logged_audit. subst w3.
    rewrite actions_after_polls, actions_logged_client, actions_after_lookup.
    subst w2. cbn [trace]. rewrite actions_app. subst w1.
    rewrite actions_logged_audit, actions_after_lookup.
    change (actions [EvSleep 2]) with (@nil ClientCall).
    now rewrite app_nil_r.
  - rewrite !audited_operations_logged. subst w3.
    rewrite audited_operations_after_polls, audited_operations_logged,
      audited_operations_after_lookup.
    subst w2. cbn [trace]. rewrite audited_operations_app. subst w1.
    rewrite audited_operations_logged, audited_operations_after_lookup.
    cbn [audit_record audit_operation].
    change (audited_operations [EvSleep 2]) with (@nil string).
    rewrite !app_nil_r, <- !app_assoc. reflexivity.
  - cbn [logged w3 after_polls after_lookup w2 w1 clock]. lia.
Qed.

Lemma restart_vm_of_stopped_vm_witness :
  let guest := fun _ : VirtualMachine => ret tt in
  let state := fun _ : VirtualMachine => ret poweredOff in
  let vm := Sample.vm1 poweredOff (Sample.task_ending 1003 success EmptyString) in
  let r := VMOperations.restart_vm guest state "vm1" false "operator"
             (Sample.env_of [vm]) Sample.w0 in
  fst r = Ok (restarted "vm1" (already_stopped "vm1")
                (started "vm1" (mkPayload "done"))) /\
  actions (trace (snd r)) = [CallPowerOnVM "vm1"] /\
  clock (snd r) = 1003.
Proof.
  intros guest state vm r.
  destruct (restart_vm_of_stopped_vm guest state (Sample.env_of [vm]) Sample.w0
              "vm1" "operator" false (mkSI (mkContent [vm])) vm 1
              eq_refl eq_refl eq_refl (fun _ _ => eq_refl) eq_refl eq_refl eq_refl
              eq_refl eq_refl)
    as (H1 & H2 & _ & H4).
  - split; [| reflexivity].
    intros i Hi. destruct i as [|i]; [reflexivity | lia].
  - reflexivity.
  - split; [exact H1 |]. split; [exact H2 | exact H4].
Defined.

(** ** The tool handler *)

Lemma call_tool_as_text (other_tool ill_typed : string -> gmap string value -> M value)
    (py_str : value -> string) (name : string) (arguments : gmap string value)
    (env : Env) (w : World) :
  call_tool other_tool ill_typed py_str name arguments env w
  = as_text py_str (_execute_tool other_tool ill_typed name arguments env w).
Proof.
  unfold call_tool, try_except, as_text, bind, ret.
  destruct (_execute_tool other_tool ill_typed name arguments env w) as [[v|e] w'];
    [reflexivity |].
  now destruct (is_Exception e).
Qed.

Lemma get_or_role (arguments : gmap string value) (default role : string) :
  role_of arguments default role ->
  get_or arguments "user_role" (VStr default) = VStr role.
Proof.
  unfold get_or. intros [H | [H ->]]; now rewrite H.
Qed.

(** X28. The role under which a tool runs is an argument of the call
    itself.  [call_tool] passes the [user_role] argument to the
    operation, and when the caller leaves it out the operation runs
    under the default of the tool: ["admin"] for [delete_vm],
    ["operator"] for [start_vm].  The response is the text of the
    operation's value or of its failure. *)
Theorem call_tool_role_is_an_argument
    (other_tool ill_typed : string -> gmap string value -> M value)
    (py_str : value -> string) (arguments : gmap string value)
    (vm_name role : string) (env : Env) (w : World) :
  arguments !! "vm_name" = Some (VStr vm_name) ->
  (role_of arguments "admin" role ->
   call_tool other_tool ill_typed py_str "delete_vm" arguments env w
   = as_text py_str (VMOperations.delete_vm vm_name role env w)) /\
  (role_of arguments "operator" role ->
   call_tool other_tool ill_typed py_str "start_vm" arguments env w
   = as_text py_str (VMOperations.start_vm vm_name role env w)).
Proof.
  intros Hname. split; intros Hrole; rewrite call_tool_as_text; f_equal;
    unfold _execute_tool; cbn [String.eqb Ascii.eqb Bool.eqb andb];
    unfold subscript, bind, ret; rewrite Hname; cbv beta iota;
    now rewrite (get_or_role _ _ _ Hrole).
Qed.

Lemma call_tool_role_is_an_argument_witness :
  let other := fun (_ : string) (_ : gmap string value) => ret VNone in
  let vm := Sample.vm1 poweredOff (Sample.task_ending 0 success EmptyString) in
  call_tool other other (fun _ => "ok") "delete_vm"
    (<["vm_name" := VStr "vm1"]> ∅) (Sample.env_of [vm]) Sample.w0
  = as_text (fun _ => "ok")
      (VMOperations.delete_vm "vm1" "admin" (Sample.env_of [vm]) Sample.w0).
Proof.
  intros other vm.
  refine (proj1 (call_tool_role_is_an_argument other other (fun _ => "ok")
                   (<["vm_name" := VStr "vm1"]> ∅) "vm1" "admin"
                   (Sample.env_of [vm]) Sample.w0 _) _).
  - apply lookup_insert_eq.
  - right. split; [| reflexivity].
    rewrite lookup_insert_ne by discriminate. apply lookup_empty.
Defined.

(** X29. [call_tool] contains the failures of the tools: whatever the
    tool and its arguments, no [Exception] leaves the handler - the
    failure becomes a response text that starts with ["Error: "] and
    does not tell the classes of failure apart.  A call of one of the
    four VM tools without the argument [vm_name] is answered in this
    way before the operation is entered: the world is unchanged, so
    nothing is audited and the client is not called. *)
Theorem call_tool_contains_failures
    (other_tool ill_typed : string -> gmap string value -> M value)
    (py_str : value -> string) (name : string) (arguments : gmap string value)
    (env : Env) (w : World) :
  let r := call_tool other_tool ill_typed py_str name arguments env w in
  (forall e, fst r = Raise e -> is_Exception e = false) /\
  (arguments !! "vm_name" = None ->
   name ∈ ["start_vm"; "delete_vm"; "delete_snapshot"; "modify_vm_resources"] ->
   r = (Ok [mkTextContent "text" "Error: 'vm_name'"], w)).
Proof.
  intros r. subst r. rewrite call_tool_as_text. split.
  - intros e. unfold as_text.
    destruct (_execute_tool other_tool ill_typed name arguments env w)
      as [[v|e'] w']; [discriminate |].
    destruct (is_Exception e') eqn:He; [discriminate |].
    cbn [fst]. intros H. now inversion H; subst.
  - intros Hname Hin.
    assert (Hrun : _execute_tool other_tool ill_typed name arguments env w
                   = (Raise (mkExn (OtherException "KeyError") "'vm_name'"), w)).
    { rewrite !elem_of_cons in Hin.
      destruct Hin as [-> | [-> | [-> | [-> | Hin]]]];
        [| | | | now apply elem_of_nil in Hin];
        unfold _execute_tool; cbn [String.eqb Ascii.eqb Bool.eqb andb];
        unfold subscript, bind, ret; now rewrite Hname. }
    now rewrite Hrun.
Qed.

Lemma call_tool_contains_failures_witness :
  let other := fun (_ : string) (_ : gmap string value) => ret VNone in
  call_tool other other (fun _ => "ok") "delete_vm" ∅ (Sample.env_of []) Sample.w0
  = (Ok [mkTextContent "text" "Error: 'vm_name'"], Sample.w0).
Proof.
  intros other.
  refine (proj2 (call_tool_contains_failures other other (fun _ => "ok")
                   "delete_vm" ∅ (Sample.env_of []) Sample.w0) _ _).
  - apply lookup_empty.
  - rewrite !elem_of_cons. right. left. reflexivity.
Defined.
